(** * The transaction normalizer of the chat assistant

    A shallow embedding of the library normalizer ([app/lib/transactions.ts],
    imported as [~/lib/transactions]) and of the copy of the same functions
    kept inside the transaction-summary component, followed by the
    properties the specification states about them.

    Conventions of the embedding:
    - the input, of TypeScript type [unknown], is a JSON-like value or
      [undefined]: a [JsValue]. Numbers are IEEE binary64 floats
      ([PrimFloat.float]); objects are finite maps from property names to
      values;
    - a string is a sequence of code units, of which the model covers the
      ones below 256; [trim] and [toLowerCase] follow ECMAScript on that
      range;
    - what can throw in JavaScript (reading a property of [undefined] or
      [null], calling an array method on something that is not an array,
      constructing an [Intl.NumberFormat]) is a computation in the error
      monad [Exc]; a value that TypeScript types as [T | undefined] is an
      [option T];
    - built-ins of the host that the code calls but does not define
      ([Number(s)], [String(n)], [Intl.NumberFormat], [toLocaleString]) are
      the fields of the class [Host], and the theorems hold for every host.

    Layout: the code ([Transactions], [TransactionSummary]); the values the
    computations return ([Value]); the wording of the specification
    ([Spec]); concrete inputs; then the lemmas and theorems. *)

From Stdlib Require Import String Ascii List Bool NArith ZArith Lia.
From Stdlib Require Import Floats Uint63.
From stdpp Require Import base option gmap strings.
Import ListNotations.

Set Warnings "-register-all".
Local Open Scope string_scope.

(** ** Strings *)

Module JsString.

(** ECMAScript [WhiteSpace] and [LineTerminator] code units below 256:
    TAB, LF, VT, FF, CR, SP and NBSP. *)
Definition isWhiteSpace (c : ascii) : bool :=
  match N_of_ascii c with
  | 9 | 10 | 11 | 12 | 13 | 32 | 160 => true
  | _ => false
  end%N.

(** [String.prototype.trimStart]. *)
Fixpoint trimStart (s : string) : string :=
  match s with
  | EmptyString => EmptyString
  | String c rest => if isWhiteSpace c then trimStart rest else s
  end.

(** [String.prototype.trimEnd]. *)
Fixpoint trimEnd (s : string) : string :=
  match s with
  | EmptyString => EmptyString
  | String c rest =>
      match trimEnd rest with
      | EmptyString => if isWhiteSpace c then EmptyString else String c EmptyString
      | kept => String c kept
      end
  end.

(** [String.prototype.trim]. *)
Definition trim (s : string) : string := trimEnd (trimStart s).

(** Lower-casing of one code unit: A-Z, and the Latin-1 capitals
    U+00C0-U+00DE except the multiplication sign U+00D7. *)
Definition toLowerCaseUnit (c : ascii) : ascii :=
  let n := N_of_ascii c in
  if (((65 <=? n) && (n <=? 90)) || ((192 <=? n) && (n <=? 222) && negb (n =? 215)))%N
  then ascii_of_N (n + 32)%N
  else c.

(** [String.prototype.toLowerCase]. *)
Fixpoint toLowerCase (s : string) : string :=
  match s with
  | EmptyString => EmptyString
  | String c rest => String (toLowerCaseUnit c) (toLowerCase rest)
  end.

(** [s.length > 0]. *)
Definition nonEmpty (s : string) : bool :=
  match s with EmptyString => false | String _ _ => true end.

(** [list.includes(s)] on a list of strings. *)
Definition includes (candidates : list string) (s : string) : bool :=
  existsb (String.eqb s) candidates.

(** The first and the last code unit of a string, when it has one. *)
Definition firstUnit (s : string) : option ascii :=
  match s with EmptyString => None | String c _ => Some c end.

Fixpoint lastUnit (s : string) : option ascii :=
  match s with
  | EmptyString => None
  | String c EmptyString => Some c
  | String _ rest => lastUnit rest
  end.

(** A non-empty string with no white space at either end. *)
Definition isClean (s : string) : Prop :=
  (exists c, firstUnit s = Some c /\ isWhiteSpace c = false) /\
  (exists c, lastUnit s = Some c /\ isWhiteSpace c = false).

(** [t] occurs in [s] as a substring. *)
Definition contains (s t : string) : Prop :=
  exists before after, s = before ++ t ++ after.

End JsString.
Import JsString.

(** ** Values, exceptions *)

Inductive JsValue : Type :=
| JUndefined
| JNull
| JBool (b : bool)
| JNum (n : float)
| JStr (s : string)
| JArr (elements : list JsValue)
| JObj (members : gmap string JsValue).

Inductive JsError : Type := TypeError | RangeError.

(** A computation that returns a value or throws. *)
Inductive Exc (A : Type) : Type :=
| Ok (a : A)
| Throw (e : JsError).
Arguments Ok {A} a.
Arguments Throw {A} e.

Definition bind {A B} (c : Exc A) (k : A -> Exc B) : Exc B :=
  match c with
  | Ok a => k a
  | Throw e => Throw e
  end.

Notation "'let!' x ':=' c 'in' k" := (bind c (fun x => k))
  (at level 10, x name, c at level 200, k at level 200, only parsing).

(** [f(e)] for a function [f] that cannot throw and an argument expression
    [e] that is evaluated first. *)
Definition call {A B} (f : A -> B) (c : Exc A) : Exc B :=
  let! x := c in Ok (f x).
Infix "@@" := call (at level 41, right associativity).

(** [try { body } catch { handler }]. *)
Definition tryCatch {A} (body : Exc A) (handler : Exc A) : Exc A :=
  match body with
  | Ok a => Ok a
  | Throw _ => handler
  end.

Fixpoint mapM {A B} (f : A -> Exc B) (l : list A) : Exc (list B) :=
  match l with
  | [] => Ok []
  | x :: rest => let! y := f x in let! ys := mapM f rest in Ok (y :: ys)
  end.

(** [null] and [undefined], for [??] and [?.]; a TypeScript [T | undefined]
    is nullish when it is [None]. *)
Class Nullable (A : Type) := isNullish : A -> bool.

#[global] Instance JsValue_nullable : Nullable JsValue :=
  fun v => match v with JUndefined | JNull => true | _ => false end.

#[global] Instance option_nullable {A} : Nullable (option A) :=
  fun o => match o with None => true | Some _ => false end.

(** [a ?? b]: [b] is evaluated only when [a] is nullish. JavaScript groups
    [a ?? b ?? c] to the left, the notation to the right; the two groupings
    evaluate the same operands in the same order ([coalesce_assoc]). *)
Definition coalesce {A} `{Nullable A} (a b : Exc A) : Exc A :=
  let! x := a in if isNullish x then b else Ok x.
Infix "??" := coalesce (at level 55, right associativity).

(** JavaScript truthiness, for [!x], [Boolean(x)], [x || y] and [x ? a : b]. *)
Class Truthy (A : Type) := truthy : A -> bool.

Definition truthyNumber (n : float) : bool :=
  negb (PrimFloat.is_zero n || PrimFloat.is_nan n).

#[global] Instance JsValue_truthy : Truthy JsValue :=
  fun v =>
    match v with
    | JUndefined | JNull => false
    | JBool b => b
    | JNum n => truthyNumber n
    | JStr s => nonEmpty s
    | JArr _ | JObj _ => true
    end.

#[global] Instance option_string_truthy : Truthy (option string) :=
  fun o => match o with Some s => nonEmpty s | None => false end.

#[global] Instance option_number_truthy : Truthy (option float) :=
  fun o => match o with Some n => truthyNumber n | None => false end.

(** [value.key] and [value[key]]. Reading a property of [undefined] or
    [null] throws a TypeError. On an object the result is the member, or
    [undefined]; none of the property names the normalizer reads is a
    property of an array or of a primitive, so there the result is
    [undefined]. *)
Definition getProp (value : JsValue) (key : string) : Exc JsValue :=
  match value with
  | JUndefined | JNull => Throw TypeError
  | JObj members => Ok (default JUndefined (members !! key))
  | _ => Ok JUndefined
  end.
Notation "v .[ k ]" := (getProp v k) (at level 1, left associativity, format "v .[ k ]").

(** [value?.key]. *)
Definition getPropOpt (value : JsValue) (key : string) : Exc JsValue :=
  if isNullish value then Ok JUndefined else getProp value key.
Notation "v ?.[ k ]" := (getPropOpt v k) (at level 1, left associativity, format "v ?.[ k ]").

Definition Array_isArray (value : JsValue) : bool :=
  match value with JArr _ => true | _ => false end.

(** The elements a method of [Array.prototype] ([map], [find]) iterates
    over; calling such a method on a value that is not an array throws. *)
Definition elementsOf (value : JsValue) : Exc (list JsValue) :=
  match value with
  | JArr elements => Ok elements
  | _ => Throw TypeError
  end.

(** [.filter(Boolean)] on a list of [T | null]. *)
Fixpoint filterBoolean {A} (l : list (option A)) : list A :=
  match l with
  | [] => []
  | Some x :: rest => x :: filterBoolean rest
  | None :: rest => filterBoolean rest
  end.

(** [l.length] as a number (exact below 2^53). *)
Definition lengthNumber {A} (l : list A) : float :=
  PrimFloat.of_uint63 (Uint63.of_Z (Z.of_nat (List.length l))).

(** ** Built-ins of the host *)

Class Host := {
  (** [Number(s)] on a string; it returns NaN on what is not a numeric
      string and never throws. *)
  Number_ofString : string -> float;
  (** [String(n)] on a number; it never throws. *)
  String_ofNumber : float -> string;
  (** [n.toLocaleString()], called without arguments; it never throws. *)
  Number_toLocaleString : float -> string;
  (** [new Intl.NumberFormat(undefined, { style: "currency", currency,
      maximumFractionDigits: 2 }).format(value)]; the constructor throws a
      RangeError on a currency code it rejects. *)
  Intl_formatCurrency : string -> float -> Exc string;
  (** [new Intl.NumberFormat(undefined, { style: "decimal",
      maximumFractionDigits: 2 }).format(value)]. *)
  Intl_formatDecimal : float -> Exc string;
}.

(** ** The library normalizer ([app/lib/transactions.ts]) *)

Module Transactions.

Inductive NormalizedStatus : Type := Success | Failed | Abandoned | Other.

Record NormalizedTransaction : Type := {
  id : option string;
  status : NormalizedStatus;
  rawStatus : option string;
  customerName : option string;
  customerEmail : option string;
  failureReason : option string;
  gatewayResponse : option string;
  amount : option float;
  currency : option string;
  createdAt : option string;
}.

(** [metaCurrency] is the source's [currency]; a module cannot declare the
    projection [currency] twice. *)
Record TransactionMeta : Type := {
  total : option float;
  totalVolume : option float;
  metaCurrency : option string;
  message : option string;
  page : option float;
  perPage : option float;
  pageCount : option float;
}.

Record NormalizedTransactionResult : Type := {
  transactions : list NormalizedTransaction;
  meta : TransactionMeta;
}.

Definition isRecord (value : JsValue) : bool :=
  match value with
  | JArr _ | JObj _ => true
  | _ => false
  end.

Definition getRecord (value : JsValue) : JsValue :=
  if isRecord value then value else JUndefined.

Definition asString (value : JsValue) : option string :=
  match value with
  | JStr s => if nonEmpty (trim s) then Some (trim s) else None
  | _ => None
  end.

Definition normalizeStatus (value : option string) : NormalizedStatus :=
  if negb (truthy value) then Other
  else
    let status := toLowerCase (default "" value) in
    if includes ["success"; "successful"] status then Success
    else if includes ["failed"; "failure"; "error"] status then Failed
    else if includes ["abandoned"; "cancelled"; "canceled"; "timeout";
                      "timed out"; "expired"] status
    then Abandoned
    else Other.

Definition buildName (firstName lastName fallback : option string)
  : option string :=
  let parts := List.filter truthy [firstName; lastName] in
  if (0 <? List.length parts)%nat
  then Some (trim (String.concat " " (map (default "") parts)))
  else
    match fallback with
    | Some name => if nonEmpty (trim name) then Some (trim name) else None
    | None => None
    end.

(** The callback of [record.errors.map] in [extractErrorFromLog]. *)
Definition errorText (error : JsValue) : Exc (option string) :=
  if isRecord error
  then asString @@ (error.["message"] ?? error.["detail"] ?? error.["description"])
  else Ok None.

Definition isStringValue (value : JsValue) : bool :=
  match value with JStr _ => true | _ => false end.

(** [const first = errors.find((error) => typeof error === "string")],
    kept when [first && typeof first === "string"] holds. *)
Definition firstPlainString (errors : list JsValue) : option string :=
  match find isStringValue errors with
  | Some (JStr first) => if nonEmpty first then Some first else None
  | _ => None
  end.

(** [record.errors] is read once here; the source reads it three times,
    always from the same object. *)
Definition extractErrorFromLog (log : JsValue) : Exc (option string) :=
  let record := getRecord log in
  if negb (truthy record) then Ok None
  else
    let! errors := record.["errors"] in
    let! fromErrors :=
      if Array_isArray errors then
        let! elements := elementsOf errors in
        match firstPlainString elements with
        | Some first => Ok (Some first)
        | None =>
            let! texts := mapM errorText elements in
            let firstMessage := default None (find truthy texts) in
            Ok (if truthy firstMessage then firstMessage else None)
        end
      else Ok None in
    match fromErrors with
    | Some text => Ok (Some text)
    | None => asString @@ record.["message"]
    end.

Section WithHost.
Context `{Host}.

Definition asNumber (value : JsValue) : option float :=
  match value with
  | JNum n => if PrimFloat.is_finite n then Some n else None
  | JStr s =>
      if nonEmpty (trim s) then
        let parsed := Number_ofString s in
        if PrimFloat.is_finite parsed then Some parsed else None
      else None
  | _ => None
  end.

Definition toId (value : JsValue) : option string :=
  match value with
  | JStr s => Some s
  | JNum n => Some (String_ofNumber n)
  | _ => None
  end.

Definition normalizeTransaction (entry : JsValue)
  : Exc (option NormalizedTransaction) :=
  if negb (isRecord entry) then Ok None
  else
    let! rawStatus :=
      asString @@ (entry.["status"] ?? entry.["state"] ?? entry.["current_status"]) in
    let normalizedStatus := normalizeStatus rawStatus in
    let! customer :=
      (getRecord @@ entry.["customer"])
        ?? (getRecord @@ entry.["customer_data"])
        ?? (getRecord @@ entry.["customerDetails"]) in
    let! authorization := getRecord @@ entry.["authorization"] in
    let! metadata := getRecord @@ entry.["metadata"] in
    let! firstName :=
      asString @@ (entry.["first_name"] ?? customer?.["first_name"]) in
    let! lastName :=
      asString @@ (entry.["last_name"] ?? customer?.["last_name"]) in
    let! fallbackName :=
      asString @@ (customer?.["name"] ?? entry.["customer_name"]
                     ?? entry.["customerName"] ?? entry.["name"]) in
    let! customerName :=
      Ok (buildName firstName lastName fallbackName)
        ?? (asString @@ authorization?.["account_name"]) in
    let! customerEmail :=
      (asString @@ customer?.["email"])
        ?? (asString @@ (entry.["customer_email"] ?? entry.["email"]
                           ?? entry.["customerEmail"]))
        ?? (asString @@ authorization?.["email"])
        ?? (asString @@ metadata?.["email"]) in
    let! gatewayResponse :=
      asString @@ (entry.["gateway_response"] ?? entry.["gatewayResponse"]) in
    let! failureReason :=
      Ok gatewayResponse
        ?? (asString @@ (entry.["failure_reason"] ?? entry.["failureReason"]))
        ?? (asString @@ (entry.["reason"] ?? entry.["status_reason"]))
        ?? (let! log := entry.["log"] in extractErrorFromLog log) in
    let! idValue :=
      entry.["id"] ?? entry.["reference"] ?? entry.["transaction_id"]
        ?? entry.["transactionId"] in
    let! amount := asNumber @@ (entry.["amount"] ?? entry.["amount_in_minor"]) in
    let! currency := asString @@ entry.["currency"] in
    let! createdAt := asString @@ (entry.["createdAt"] ?? entry.["created_at"]) in
    Ok (Some {|
      id := toId idValue;
      status := normalizedStatus;
      rawStatus := toLowerCase <$> rawStatus;
      customerName := customerName;
      customerEmail := customerEmail;
      failureReason := failureReason;
      gatewayResponse := gatewayResponse;
      amount := amount;
      currency := currency;
      createdAt := createdAt;
    |}).

Definition sumAmounts (transactions : list NormalizedTransaction)
  : option float :=
  let total :=
    fold_left (fun acc txn => (acc + default 0 (amount txn))%float)
              transactions 0%float in
  if (0 <? total)%float then Some total else None.

Definition inferCurrency (transactions : list NormalizedTransaction)
  : option string :=
  find (fun txn => truthy (currency txn)) transactions ≫= currency.

Definition formatCurrencyAmount (value : float) (currency : option string)
  : Exc string :=
  tryCatch
    (if truthy currency
     then Intl_formatCurrency (default "" currency) value
     else Intl_formatDecimal value)
    (Ok (if truthy currency
         then default "" currency ++ " " ++ Number_toLocaleString value
         else Number_toLocaleString value)).

Definition possibleKeys : list string :=
  ["transactions"; "data"; "items"; "records"; "results"].

Definition extractTransactionArrays (data : JsValue) : Exc (list JsValue) :=
  if negb (truthy data) then Ok []
  else if Array_isArray data then Ok [data]
  else if isRecord data then
    let! values := mapM (fun key => data.[key]) possibleKeys in
    Ok (List.filter Array_isArray values)
  else Ok [].

Definition isTransactionPayload (value : JsValue) : Exc bool :=
  if isRecord value then Array_isArray @@ value.["data"] else Ok false.

(** [entries.map((entry) => normalizeTransaction(entry)).filter(Boolean)],
    the expression both branches of [normalizeTransactionsFromOutput]
    apply to the array they found. *)
Definition normalizeEntries (entries : list JsValue)
  : Exc (list NormalizedTransaction) :=
  filterBoolean @@ mapM normalizeTransaction entries.

Definition normalizeTransactionsFromOutput (data : JsValue)
  : Exc NormalizedTransactionResult :=
  let! isPayload := isTransactionPayload data in
  if isPayload then
    let! entries := (let! d := data.["data"] in elementsOf d) in
    let! transactions := normalizeEntries entries in
    let! metaRecord := getRecord @@ data.["meta"] in
    let! total :=
      (asNumber @@ metaRecord?.["total"])
        ?? Ok (Some (lengthNumber transactions)) in
    let! totalVolume :=
      asNumber @@ (metaRecord?.["total_volume"]
                     ?? metaRecord?.["total_volume_in_minor"]) in
    let! currency := asString @@ metaRecord?.["currency"] in
    let! message := asString @@ data.["message"] in
    let! page := asNumber @@ metaRecord?.["page"] in
    let! perPage := asNumber @@ metaRecord?.["per_page"] in
    let! pageCount := asNumber @@ metaRecord?.["page_count"] in
    let currency :=
      if negb (truthy currency) then inferCurrency transactions else currency in
    let totalVolume :=
      if negb (truthy totalVolume) then sumAmounts transactions
      else totalVolume in
    Ok {| transactions := transactions;
          meta := {| total := total; totalVolume := totalVolume;
                     metaCurrency := currency; message := message;
                     page := page; perPage := perPage;
                     pageCount := pageCount |} |}
  else
    let! candidates := extractTransactionArrays data in
    let source := find Array_isArray candidates in
    let! transactions :=
      (let! entries :=
         match source with Some s => elementsOf s | None => Ok [] end in
       normalizeEntries entries) in
    let record := getRecord data in
    let! recordMeta := getRecord @@ record?.["meta"] in
    let! total :=
      (asNumber @@ (recordMeta?.["total"] ?? record?.["total"]))
        ?? Ok (Some (lengthNumber transactions)) in
    let! totalVolume :=
      asNumber @@ (recordMeta?.["total_volume"] ?? record?.["total_volume"]) in
    let! currency :=
      (asString @@ (recordMeta?.["currency"] ?? record?.["currency"]))
        ?? Ok (inferCurrency transactions) in
    let! message := asString @@ record?.["message"] in
    let totalVolume :=
      if negb (truthy totalVolume) then sumAmounts transactions
      else totalVolume in
    Ok {| transactions := transactions;
          meta := {| total := total; totalVolume := totalVolume;
                     metaCurrency := currency; message := message;
                     page := None; perPage := None; pageCount := None |} |}.

End WithHost.

End Transactions.

(** ** The copy inside the transaction-summary component

    The component file declares its own, smaller result types and carries
    its own copies of the normalizer's functions. The copies of [isRecord],
    [getRecord], [asString], [asNumber], [toId], [normalizeStatus],
    [buildName], [extractErrorFromLog], [extractTransactionArrays] and
    [isTransactionPayload] are, token for token, the library's, and are
    shared here; the functions below are the ones whose text or types
    differ. *)

Module TransactionSummary.

Import Transactions(NormalizedStatus, Success, Failed, Abandoned, Other).

Record NormalizedTransaction : Type := {
  id : option string;
  status : NormalizedStatus;
  rawStatus : option string;
  customerName : option string;
  customerEmail : option string;
  failureReason : option string;
  amount : option float;
  currency : option string;
  createdAt : option string;
}.

Record TransactionMeta : Type := {
  total : option float;
  totalVolume : option float;
  metaCurrency : option string;
  message : option string;
}.

Record NormalizedTransactionResult : Type := {
  transactions : list NormalizedTransaction;
  meta : TransactionMeta;
}.

Section WithHost.
Context `{Host}.

Definition normalizeTransaction (entry : JsValue)
  : Exc (option NormalizedTransaction) :=
  if negb (Transactions.isRecord entry) then Ok None
  else
    let! rawStatus :=
      Transactions.asString
        @@ (entry.["status"] ?? entry.["state"] ?? entry.["current_status"]) in
    let normalizedStatus := Transactions.normalizeStatus rawStatus in
    let! customer :=
      (Transactions.getRecord @@ entry.["customer"])
        ?? (Transactions.getRecord @@ entry.["customer_data"])
        ?? (Transactions.getRecord @@ entry.["customerDetails"]) in
    let! authorization := Transactions.getRecord @@ entry.["authorization"] in
    let! metadata := Transactions.getRecord @@ entry.["metadata"] in
    let! firstName :=
      Transactions.asString
        @@ (customer?.["first_name"] ?? entry.["first_name"]) in
    let! lastName :=
      Transactions.asString
        @@ (customer?.["last_name"] ?? entry.["last_name"]) in
    let! fallbackName :=
      Transactions.asString
        @@ (customer?.["name"] ?? entry.["customer_name"]
              ?? entry.["customerName"] ?? entry.["name"]) in
    let! customerName :=
      Ok (Transactions.buildName firstName lastName fallbackName)
        ?? (Transactions.asString @@ authorization?.["account_name"]) in
    let! customerEmail :=
      (Transactions.asString @@ customer?.["email"])
        ?? (Transactions.asString
              @@ (entry.["customer_email"] ?? entry.["email"]))
        ?? (Transactions.asString @@ authorization?.["email"])
        ?? (Transactions.asString @@ metadata?.["email"]) in
    let! failureReason :=
      (Transactions.asString
         @@ (entry.["gateway_response"] ?? entry.["gatewayResponse"]))
        ?? (Transactions.asString
              @@ (entry.["failure_reason"] ?? entry.["failureReason"]))
        ?? (Transactions.asString
              @@ (entry.["reason"] ?? entry.["status_reason"]))
        ?? (let! log := entry.["log"] in Transactions.extractErrorFromLog log) in
    let! idValue :=
      entry.["id"] ?? entry.["reference"] ?? entry.["transaction_id"]
        ?? entry.["transactionId"] in
    let! amount :=
      Transactions.asNumber @@ (entry.["amount"] ?? entry.["amount_in_minor"]) in
    let! currency := Transactions.asString @@ entry.["currency"] in
    let! createdAt :=
      Transactions.asString @@ (entry.["createdAt"] ?? entry.["created_at"]) in
    Ok (Some {|
      id := Transactions.toId idValue;
      status := normalizedStatus;
      rawStatus := toLowerCase <$> rawStatus;
      customerName := customerName;
      customerEmail := customerEmail;
      failureReason := failureReason;
      amount := amount;
      currency := currency;
      createdAt := createdAt;
    |}).

Definition sumAmounts (transactions : list NormalizedTransaction)
  : option float :=
  let total :=
    fold_left (fun acc txn => (acc + default 0 (amount txn))%float)
              transactions 0%float in
  if (0 <? total)%float then Some total else None.

Definition inferCurrency (transactions : list NormalizedTransaction)
  : option string :=
  find (fun txn => truthy (currency txn)) transactions ≫= currency.

Definition normalizeEntries (entries : list JsValue)
  : Exc (list NormalizedTransaction) :=
  filterBoolean @@ mapM normalizeTransaction entries.

Definition normalizeTransactionsFromOutput (data : JsValue)
  : Exc NormalizedTransactionResult :=
  let! isPayload := Transactions.isTransactionPayload data in
  if isPayload then
    let! entries := (let! d := data.["data"] in elementsOf d) in
    let! transactions := normalizeEntries entries in
    let! metaRecord := Transactions.getRecord @@ data.["meta"] in
    let! total :=
      (Transactions.asNumber @@ metaRecord?.["total"])
        ?? Ok (Some (lengthNumber transactions)) in
    let! totalVolume := Transactions.asNumber @@ metaRecord?.["total_volume"] in
    let! currency := Transactions.asString @@ metaRecord?.["currency"] in
    let! message := Transactions.asString @@ data.["message"] in
    let currency :=
      if negb (truthy currency) then inferCurrency transactions else currency in
    let totalVolume :=
      if negb (truthy totalVolume) then sumAmounts transactions
      else totalVolume in
    Ok {| transactions := transactions;
          meta := {| total := total; totalVolume := totalVolume;
                     metaCurrency := currency; message := message |} |}
  else
    let! candidates := Transactions.extractTransactionArrays data in
    let source := find Array_isArray candidates in
    let! transactions :=
      (let! entries :=
         match source with Some s => elementsOf s | None => Ok [] end in
       normalizeEntries entries) in
    let record := Transactions.getRecord data in
    let! recordMeta := Transactions.getRecord @@ record?.["meta"] in
    let! total :=
      (Transactions.asNumber @@ (recordMeta?.["total"] ?? record?.["total"]))
        ?? Ok (Some (lengthNumber transactions)) in
    let! totalVolume :=
      Transactions.asNumber
        @@ (recordMeta?.["total_volume"] ?? record?.["total_volume"]) in
    let! currency :=
      (Transactions.asString
         @@ (recordMeta?.["currency"] ?? record?.["currency"]))
        ?? Ok (inferCurrency transactions) in
    let! message := Transactions.asString @@ record?.["message"] in
    let totalVolume :=
      if negb (truthy totalVolume) then sumAmounts transactions
      else totalVolume in
    Ok {| transactions := transactions;
          meta := {| total := total; totalVolume := totalVolume;
                     metaCurrency := currency; message := message |} |}.

End WithHost.

End TransactionSummary.

(** ** A host for concrete inputs

    The concrete inputs below contain no string-encoded number and no
    numeric id, so what the normalizer returns on them does not depend on the
    host (the lemmas named [_any_host] say so). To state results on them
    without a host parameter this host is used: it answers NaN to
    [Number(s)], renders every number as ["NaN"], and its currency formatter
    accepts exactly the well-formed codes of ECMA-402 (three ASCII
    letters). *)

Definition isAsciiLetter (c : ascii) : bool :=
  let n := N_of_ascii c in
  (((65 <=? n) && (n <=? 90)) || ((97 <=? n) && (n <=? 122)))%N.

Definition isWellFormedCurrencyCode (code : string) : bool :=
  match code with
  | String a (String b (String c EmptyString)) =>
      isAsciiLetter a && isAsciiLetter b && isAsciiLetter c
  | _ => false
  end.

#[global] Instance scenarioHost : Host := {|
  Number_ofString := fun _ => PrimFloat.nan;
  String_ofNumber := fun _ => "NaN";
  Number_toLocaleString := fun _ => "NaN";
  Intl_formatCurrency := fun code _ =>
    if isWellFormedCurrencyCode code then Ok (code ++ " NaN") else Throw RangeError;
  Intl_formatDecimal := fun _ => Ok "NaN";
|}.

(** ** The value each computation returns

    Closed forms of the computations above, without the error monad. The
    lemmas of the section [Returns] prove that the computations return these
    values and never throw. *)

(** The property [key] of [value], [undefined] when there is none. *)
Definition field (value : JsValue) (key : string) : JsValue :=
  match value with
  | JObj members => default JUndefined (members !! key)
  | _ => JUndefined
  end.

(** [a ?? b] on values already computed. *)
Definition orElse {A} `{Nullable A} (a b : A) : A :=
  if isNullish a then b else a.
Infix "|?" := orElse (at level 55, right associativity).

Module Value.
Import Transactions.

Definition errorText (error : JsValue) : option string :=
  if isRecord error
  then asString (field error "message" |? field error "detail"
                   |? field error "description")
  else None.

Definition extractErrorFromLog (log : JsValue) : option string :=
  let fromErrors :=
    match field log "errors" with
    | JArr elements =>
        firstPlainString elements
          |? default None (find truthy (map errorText elements))
    | _ => None
    end in
  fromErrors |? asString (field log "message").

Section WithHost.
Context `{Host}.

Definition customerOf (entry : JsValue) : JsValue :=
  getRecord (field entry "customer")
    |? getRecord (field entry "customer_data")
    |? getRecord (field entry "customerDetails").

Definition normalizeTransaction (entry : JsValue) : NormalizedTransaction :=
  let rawStatus :=
    asString (field entry "status" |? field entry "state"
                |? field entry "current_status") in
  let customer := customerOf entry in
  let authorization := getRecord (field entry "authorization") in
  let metadata := getRecord (field entry "metadata") in
  let gatewayResponse :=
    asString (field entry "gateway_response" |? field entry "gatewayResponse") in
  {| id := toId (field entry "id" |? field entry "reference"
                   |? field entry "transaction_id"
                   |? field entry "transactionId");
     status := normalizeStatus rawStatus;
     rawStatus := toLowerCase <$> rawStatus;
     customerName :=
       buildName
         (asString (field entry "first_name" |? field customer "first_name"))
         (asString (field entry "last_name" |? field customer "last_name"))
         (asString (field customer "name" |? field entry "customer_name"
                      |? field entry "customerName" |? field entry "name"))
         |? asString (field authorization "account_name");
     customerEmail :=
       asString (field customer "email")
         |? asString (field entry "customer_email" |? field entry "email"
                        |? field entry "customerEmail")
         |? asString (field authorization "email")
         |? asString (field metadata "email");
     failureReason :=
       gatewayResponse
         |? asString (field entry "failure_reason" |? field entry "failureReason")
         |? asString (field entry "reason" |? field entry "status_reason")
         |? extractErrorFromLog (field entry "log");
     gatewayResponse := gatewayResponse;
     amount := asNumber (field entry "amount" |? field entry "amount_in_minor");
     currency := asString (field entry "currency");
     createdAt := asString (field entry "createdAt" |? field entry "created_at");
  |}.

(** The component's [normalizeTransaction]. *)
Definition summaryTransaction (entry : JsValue)
  : TransactionSummary.NormalizedTransaction :=
  let rawStatus :=
    asString (field entry "status" |? field entry "state"
                |? field entry "current_status") in
  let customer := customerOf entry in
  let authorization := getRecord (field entry "authorization") in
  let metadata := getRecord (field entry "metadata") in
  {| TransactionSummary.id :=
       toId (field entry "id" |? field entry "reference"
               |? field entry "transaction_id"
               |? field entry "transactionId");
     TransactionSummary.status := normalizeStatus rawStatus;
     TransactionSummary.rawStatus := toLowerCase <$> rawStatus;
     TransactionSummary.customerName :=
       buildName
         (asString (field customer "first_name" |? field entry "first_name"))
         (asString (field customer "last_name" |? field entry "last_name"))
         (asString (field customer "name" |? field entry "customer_name"
                      |? field entry "customerName" |? field entry "name"))
         |? asString (field authorization "account_name");
     TransactionSummary.customerEmail :=
       asString (field customer "email")
         |? asString (field entry "customer_email" |? field entry "email")
         |? asString (field authorization "email")
         |? asString (field metadata "email");
     TransactionSummary.failureReason :=
       asString (field entry "gateway_response" |? field entry "gatewayResponse")
         |? asString (field entry "failure_reason" |? field entry "failureReason")
         |? asString (field entry "reason" |? field entry "status_reason")
         |? extractErrorFromLog (field entry "log");
     TransactionSummary.amount :=
       asNumber (field entry "amount" |? field entry "amount_in_minor");
     TransactionSummary.currency := asString (field entry "currency");
     TransactionSummary.createdAt :=
       asString (field entry "createdAt" |? field entry "created_at");
  |}.

(** The entries both normalizers keep, normalized, in order. *)
Definition normalizeEntries (entries : list JsValue)
  : list NormalizedTransaction :=
  map normalizeTransaction (List.filter isRecord entries).

Definition summaryEntries (entries : list JsValue)
  : list TransactionSummary.NormalizedTransaction :=
  map summaryTransaction (List.filter isRecord entries).

Definition elements (value : JsValue) : list JsValue :=
  match value with JArr entries => entries | _ => [] end.

Definition isTransactionPayload (value : JsValue) : bool :=
  isRecord value && Array_isArray (field value "data").

Definition extractTransactionArrays (data : JsValue) : list JsValue :=
  if negb (truthy data) then []
  else if Array_isArray data then [data]
  else if isRecord data
  then List.filter Array_isArray (map (field data) possibleKeys)
  else [].

(** The array of entries [normalizeTransactionsFromOutput] works on. *)
Definition sourceEntries (data : JsValue) : list JsValue :=
  if isTransactionPayload data then elements (field data "data")
  else
    match find Array_isArray (extractTransactionArrays data) with
    | Some source => elements source
    | None => []
    end.

(** The values [meta.totalVolume] and [meta.currency] hold before the
    two [if (!meta...)] statements. *)
Definition reportedVolume (data : JsValue) : option float :=
  if isTransactionPayload data then
    let metaRecord := getRecord (field data "meta") in
    asNumber (field metaRecord "total_volume"
                |? field metaRecord "total_volume_in_minor")
  else
    let record := getRecord data in
    let recordMeta := getRecord (field record "meta") in
    asNumber (field recordMeta "total_volume" |? field record "total_volume").

Definition reportedCurrency (data : JsValue) : option string :=
  if isTransactionPayload data then
    asString (field (getRecord (field data "meta")) "currency")
  else
    let record := getRecord data in
    let recordMeta := getRecord (field record "meta") in
    asString (field recordMeta "currency" |? field record "currency").

Definition reportedTotal (data : JsValue) : option float :=
  if isTransactionPayload data then
    asNumber (field (getRecord (field data "meta")) "total")
  else
    let record := getRecord data in
    let recordMeta := getRecord (field record "meta") in
    asNumber (field recordMeta "total" |? field record "total").

Definition reportedMessage (data : JsValue) : option string :=
  if isTransactionPayload data then asString (field data "message")
  else asString (field (getRecord data) "message").

Definition normalizeTransactionsFromOutput (data : JsValue)
  : NormalizedTransactionResult :=
  let transactions := normalizeEntries (sourceEntries data) in
  let metaRecord := getRecord (field data "meta") in
  let paged (key : string) :=
    if isTransactionPayload data then asNumber (field metaRecord key)
    else None in
  {| transactions := transactions;
     meta :=
       {| total := reportedTotal data |? Some (lengthNumber transactions);
          totalVolume :=
            if negb (truthy (reportedVolume data)) then sumAmounts transactions
            else reportedVolume data;
          metaCurrency :=
            if isTransactionPayload data then
              if negb (truthy (reportedCurrency data))
              then inferCurrency transactions
              else reportedCurrency data
            else reportedCurrency data |? inferCurrency transactions;
          message := reportedMessage data;
          page := paged "page";
          perPage := paged "per_page";
          pageCount := paged "page_count" |} |}.

(** The component's [normalizeTransactionsFromOutput]; its envelope
    branch reads [meta.total_volume] only. *)
Definition summaryVolume (data : JsValue) : option float :=
  if isTransactionPayload data then
    asNumber (field (getRecord (field data "meta")) "total_volume")
  else reportedVolume data.

Definition summaryFromOutput (data : JsValue)
  : TransactionSummary.NormalizedTransactionResult :=
  let transactions := summaryEntries (sourceEntries data) in
  {| TransactionSummary.transactions := transactions;
     TransactionSummary.meta :=
       {| TransactionSummary.total :=
            reportedTotal data |? Some (lengthNumber transactions);
          TransactionSummary.totalVolume :=
            if negb (truthy (summaryVolume data))
            then TransactionSummary.sumAmounts transactions
            else summaryVolume data;
          TransactionSummary.metaCurrency :=
            if isTransactionPayload data then
              if negb (truthy (reportedCurrency data))
              then TransactionSummary.inferCurrency transactions
              else reportedCurrency data
            else reportedCurrency data
                   |? TransactionSummary.inferCurrency transactions;
          TransactionSummary.message := reportedMessage data |} |}.

End WithHost.
End Value.

(** ** What the specification says

    Definitions that follow the wording of the specification; the theorems
    compare the normalizer with them. *)

Module Spec.
Import Transactions.

(** The first defined value of a chain. *)
Fixpoint firstDefined {A} (chain : list (option A)) : option A :=
  match chain with
  | [] => None
  | Some x :: _ => Some x
  | None :: rest => firstDefined rest
  end.

(** The status words of each bucket. *)
Definition successWords : list string := ["success"; "successful"].
Definition failedWords : list string := ["failed"; "failure"; "error"].
Definition abandonedWords : list string :=
  ["abandoned"; "cancelled"; "canceled"; "timeout"; "timed out"; "expired"].

(** A key-value mapping, as opposed to a list or a scalar. *)
Definition isMapping (value : JsValue) : bool :=
  match value with JObj _ => true | _ => false end.

(** An optional string field is absent, or non-empty with no white space
    at either end. *)
Definition absentOrClean (text : option string) : Prop :=
  match text with
  | None => True
  | Some s => isClean s
  end.

(** The first array among the values found under the candidate keys. *)
Fixpoint firstArray (found : list (option JsValue)) : list JsValue :=
  match found with
  | [] => []
  | Some (JArr entries) :: _ => entries
  | _ :: rest => firstArray rest
  end.

(** Shape discovery: the envelope's [data] array; else the input itself
    when it is an array; else, for an object, the first array under
    [transactions], [data], [items], [records], [results]; else nothing. *)
Definition discoveredEntries (data : JsValue) : list JsValue :=
  match data with
  | JObj members =>
      match members !! "data" with
      | Some (JArr entries) => entries
      | _ =>
          firstArray
            (map (fun key => members !! key)
                 ["transactions"; "data"; "items"; "records"; "results"])
      end
  | JArr entries => entries
  | _ => []
  end.

(** The sum of the entries' amounts, an entry without one counting 0. *)
Definition sumOfAmounts (transactions : list NormalizedTransaction) : float :=
  fold_left PrimFloat.add (map (fun txn => default 0%float (amount txn)) transactions)
            0%float.

(** The derived volume: the sum when strictly greater than zero. *)
Definition derivedVolume (transactions : list NormalizedTransaction)
  : option float :=
  if (0 <? sumOfAmounts transactions)%float
  then Some (sumOfAmounts transactions)
  else None.

(** The envelope shape: an object whose [data] field is an array. *)
Definition isEnvelope (data : JsValue) : bool :=
  Array_isArray (field data "data").

(** The volume the gateway reports, when it is numeric: in an envelope
    [meta.total_volume], else [meta.total_volume_in_minor]; in any other
    shape [meta.total_volume], else the top-level [total_volume]. *)
Definition gatewayVolume `{Host} (data : JsValue) : option float :=
  let meta := field data "meta" in
  if isEnvelope data
  then asNumber (field meta "total_volume" |? field meta "total_volume_in_minor")
  else asNumber (field meta "total_volume" |? field data "total_volume").

(** The customer-like sub-object: the first of [customer],
    [customer_data], [customerDetails] that is an object. *)
Definition customerObject (entry : JsValue) : JsValue :=
  match List.find isRecord
          [field entry "customer"; field entry "customer_data";
           field entry "customerDetails"] with
  | Some customer => customer
  | None => JUndefined
  end.

(** The text a value holds: a string that is not blank, trimmed. Anything
    else holds no text. *)
Definition text (value : JsValue) : option string :=
  match value with
  | JStr s =>
      match trim s with
      | EmptyString => None
      | trimmed => Some trimmed
      end
  | _ => None
  end.

(** The first of the values that is neither [undefined] nor [null]. *)
Fixpoint firstPresent (values : list JsValue) : JsValue :=
  match values with
  | [] => JUndefined
  | JUndefined :: rest | JNull :: rest => firstPresent rest
  | value :: _ => value
  end.

(** Reading a text from alternative fields: the first field that is present
    decides, and it gives a text only when it holds one. A present field that
    is blank, or not a string, hides the fields after it. *)
Definition readText (fields : list JsValue) : option string :=
  text (firstPresent fields).

(** A value that cannot hide another: it is absent, or it holds a text. *)
Definition absentOrText (value : JsValue) : bool :=
  match value with
  | JUndefined | JNull => true
  | _ => match text value with Some _ => true | None => false end
  end.

(** The fields a name part is read from: the entry's own field, then the
    customer sub-object's. *)
Definition partFields (entry : JsValue) (key : string) : list JsValue :=
  [field entry key; field (customerObject entry) key].

(** The fields the whole name is read from: the customer's [name], then the
    entry's [customer_name], [customerName] and [name]. *)
Definition wholeNameFields (entry : JsValue) : list JsValue :=
  [field (customerObject entry) "name"; field entry "customer_name";
   field entry "customerName"; field entry "name"].

(** Every field the customer name is read from, [authorization] apart. *)
Definition nameFields (entry : JsValue) : list JsValue :=
  (partFields entry "first_name" ++ partFields entry "last_name"
     ++ wholeNameFields entry)%list.

(** A name part: read from the entry's own field, and from the customer
    sub-object's only when the entry has none. *)
Definition namePart (entry : JsValue) (key : string) : option string :=
  readText (partFields entry key).

(** The whole name: read from the whole-name fields, the first one that is
    present deciding. *)
Definition wholeName (entry : JsValue) : option string :=
  readText (wholeNameFields entry).

Definition accountName (entry : JsValue) : option string :=
  text (field (field entry "authorization") "account_name").

(** The parts that exist, joined by a single space; the fallback when there
    is no part. *)
Definition joinParts (first last fallback : option string) : option string :=
  match first, last with
  | Some first, Some last => Some (first ++ " " ++ last)
  | Some first, None => Some first
  | None, Some last => Some last
  | None, None => fallback
  end.

Definition customerName (entry : JsValue) : option string :=
  joinParts (namePart entry "first_name") (namePart entry "last_name")
            (firstDefined [wholeName entry; accountName entry]).

(** A name part as the specification words it: the part is available when
    the entry or the customer sub-object holds a text for it. *)
Definition availablePart (entry : JsValue) (key : string) : option string :=
  firstDefined (map text (partFields entry key)).

(** The whole name as the specification words it: the first of the
    whole-name fields that holds a text. *)
Definition availableWholeName (entry : JsValue) : option string :=
  firstDefined (map text (wholeNameFields entry)).

(** The customer name as the specification words it. *)
Definition claimedCustomerName (entry : JsValue) : option string :=
  joinParts (availablePart entry "first_name") (availablePart entry "last_name")
            (firstDefined [availableWholeName entry; accountName entry]).

(** The text of one element of [log.errors] that is a mapping with a
    [message], [detail] or [description]. *)
Definition mappingText (error : JsValue) : option string :=
  readText [field error "message"; field error "detail";
            field error "description"].

(** The first element of a list that is itself a plain string. *)
Fixpoint firstStringElement (elements : list JsValue) : option string :=
  match elements with
  | [] => None
  | JStr s :: _ => Some s
  | _ :: rest => firstStringElement rest
  end.

(** The plain string a [log.errors] list gives: its first plain-string
    element, unless that is the empty string. *)
Definition plainString (elements : list JsValue) : option string :=
  match firstStringElement elements with
  | Some EmptyString => None
  | found => found
  end.

(** The first string found in a [log.errors] list: the plain string it
    gives, else the text of the first element that has one. *)
Definition errorsText (errors : JsValue) : option string :=
  match errors with
  | JArr elements =>
      firstDefined [plainString elements;
                    firstDefined (map mappingText elements)]
  | _ => None
  end.

(** The pairs of fields the first three links of the failure reason are
    read from. *)
Definition gatewayFields (entry : JsValue) : list JsValue :=
  [field entry "gateway_response"; field entry "gatewayResponse"].
Definition failureFields (entry : JsValue) : list JsValue :=
  [field entry "failure_reason"; field entry "failureReason"].
Definition reasonFields (entry : JsValue) : list JsValue :=
  [field entry "reason"; field entry "status_reason"].

(** The six fields of the three pairs, in the order of the chain. *)
Definition pairedFields (entry : JsValue) : list JsValue :=
  (gatewayFields entry ++ failureFields entry ++ reasonFields entry)%list.

(** The two links of the failure reason that come from [log]. *)
Definition logLinks (entry : JsValue) : list (option string) :=
  [ errorsText (field (field entry "log") "errors");
    text (field (field entry "log") "message") ].

(** The chain of the failure reason: each of the first three links is read
    from its pair of fields, the first present field of the pair deciding. *)
Definition failureReasonChain (entry : JsValue) : list (option string) :=
  ([ readText (gatewayFields entry); readText (failureFields entry);
     readText (reasonFields entry) ] ++ logLinks entry)%list.

(** The chain as the specification words it: every field is a link of its
    own, so the first field that holds a text decides. *)
Definition claimedFailureReasonChain (entry : JsValue) : list (option string) :=
  (map text (pairedFields entry) ++ logLinks entry)%list.

(** No element of [log.errors] is a plain string. *)
Definition noPlainStringError (entry : JsValue) : Prop :=
  match field (field entry "log") "errors" with
  | JArr elements => Forall (fun error => isStringValue error = false) elements
  | _ => True
  end.

(** Agreement of a library transaction and a component transaction on the
    fields that never depend on which copy produced them. *)
Definition agreeOnStableFields (txn : NormalizedTransaction)
           (copy : TransactionSummary.NormalizedTransaction) : Prop :=
  id txn = TransactionSummary.id copy /\
  status txn = TransactionSummary.status copy /\
  rawStatus txn = TransactionSummary.rawStatus copy /\
  failureReason txn = TransactionSummary.failureReason copy /\
  amount txn = TransactionSummary.amount copy /\
  currency txn = TransactionSummary.currency copy /\
  createdAt txn = TransactionSummary.createdAt copy.

(** Agreement on every field the component declares. *)
Definition agreeOnSharedFields (txn : NormalizedTransaction)
           (copy : TransactionSummary.NormalizedTransaction) : Prop :=
  agreeOnStableFields txn copy /\
  Transactions.customerName txn = TransactionSummary.customerName copy /\
  customerEmail txn = TransactionSummary.customerEmail copy.

(** An entry on which the two copies read the same fields: it has no
    entry-level [customerEmail], and neither name part is present both on the
    entry and on its customer sub-object. *)
Definition readAlike (entry : JsValue) : Prop :=
  isNullish (field entry "customerEmail") = true /\
  (isNullish (field entry "first_name") = true \/
   isNullish (field (customerObject entry) "first_name") = true) /\
  (isNullish (field entry "last_name") = true \/
   isNullish (field (customerObject entry) "last_name") = true).

(** An input whose envelope meta, if any, has no [total_volume_in_minor]. *)
Definition noMinorVolume (data : JsValue) : Prop :=
  isEnvelope data = true ->
  isNullish (field (field data "meta") "total_volume_in_minor") = true.

End Spec.

(** ** Scenarios *)

Definition obj (members : list (string * JsValue)) : JsValue :=
  JObj (list_to_map members).

(** [{}] *)
Definition emptyObject : JsValue := obj [].

(** [{ data: [{ id: "1", amount: 500, status: "success", currency: "NGN" },
              { id: "2", amount: 300, status: "ABANDONED", currency: "NGN" }] }] *)
Definition twoTransactions : JsValue :=
  obj [("data",
        JArr [obj [("id", JStr "1"); ("amount", JNum 500); ("status", JStr "success");
                   ("currency", JStr "NGN")];
              obj [("id", JStr "2"); ("amount", JNum 300);
                   ("status", JStr "ABANDONED"); ("currency", JStr "NGN")]])].

(** [{ data: [{ amount: 500 }], meta: { total_volume: 0 } }] *)
Definition zeroVolumeEnvelope : JsValue :=
  obj [("data", JArr [obj [("amount", JNum 500)]]);
       ("meta", obj [("total_volume", JNum 0)])].

(** [{ data: [{ amount: 0 }, { amount: 0 }] }] *)
Definition zeroAmounts : JsValue :=
  obj [("data", JArr [obj [("amount", JNum 0)]; obj [("amount", JNum 0)]])].

(** [{ data: [[]] }]: an envelope whose only entry is an empty array. *)
Definition arrayEntryEnvelope : JsValue := obj [("data", JArr [JArr []])].

(** [{ data: [{ id: "1" }, null, "x", { id: "2" }] }] *)
Definition mixedEntries : JsValue :=
  obj [("data", JArr [obj [("id", JStr "1")]; JNull; JStr "x";
                      obj [("id", JStr "2")]])].

(** [{ transactions: [{ id: "t" }], data: "none", items: [{ id: "i" }] }] *)
Definition wrapperObject : JsValue :=
  obj [("transactions", JArr [obj [("id", JStr "t")]]);
       ("data", JStr "none");
       ("items", JArr [obj [("id", JStr "i")]])].

(** [{ first_name: " Ada ", last_name: "Lovelace", customer_name: "Bob" }] *)
Definition namedEntry : JsValue :=
  obj [("first_name", JStr " Ada "); ("last_name", JStr "Lovelace");
       ("customer_name", JStr "Bob")].

(** [{ first_name: " ", customer: { first_name: "Ada", last_name: "Lovelace" } }]:
    the entry's own first name is blank. *)
Definition blankFirstName : JsValue :=
  obj [("first_name", JStr " ");
       ("customer", obj [("first_name", JStr "Ada");
                         ("last_name", JStr "Lovelace")])].

(** [{ customer: { name: " " }, customer_name: "Bob" }]: the customer's
    whole name is blank. *)
Definition blankCustomerName : JsValue :=
  obj [("customer", obj [("name", JStr " ")]); ("customer_name", JStr "Bob")].

(** [{ failure_reason: "", failureReason: "Insufficient funds" }]: the first
    field of the pair is the empty string. *)
Definition emptyFailureReason : JsValue :=
  obj [("failure_reason", JStr "");
       ("failureReason", JStr "Insufficient funds")].

(** [{ log: { errors: ["", { message: "card declined" }, "timeout"] } }]:
    the first plain-string element is empty. *)
Definition emptyLogError : JsValue :=
  obj [("log",
        obj [("errors",
              JArr [JStr ""; obj [("message", JStr "card declined")];
                    JStr "timeout"])])].

(** [{ log: { errors: [{ message: "card declined" }] } }] *)
Definition declinedEntry : JsValue :=
  obj [("log", obj [("errors", JArr [obj [("message", JStr "card declined")]])])].

(** [{ id: "  " }]: an id of two spaces. *)
Definition blankIdEntry : JsValue := obj [("id", JStr "  ")].

(** [{ status: " Success ", currency: "  ", customer: { email: " ada@example.com " } }] *)
Definition paddedEntry : JsValue :=
  obj [("status", JStr " Success "); ("currency", JStr "  ");
       ("customer", obj [("email", JStr " ada@example.com ")])].

(** [{ data: [{ customerEmail: "ada@example.com" }] }] *)
Definition camelCaseEmail : JsValue :=
  obj [("data", JArr [obj [("customerEmail", JStr "ada@example.com")]])].

(** [{ data: [{ first_name: "Ada", customer: { first_name: "Grace" } }] }] *)
Definition twoFirstNames : JsValue :=
  obj [("data",
        JArr [obj [("first_name", JStr "Ada");
                   ("customer", obj [("first_name", JStr "Grace")])]])].

(** [{ data: [], meta: { total_volume_in_minor: 700 } }] *)
Definition minorVolumeEnvelope : JsValue :=
  obj [("data", JArr []); ("meta", obj [("total_volume_in_minor", JNum 700)])].


(** ** The summary card ([components/ai-elements/transaction-summary.tsx])

    The functions the card keeps beside the normalizer: the customer and
    failure-reason summaries, [capitalize], and the values
    [TransactionSummaryCard] derives before it renders. A [Map] is the list
    of its entries in insertion order; a count is a natural number. *)

From Stdlib Require Import DecimalString Sorted Permutation.

(** [String(index)] on an array index: its decimal digits. *)
Definition String_ofIndex (index : nat) : string :=
  NilZero.string_of_uint (Nat.to_uint index).

(** [Math.round], a built-in of the host. *)
Class MathHost := { Math_round : float -> float }.

(** [Math.max(1, x)]. *)
Definition Math_max1 (x : float) : float :=
  if PrimFloat.is_nan x then x
  else if (x <? 1)%float then 1%float else x.

(** [map.get(key)]. *)
Fixpoint Map_get {V} (key : string) (entries : list (string * V)) : option V :=
  match entries with
  | [] => None
  | (k, v) :: rest => if String.eqb k key then Some v else Map_get key rest
  end.

(** [map.set(key, value)]: the entry of an existing key keeps its place, a
    new key goes last. *)
Fixpoint Map_set {V} (key : string) (value : V) (entries : list (string * V))
  : list (string * V) :=
  match entries with
  | [] => [(key, value)]
  | (k, v) :: rest =>
      if String.eqb k key then (k, value) :: rest
      else (k, v) :: Map_set key value rest
  end.

(** [array.sort((a, b) => b.count - a.count)]: the sort is stable, so the
    result is the arrangement in non-increasing count that keeps the order of
    entries of equal count. *)
Fixpoint insertDescending {A} (weight : A -> nat) (x : A) (sorted : list A)
  : list A :=
  match sorted with
  | [] => [x]
  | y :: rest =>
      if (weight x <? weight y)%nat then y :: insertDescending weight x rest
      else x :: sorted
  end.

Definition sortDescending {A} (weight : A -> nat) (l : list A) : list A :=
  fold_right (insertDescending weight) [] l.

Module SummaryCard.

Record CustomerSummary : Type := {
  name : option string;
  email : option string;
  count : nat;
}.

Record FailureReasonSummary : Type := {
  reason : string;
  reasonCount : nat;
  percentage : float;
}.

(** [txn.customerEmail ?? txn.customerName ?? txn.id ?? index]. *)
Inductive KeySource : Type :=
| KeyText (text : string)
| KeyIndex (index : nat).

#[global] Instance KeySource_truthy : Truthy KeySource :=
  fun source =>
    match source with
    | KeyText text => nonEmpty text
    | KeyIndex index => negb (index =? 0)%nat
    end.

Definition keySourceOf (txn : Transactions.NormalizedTransaction) (index : nat)
  : KeySource :=
  match Transactions.customerEmail txn |? Transactions.customerName txn
          |? Transactions.id txn with
  | Some text => KeyText text
  | None => KeyIndex index
  end.

(** [typeof keySource === "string" ? keySource.toLowerCase()
    : String(keySource)]. *)
Definition keyOf (source : KeySource) : string :=
  match source with
  | KeyText text => toLowerCase text
  | KeyIndex index => String_ofIndex index
  end.

(** The body of [transactions.forEach((txn, index) => ...)] in
    [summarizeCustomers]. *)
Definition recordCustomer (map : list (string * CustomerSummary))
           (txn : Transactions.NormalizedTransaction) (index : nat)
  : list (string * CustomerSummary) :=
  let keySource := keySourceOf txn index in
  if negb (truthy keySource) then map
  else
    let key := keyOf keySource in
    match Map_get key map with
    | Some existing =>
        Map_set key
                {| count := count existing + 1;
                   name := name existing |? Transactions.customerName txn;
                   email := email existing |? Transactions.customerEmail txn |}
                map
    | None =>
        Map_set key
                {| name := Transactions.customerName txn;
                   email := Transactions.customerEmail txn;
                   count := 1 |}
                map
    end.

(** [transactions.forEach] from a given position. *)
Fixpoint forEachCustomer (transactions : list Transactions.NormalizedTransaction)
         (index : nat) (map : list (string * CustomerSummary))
  : list (string * CustomerSummary) :=
  match transactions with
  | [] => map
  | txn :: rest => forEachCustomer rest (S index) (recordCustomer map txn index)
  end.

(** The result of [summarizeCustomers]; [customerList] is the source's
    [list], each entry with its [key]. *)
Record CustomerSummaries : Type := {
  customerList : list (string * CustomerSummary);
  totalUnique : nat;
}.

Definition summarizeCustomers
           (transactions : list Transactions.NormalizedTransaction)
  : CustomerSummaries :=
  let map := forEachCustomer transactions 0 [] in
  {| customerList :=
       firstn 5 (sortDescending (fun entry => count (snd entry)) map);
     totalUnique := List.length map |}.

(** [value.replace(/(^|\s)\w/g, (char) => char.toUpperCase())]: a word
    character at the start or after white space is upper-cased. *)
Definition isWordUnit (c : ascii) : bool :=
  let n := N_of_ascii c in
  (((48 <=? n) && (n <=? 57)) || ((65 <=? n) && (n <=? 90))
   || (n =? 95) || ((97 <=? n) && (n <=? 122)))%N.

Definition toUpperCaseWordUnit (c : ascii) : ascii :=
  let n := N_of_ascii c in
  if ((97 <=? n) && (n <=? 122))%N then ascii_of_N (n - 32)%N else c.

Fixpoint capitalizeFrom (atBoundary : bool) (value : string) : string :=
  match value with
  | EmptyString => EmptyString
  | String c rest =>
      String (if atBoundary && isWordUnit c then toUpperCaseWordUnit c else c)
             (capitalizeFrom (isWhiteSpace c) rest)
  end.

Definition capitalize (value : string) : string := capitalizeFrom true value.

(** [txn.status !== "success"]. *)
Definition isNonSuccess (txn : Transactions.NormalizedTransaction) : bool :=
  match Transactions.status txn with
  | Transactions.Success => false
  | _ => true
  end.

(** The body of [nonSuccessTxns.forEach((txn) => ...)] in
    [summarizeFailureReasons]. *)
Definition recordReason (reasons : list (string * nat))
           (txn : Transactions.NormalizedTransaction) : list (string * nat) :=
  let reason := trim <$> Transactions.failureReason txn in
  if negb (truthy reason) then reasons
  else
    let key := toLowerCase (default "" reason) in
    Map_set key (default 0%nat (Map_get key reasons) + 1)%nat reasons.

Section WithMath.
Context `{MathHost}.

Definition percentageOf (count total : nat) : float :=
  Math_max1
    (Math_round
       ((PrimFloat.of_uint63 (Uint63.of_Z (Z.of_nat count))
         / PrimFloat.of_uint63 (Uint63.of_Z (Z.of_nat total))) * 100)%float).

Definition summarizeFailureReasons
           (transactions : list Transactions.NormalizedTransaction)
  : list FailureReasonSummary :=
  let nonSuccessTxns := List.filter isNonSuccess transactions in
  let reasons := fold_left recordReason nonSuccessTxns [] in
  if (List.length reasons =? 0)%nat || (List.length nonSuccessTxns =? 0)%nat
  then []
  else
    firstn 4
      (sortDescending reasonCount
         (map (fun entry =>
                 {| reason := capitalize (fst entry);
                    reasonCount := snd entry;
                    percentage :=
                      percentageOf (snd entry) (List.length nonSuccessTxns) |})
              reasons)).

End WithMath.

(** The values [TransactionSummaryCard] derives from its props. *)

Record StatusCounts : Type := {
  success : nat;
  failed : nat;
  abandoned : nat;
  other : nat;
}.

(** [acc[txn.status] = (acc[txn.status] ?? 0) + 1]. *)
Definition countStatus (acc : StatusCounts)
           (txn : Transactions.NormalizedTransaction) : StatusCounts :=
  match Transactions.status txn with
  | Transactions.Success =>
      {| success := success acc + 1; failed := failed acc;
         abandoned := abandoned acc; other := other acc |}
  | Transactions.Failed =>
      {| success := success acc; failed := failed acc + 1;
         abandoned := abandoned acc; other := other acc |}
  | Transactions.Abandoned =>
      {| success := success acc; failed := failed acc;
         abandoned := abandoned acc + 1; other := other acc |}
  | Transactions.Other =>
      {| success := success acc; failed := failed acc;
         abandoned := abandoned acc; other := other acc + 1 |}
  end.

Definition statusCounts (transactions : list Transactions.NormalizedTransaction)
  : StatusCounts :=
  fold_left countStatus transactions
            {| success := 0; failed := 0; abandoned := 0; other := 0 |}.

(** [meta?.total ?? transactions.length]. *)
Definition cardTotal (transactions : list Transactions.NormalizedTransaction)
           (meta : option Transactions.TransactionMeta) : float :=
  default (lengthNumber transactions) (meta ≫= Transactions.total).

(** [meta?.currency ?? inferCurrency(transactions)]. *)
Definition cardCurrency (transactions : list Transactions.NormalizedTransaction)
           (meta : option Transactions.TransactionMeta) : option string :=
  (meta ≫= Transactions.metaCurrency) |? Transactions.inferCurrency transactions.

(** [typeof meta?.totalVolume === "number" && meta.totalVolume > 0
    ? meta.totalVolume : sumAmounts(transactions)]. *)
Definition cardTotalVolume
           (transactions : list Transactions.NormalizedTransaction)
           (meta : option Transactions.TransactionMeta) : option float :=
  match meta ≫= Transactions.totalVolume with
  | Some volume =>
      if (0 <? volume)%float then Some volume
      else Transactions.sumAmounts transactions
  | None => Transactions.sumAmounts transactions
  end.

(** [totalVolume ? formatCurrencyAmount(totalVolume / 100, currency)
    : undefined]. *)
Definition formattedVolume `{Host}
           (transactions : list Transactions.NormalizedTransaction)
           (meta : option Transactions.TransactionMeta) : Exc (option string) :=
  let totalVolume := cardTotalVolume transactions meta in
  if truthy totalVolume
  then Some @@ Transactions.formatCurrencyAmount
                 (default 0 totalVolume / 100)%float
                 (cardCurrency transactions meta)
  else Ok None.

(** [!isLoading && total === 0]. *)
Definition showEmptyState (isLoading : bool)
           (transactions : list Transactions.NormalizedTransaction)
           (meta : option Transactions.TransactionMeta) : bool :=
  negb isLoading && (cardTotal transactions meta =? 0)%float.

End SummaryCard.

(** ** Text of a chat message ([app/routes/api.chat.ts]) *)

Module ChatText.

(** ["key" in value]: a TypeError on a primitive; on an object, whether it
    has the member; an array has no property [type]. *)
Definition hasProperty (value : JsValue) (key : string) : Exc bool :=
  match value with
  | JObj members => Ok (bool_decide (is_Some (members !! key)))
  | JArr _ => Ok false
  | _ => Throw TypeError
  end.

(** [value === text] for a string [text]. *)
Definition isString (value : JsValue) (text : string) : bool :=
  match value with
  | JStr s => String.eqb s text
  | _ => false
  end.

Definition isTextPart (part : JsValue) : Exc bool :=
  if negb (Transactions.isRecord part) then Ok false
  else
    let! present := hasProperty part "type" in
    if negb present then Ok false
    else
      let! type := part.["type"] in
      if negb (isString type "text") then Ok false
      else Transactions.isStringValue @@ part.["text"].

(** [array.filter(predicate)] for a predicate that may throw. *)
Fixpoint filterM {A} (predicate : A -> Exc bool) (l : list A) : Exc (list A) :=
  match l with
  | [] => Ok []
  | x :: rest =>
      let! keep := predicate x in
      let! kept := filterM predicate rest in
      Ok (if keep then x :: kept else kept)
  end.

(** The string a part kept by [isTextPart] has as its [text]. *)
Definition textOf (value : JsValue) : string :=
  match value with JStr s => s | _ => "" end.

(** The line feed, ["\n"]. *)
Definition lineFeed : string := String (ascii_of_nat 10) EmptyString.

Definition joinTextFromParts (parts : option (list JsValue))
  : Exc (option string) :=
  match parts with
  | None => Ok None
  | Some [] => Ok None
  | Some elements =>
      let! kept := filterM isTextPart elements in
      let! texts := mapM (fun part => textOf @@ part.["text"]) kept in
      let text := trim (String.concat lineFeed texts) in
      Ok (if nonEmpty text then Some text else None)
  end.

(** [typeof content === "string"], then the trimmed content when it is not
    empty. *)
Definition trimmedString (content : JsValue) : option string :=
  match content with
  | JStr s => if nonEmpty (trim s) then Some (trim s) else None
  | _ => None
  end.

Definition toTextContent (message : JsValue) : Exc (option string) :=
  if negb (truthy message) then Ok None
  else
    let! parts := message.["parts"] in
    let! content := message.["content"] in
    let! chosen :=
      if Array_isArray parts then Some @@ elementsOf parts
      else if Array_isArray content then Some @@ elementsOf content
      else Ok None in
    let! textFromParts := joinTextFromParts chosen in
    if truthy textFromParts then Ok textFromParts
    else Ok (trimmedString content).

Definition toTextFromContent (content : JsValue) : Exc (option string) :=
  let! fromParts :=
    if Array_isArray content then
      let! elements := elementsOf content in
      let! text := joinTextFromParts (Some elements) in
      Ok (if truthy text then text else None)
    else Ok None in
  match fromParts with
  | Some text => Ok (Some text)
  | None => Ok (trimmedString content)
  end.

(** Whether [isTextPart] holds of a part, as a value. *)
Definition isTextPartValue (part : JsValue) : bool :=
  match part with
  | JObj members =>
      isString (default JUndefined (members !! "type")) "text"
      && Transactions.isStringValue (default JUndefined (members !! "text"))
  | _ => false
  end.

(** The text [joinTextFromParts] returns for a non-empty array, as a value. *)
Definition joinedText (elements : list JsValue) : option string :=
  let text :=
    trim (String.concat lineFeed
            (map (fun part => textOf (field part "text"))
                 (List.filter isTextPartValue elements))) in
  if nonEmpty text then Some text else None.

(** [{ type: "text", text }], a text part. *)
Definition textPart (text : string) : JsValue :=
  obj [("type", JStr "text"); ("text", JStr text)].

(** [{ type: "step-start" }], a part that is not a text part. *)
Definition stepStart : JsValue := obj [("type", JStr "step-start")].

End ChatText.

(** ** What the normalizer reads *)

Module Contract.
Import Transactions.

(** The property names [normalizeTransaction] reads from an entry. *)
Definition entryKeys : list string :=
  ["status"; "state"; "current_status"; "customer"; "customer_data";
   "customerDetails"; "authorization"; "metadata"; "first_name"; "last_name";
   "name"; "customer_name"; "customerName"; "email"; "customer_email";
   "customerEmail"; "gateway_response"; "gatewayResponse"; "failure_reason";
   "failureReason"; "reason"; "status_reason"; "log"; "id"; "reference";
   "transaction_id"; "transactionId"; "amount"; "amount_in_minor"; "currency";
   "createdAt"; "created_at"].

(** The transaction with status [other] and no other field. *)
Definition blankTransaction : NormalizedTransaction :=
  {| id := None; status := Other; rawStatus := None; customerName := None;
     customerEmail := None; failureReason := None; gatewayResponse := None;
     amount := None; currency := None; createdAt := None |}.

(** The total the gateway reports, when it is numeric: [meta.total] in an
    envelope; [meta.total], else the top-level [total], in any other shape. *)
Definition gatewayTotal `{Host} (data : JsValue) : option float :=
  let meta := field data "meta" in
  if Spec.isEnvelope data
  then asNumber (field meta "total")
  else asNumber (field meta "total" |? field data "total").

(** The currency the gateway reports, when it is a string that is not
    blank. *)
Definition gatewayCurrency (data : JsValue) : option string :=
  let meta := field data "meta" in
  if Spec.isEnvelope data
  then asString (field meta "currency")
  else asString (field meta "currency" |? field data "currency").

(** The chain of the customer email. *)
Definition customerEmailChain (entry : JsValue) : list (option string) :=
  [ asString (field (Spec.customerObject entry) "email");
    asString (field entry "customer_email" |? field entry "email"
                |? field entry "customerEmail");
    asString (field (field entry "authorization") "email");
    asString (field (field entry "metadata") "email") ].

(** The members the aggregate values are read from: [meta], and outside
    the envelope shape the top-level [total], [total_volume] and [currency];
    [message]. *)
Definition reportKeys : list string :=
  ["meta"; "total"; "total_volume"; "currency"; "message"].

(** An object that reports no aggregate value: it has none of the members
    they are read from. *)
Definition reportsNothing (members : gmap string JsValue) : Prop :=
  forall reported, In reported reportKeys ->
                   field (JObj members) reported = JUndefined.

(** An object whose only array under a candidate key is [entries], under
    [key]. *)
Definition wraps (members : gmap string JsValue) (key : string)
           (entries : list JsValue) : Prop :=
  In key possibleKeys /\
  members !! key = Some (JArr entries) /\
  (forall other, In other possibleKeys -> other <> key ->
                 Array_isArray (field (JObj members) other) = false).

End Contract.

(** [{ status: true, records: [{ log: ... }, null], items: "none", page: 3 }]:
    a wrapper with members of its own. *)
Definition recordsWrapper : gmap string JsValue :=
  list_to_map
    [("status", JBool true); ("records", JArr [declinedEntry; JNull]);
     ("items", JStr "none"); ("page", JNum 3)].

(** [{ amount: 500, status: "Failed", gateway_response: "Declined",
      customer: { email: "ada@example.com" }, email: "other@example.com" }] *)
Definition failedEntry : JsValue :=
  obj [("amount", JNum 500); ("status", JStr "Failed");
       ("gateway_response", JStr "Declined");
       ("customer", obj [("email", JStr "ada@example.com")]);
       ("email", JStr "other@example.com")].

(** ** Measures on the summaries *)

Module CardSpec.

(** A transaction that [summarizeCustomers] records: its key source is
    truthy. *)
Definition isKeyed (txn : Transactions.NormalizedTransaction) (index : nat)
  : bool :=
  truthy (SummaryCard.keySourceOf txn index).

(** The number of recorded transactions, the first one being at position
    [index]. *)
Fixpoint keyedFrom (transactions : list Transactions.NormalizedTransaction)
         (index : nat) : nat :=
  match transactions with
  | [] => 0
  | txn :: rest =>
      (if isKeyed txn index then 1 else 0) + keyedFrom rest (S index)
  end.

(** The sum of the counts of a list of customers. *)
Definition sumCounts (entries : list (string * SummaryCard.CustomerSummary))
  : nat :=
  list_sum (map (fun entry => SummaryCard.count (snd entry)) entries).

(** What [summarizeCustomers] keeps true of its map: the keys are distinct
    and every customer has been counted at least once. *)
Definition customersInvariant
           (entries : list (string * SummaryCard.CustomerSummary)) : Prop :=
  List.NoDup (map fst entries) /\
  Forall (fun entry => 1 <= SummaryCard.count (snd entry)) entries.

(** What [summarizeFailureReasons] keeps true of its map: the keys are
    distinct and in lower case, and every reason has been counted at least
    once. *)
Definition reasonsInvariant (entries : list (string * nat)) : Prop :=
  List.NoDup (map fst entries) /\
  Forall (fun entry => toLowerCase (fst entry) = fst entry) entries /\
  Forall (fun entry => 1 <= snd entry) entries.

(** The transaction carries a failure reason that is not blank: the test
    [if (!reason) return] of [summarizeFailureReasons] lets it through. *)
Definition isReasoned (txn : Transactions.NormalizedTransaction) : bool :=
  truthy (trim <$> Transactions.failureReason txn).

(** Non-increasing order of a weight. *)
Definition descending {A} (weight : A -> nat) (l : list A) : Prop :=
  StronglySorted (fun a b => weight b <= weight a) l.

(** A transaction that [summarizeFailureReasons] records: it is not a
    success and its trimmed failure reason is not empty. *)
Definition hasReason (txn : Transactions.NormalizedTransaction) : bool :=
  SummaryCard.isNonSuccess txn
  && truthy (trim <$> Transactions.failureReason txn).

(** The number of transactions of a status. *)
Definition countOf (wanted : Transactions.NormalizedStatus)
           (transactions : list Transactions.NormalizedTransaction) : nat :=
  List.length
    (List.filter
       (fun txn =>
          match Transactions.status txn, wanted with
          | Transactions.Success, Transactions.Success
          | Transactions.Failed, Transactions.Failed
          | Transactions.Abandoned, Transactions.Abandoned
          | Transactions.Other, Transactions.Other => true
          | _, _ => false
          end)
       transactions).

End CardSpec.

(** * Properties *)

(** ** Strings *)

Section StringFacts.

Lemma toLowerCaseUnit_whitespace (c : ascii) :
  isWhiteSpace (toLowerCaseUnit c) = isWhiteSpace c.
Proof.
  destruct c as [[] [] [] [] [] [] [] []]; reflexivity.
Qed.

Lemma toLowerCase_nonEmpty (s : string) :
  nonEmpty (toLowerCase s) = nonEmpty s.
Proof. destruct s; reflexivity. Qed.

Lemma firstUnit_toLowerCase (s : string) :
  firstUnit (toLowerCase s) = toLowerCaseUnit <$> firstUnit s.
Proof. destruct s; reflexivity. Qed.

Lemma lastUnit_toLowerCase (s : string) :
  lastUnit (toLowerCase s) = toLowerCaseUnit <$> lastUnit s.
Proof.
  induction s as [|c rest IH]; [reflexivity|].
  destruct rest as [|d rest']; [reflexivity|].
  exact IH.
Qed.

Lemma trimStart_first (s : string) :
  trimStart s = "" \/
  exists c, firstUnit (trimStart s) = Some c /\ isWhiteSpace c = false.
Proof.
  induction s as [|c rest IH]; [now left|].
  simpl. destruct (isWhiteSpace c) eqn:W; [exact IH|].
  right. exists c. now split.
Qed.

Lemma trimEnd_last (s : string) :
  trimEnd s = "" \/
  exists c, lastUnit (trimEnd s) = Some c /\ isWhiteSpace c = false.
Proof.
  induction s as [|c rest IH]; [now left|].
  simpl. destruct (trimEnd rest) as [|k kept] eqn:T.
  - destruct (isWhiteSpace c) eqn:W; [now left|].
    right. exists c. now split.
  - right. destruct IH as [IH|IH]; [discriminate|]. exact IH.
Qed.

Lemma trimEnd_first (c : ascii) (rest : string) :
  isWhiteSpace c = false ->
  firstUnit (trimEnd (String c rest)) = Some c.
Proof.
  intros W. simpl. destruct (trimEnd rest); [rewrite W|]; reflexivity.
Qed.

(** [trim] leaves nothing, or a string with no white space at its ends. *)
Lemma trim_clean (s : string) : trim s = "" \/ isClean (trim s).
Proof.
  unfold trim.
  destruct (trimStart_first s) as [E|(c & F & W)].
  - left. now rewrite E.
  - right. destruct (trimStart s) as [|c' rest] eqn:T; [discriminate|].
    injection F as ->. split.
    + exists c. split; [now apply trimEnd_first|exact W].
    + destruct (trimEnd_last (String c rest)) as [E|L]; [|exact L].
      pose proof (trimEnd_first c rest W) as F. rewrite E in F. discriminate.
Qed.

Lemma trimEnd_fixed (s : string) (c : ascii) :
  lastUnit s = Some c -> isWhiteSpace c = false -> trimEnd s = s.
Proof.
  induction s as [|a rest IH]; [discriminate|].
  intros L W. destruct rest as [|b rest'].
  - injection L as ->. simpl. now rewrite W.
  - change (trimEnd (String a (String b rest')))
      with (match trimEnd (String b rest') with
            | "" => if isWhiteSpace a then "" else String a ""
            | kept => String a kept
            end).
    rewrite (IH L W). reflexivity.
Qed.

(** A string with no white space at its ends is left as it is by [trim]. *)
Lemma trim_fixed (s : string) : isClean s -> trim s = s.
Proof.
  intros [(c & F & W) (d & L & W')]. unfold trim.
  destruct s as [|a rest]; [discriminate|].
  injection F as ->. simpl trimStart. rewrite W.
  now apply trimEnd_fixed with d.
Qed.

Lemma isClean_nonEmpty (s : string) : isClean s -> nonEmpty s = true.
Proof. intros [(c & F & _) _]. now destruct s. Qed.

Lemma nonEmpty_trim_clean (s : string) :
  nonEmpty (trim s) = true -> isClean (trim s).
Proof.
  intros N. destruct (trim_clean s) as [E|C]; [|exact C].
  rewrite E in N. discriminate.
Qed.

Lemma isClean_toLowerCase (s : string) : isClean s -> isClean (toLowerCase s).
Proof.
  intros [(c & F & W) (d & L & W')]. split.
  - exists (toLowerCaseUnit c). rewrite firstUnit_toLowerCase, F.
    split; [reflexivity|now rewrite toLowerCaseUnit_whitespace].
  - exists (toLowerCaseUnit d). rewrite lastUnit_toLowerCase, L.
    split; [reflexivity|now rewrite toLowerCaseUnit_whitespace].
Qed.

Lemma firstUnit_append (a b : string) (c : ascii) :
  firstUnit a = Some c -> firstUnit (a ++ b) = Some c.
Proof. destruct a; [discriminate|intros F; exact F]. Qed.

Lemma lastUnit_append (a b : string) (c : ascii) :
  lastUnit b = Some c -> lastUnit (a ++ b) = Some c.
Proof.
  intros L. induction a as [|x rest IH]; [exact L|].
  simpl. destruct (rest ++ b) eqn:E; [discriminate IH|exact IH].
Qed.

(** Two clean parts joined by one space form a clean string. *)
Lemma isClean_join (a b : string) :
  isClean a -> isClean b -> isClean (a ++ " " ++ b).
Proof.
  intros [(c & F & W) _] [_ (d & L & W')]. split.
  - exists c. split; [now apply firstUnit_append|exact W].
  - exists d. split; [|exact W'].
    apply lastUnit_append. apply (lastUnit_append " " b d L).
Qed.

End StringFacts.

(** ** The computations return, and what they return *)

Section Returns.
Context `{Host}.

Lemma getProp_field (value : JsValue) (key : string) :
  isNullish value = false -> value.[key] = Ok (field value key).
Proof. destruct value; simpl; intros N; try discriminate; reflexivity. Qed.

Lemma getProp_record (value : JsValue) (key : string) :
  Transactions.isRecord value = true -> value.[key] = Ok (field value key).
Proof. destruct value; simpl; intros N; try discriminate; reflexivity. Qed.

Lemma getPropOpt_field (value : JsValue) (key : string) :
  value?.[key] = Ok (field value key).
Proof. destruct value; reflexivity. Qed.

Lemma coalesce_Ok {A} `{Nullable A} (a b : A) : Ok a ?? Ok b = Ok (a |? b).
Proof. unfold coalesce, orElse. simpl. destruct (isNullish a); reflexivity. Qed.

Lemma coalesce_assoc {A} `{Nullable A} (a b c : Exc A) :
  (a ?? b) ?? c = a ?? (b ?? c).
Proof.
  unfold coalesce. destruct a as [x|e]; [|reflexivity]. simpl.
  destruct (isNullish x) eqn:N; [reflexivity|]. simpl. now rewrite N.
Qed.

Lemma call_Ok {A B} (f : A -> B) (a : A) : f @@ Ok a = Ok (f a).
Proof. reflexivity. Qed.

Lemma bind_Ok {A B} (a : A) (k : A -> Exc B) : bind (Ok a) k = k a.
Proof. reflexivity. Qed.

Lemma mapM_Ok {A B} (f : A -> Exc B) (g : A -> B) (l : list A) :
  (forall x, f x = Ok (g x)) -> mapM f l = Ok (map g l).
Proof.
  intros E. induction l as [|x rest IH]; [reflexivity|].
  simpl. rewrite E, IH. reflexivity.
Qed.

Lemma filterBoolean_guard {A B} (keep : A -> bool) (g : A -> B) (l : list A) :
  filterBoolean (map (fun x => if keep x then Some (g x) else None) l)
  = map g (List.filter keep l).
Proof.
  induction l as [|x rest IH]; [reflexivity|].
  simpl. destruct (keep x); simpl; now rewrite IH.
Qed.

Lemma find_truthy_default (texts : list (option string)) :
  let firstMessage := default None (find truthy texts) in
  (if truthy firstMessage then firstMessage else None) = firstMessage.
Proof.
  simpl. destruct (find truthy texts) as [t|] eqn:F; [|reflexivity].
  apply find_some in F as [_ T]. simpl. now rewrite T.
Qed.

Lemma errorText_returns (error : JsValue) :
  Transactions.errorText error = Ok (Value.errorText error).
Proof.
  unfold Transactions.errorText, Value.errorText.
  destruct (Transactions.isRecord error) eqn:R; [|reflexivity].
  rewrite !(getProp_record error _ R), !coalesce_Ok. reflexivity.
Qed.

Lemma extractErrorFromLog_returns (log : JsValue) :
  Transactions.extractErrorFromLog log = Ok (Value.extractErrorFromLog log).
Proof.
  unfold Transactions.extractErrorFromLog, Value.extractErrorFromLog.
  destruct log as [| | b | n | s | elements | members]; try reflexivity.
  simpl. destruct (default JUndefined (members !! "errors"))
    as [| | b | n | s | errors | m]; simpl; try reflexivity.
  destruct (Transactions.firstPlainString errors) as [first|]; [reflexivity|].
  rewrite (mapM_Ok _ _ errors errorText_returns). simpl.
  rewrite (find_truthy_default (map Value.errorText errors)).
  unfold orElse. simpl.
  destruct (default None (find truthy (map Value.errorText errors)));
    reflexivity.
Qed.

Ltac returns_step R :=
  first [ rewrite !(getProp_record _ _ R)
        | rewrite !getPropOpt_field
        | rewrite !coalesce_Ok
        | rewrite !call_Ok
        | rewrite !extractErrorFromLog_returns
        | rewrite bind_Ok ].

Lemma normalizeTransaction_returns (entry : JsValue) :
  Transactions.normalizeTransaction entry
  = Ok (if Transactions.isRecord entry
        then Some (Value.normalizeTransaction entry) else None).
Proof.
  unfold Transactions.normalizeTransaction.
  destruct (Transactions.isRecord entry) eqn:R; [|reflexivity].
  simpl negb. cbv iota.
  repeat (returns_step R; cbv beta).
  reflexivity.
Qed.

Lemma summaryTransaction_returns (entry : JsValue) :
  TransactionSummary.normalizeTransaction entry
  = Ok (if Transactions.isRecord entry
        then Some (Value.summaryTransaction entry) else None).
Proof.
  unfold TransactionSummary.normalizeTransaction.
  destruct (Transactions.isRecord entry) eqn:R; [|reflexivity].
  simpl negb. cbv iota.
  repeat (returns_step R; cbv beta).
  reflexivity.
Qed.

Lemma normalizeEntries_returns (entries : list JsValue) :
  Transactions.normalizeEntries entries = Ok (Value.normalizeEntries entries).
Proof.
  unfold Transactions.normalizeEntries, Value.normalizeEntries.
  rewrite (mapM_Ok _ _ entries normalizeTransaction_returns), call_Ok.
  now rewrite filterBoolean_guard.
Qed.

Lemma summaryEntries_returns (entries : list JsValue) :
  TransactionSummary.normalizeEntries entries
  = Ok (Value.summaryEntries entries).
Proof.
  unfold TransactionSummary.normalizeEntries, Value.summaryEntries.
  rewrite (mapM_Ok _ _ entries summaryTransaction_returns), call_Ok.
  now rewrite filterBoolean_guard.
Qed.

Lemma isTransactionPayload_returns (data : JsValue) :
  Transactions.isTransactionPayload data = Ok (Value.isTransactionPayload data).
Proof.
  unfold Transactions.isTransactionPayload, Value.isTransactionPayload.
  destruct (Transactions.isRecord data) eqn:R; [|reflexivity].
  now rewrite (getProp_record _ _ R).
Qed.

Lemma elementsOf_array (value : JsValue) :
  Array_isArray value = true -> elementsOf value = Ok (Value.elements value).
Proof. destruct value; simpl; intros A; try discriminate; reflexivity. Qed.

Lemma extractTransactionArrays_returns (data : JsValue) :
  Transactions.extractTransactionArrays data
  = Ok (Value.extractTransactionArrays data).
Proof.
  unfold Transactions.extractTransactionArrays, Value.extractTransactionArrays.
  destruct (negb (truthy data)); [reflexivity|].
  destruct (Array_isArray data); [reflexivity|].
  destruct (Transactions.isRecord data) eqn:R; [|reflexivity].
  rewrite (mapM_Ok _ (field data) _ (fun key => getProp_record data key R)).
  reflexivity.
Qed.

(** The array the second branch maps over: [source ?? []]. *)
Lemma source_elements (candidates : list JsValue) :
  match find Array_isArray candidates with
  | Some source => elementsOf source
  | None => Ok []
  end
  = Ok match find Array_isArray candidates with
       | Some source => Value.elements source
       | None => []
       end.
Proof.
  destruct (find Array_isArray candidates) as [source|] eqn:F; [|reflexivity].
  apply find_some in F as [_ A]. now apply elementsOf_array.
Qed.

Lemma normalizeTransactionsFromOutput_returns (data : JsValue) :
  Transactions.normalizeTransactionsFromOutput data
  = Ok (Value.normalizeTransactionsFromOutput data).
Proof.
  unfold Transactions.normalizeTransactionsFromOutput,
    Value.normalizeTransactionsFromOutput, Value.sourceEntries,
    Value.reportedTotal, Value.reportedVolume, Value.reportedCurrency,
    Value.reportedMessage.
  rewrite isTransactionPayload_returns, bind_Ok.
  destruct (Value.isTransactionPayload data) eqn:P.
  - unfold Value.isTransactionPayload in P.
    apply andb_true_iff in P as [R A].
    rewrite !(getProp_record _ _ R), bind_Ok, (elementsOf_array _ A), bind_Ok.
    rewrite normalizeEntries_returns, bind_Ok.
    repeat (returns_step R; cbv beta).
    reflexivity.
  - rewrite extractTransactionArrays_returns, bind_Ok.
    rewrite source_elements, bind_Ok, normalizeEntries_returns, bind_Ok.
    repeat (first [ rewrite !getPropOpt_field | rewrite !coalesce_Ok
                  | rewrite !call_Ok | rewrite bind_Ok ]; cbv beta).
    reflexivity.
Qed.

Lemma summaryFromOutput_returns (data : JsValue) :
  TransactionSummary.normalizeTransactionsFromOutput data
  = Ok (Value.summaryFromOutput data).
Proof.
  unfold TransactionSummary.normalizeTransactionsFromOutput,
    Value.summaryFromOutput, Value.summaryVolume, Value.sourceEntries,
    Value.reportedTotal, Value.reportedVolume, Value.reportedCurrency,
    Value.reportedMessage.
  rewrite isTransactionPayload_returns, bind_Ok.
  destruct (Value.isTransactionPayload data) eqn:P.
  - unfold Value.isTransactionPayload in P.
    apply andb_true_iff in P as [R A].
    rewrite !(getProp_record _ _ R), bind_Ok, (elementsOf_array _ A), bind_Ok.
    rewrite summaryEntries_returns, bind_Ok.
    repeat (returns_step R; cbv beta).
    reflexivity.
  - rewrite extractTransactionArrays_returns, bind_Ok.
    rewrite source_elements, bind_Ok, summaryEntries_returns, bind_Ok.
    repeat (first [ rewrite !getPropOpt_field | rewrite !coalesce_Ok
                  | rewrite !call_Ok | rewrite bind_Ok ]; cbv beta).
    reflexivity.
Qed.

End Returns.

(** ** Status classification *)

Section Status.
Import Transactions.

Lemma includes_In (candidates : list string) (s : string) :
  includes candidates s = true <-> In s candidates.
Proof.
  unfold includes. rewrite existsb_exists. split.
  - intros (x & I & E). apply String.eqb_eq in E. now subst.
  - intros I. exists s. split; [exact I|apply String.eqb_refl].
Qed.

Lemma includes_not_In (candidates : list string) (s : string) :
  ~ In s candidates -> includes candidates s = false.
Proof.
  intros N. destruct (includes candidates s) eqn:E; [|reflexivity].
  now apply includes_In in E.
Qed.

(** The status of a present, non-empty token depends on its lower-cased
    form only. *)
Lemma normalizeStatus_lowered (s : string) :
  nonEmpty s = true ->
  normalizeStatus (Some s) =
    if includes Spec.successWords (toLowerCase s) then Success
    else if includes Spec.failedWords (toLowerCase s) then Failed
    else if includes Spec.abandonedWords (toLowerCase s) then Abandoned
    else Other.
Proof.
  intros N. unfold normalizeStatus, truthy, option_string_truthy.
  rewrite N. reflexivity.
Qed.

Lemma lowered_word_nonEmpty (s : string) (words : list string) :
  In (toLowerCase s) words -> ~ In "" words -> nonEmpty s = true.
Proof.
  intros I N. destruct s; [|reflexivity]. now elim N.
Qed.

End Status.

(** C2. [normalizeStatus] is a total, case-insensitive classification: a
    status whose lower-cased form is [success] or [successful] is [Success];
    [failed], [failure] or [error] is [Failed]; [abandoned], [cancelled],
    [canceled], [timeout], [timed out] or [expired] is [Abandoned]; every
    other string and the absent status are [Other]; two statuses that differ
    in case only fall in the same bucket, and every input falls in exactly
    one bucket. *)
Theorem normalizeStatus_total_case_insensitive :
  (forall s, In (toLowerCase s) Spec.successWords ->
             Transactions.normalizeStatus (Some s) = Transactions.Success) /\
  (forall s, In (toLowerCase s) Spec.failedWords ->
             Transactions.normalizeStatus (Some s) = Transactions.Failed) /\
  (forall s, In (toLowerCase s) Spec.abandonedWords ->
             Transactions.normalizeStatus (Some s) = Transactions.Abandoned) /\
  (forall s, ~ In (toLowerCase s)
               (Spec.successWords ++ Spec.failedWords ++ Spec.abandonedWords) ->
             Transactions.normalizeStatus (Some s) = Transactions.Other) /\
  Transactions.normalizeStatus None = Transactions.Other /\
  (forall s s', toLowerCase s = toLowerCase s' ->
                Transactions.normalizeStatus (Some s)
                = Transactions.normalizeStatus (Some s')) /\
  (forall value, exists! bucket, Transactions.normalizeStatus value = bucket) /\
  Transactions.normalizeStatus (Some "SUCCESSFUL") = Transactions.Success /\
  Transactions.normalizeStatus (Some "Timed Out") = Transactions.Abandoned /\
  Transactions.normalizeStatus (Some "pending") = Transactions.Other.
Proof.
  repeat split.
  - intros s I.
    rewrite normalizeStatus_lowered
      by (apply (lowered_word_nonEmpty s _ I); simpl; intuition discriminate).
    apply includes_In in I. now rewrite I.
  - intros s I.
    rewrite normalizeStatus_lowered
      by (apply (lowered_word_nonEmpty s _ I); simpl; intuition discriminate).
    simpl in I. destruct I as [<-|[<-|[<-|[]]]]; reflexivity.
  - intros s I.
    rewrite normalizeStatus_lowered
      by (apply (lowered_word_nonEmpty s _ I); simpl; intuition discriminate).
    simpl in I. destruct I as [<-|[<-|[<-|[<-|[<-|[<-|[]]]]]]]; reflexivity.
  - intros s N. destruct (nonEmpty s) eqn:E.
    + rewrite (normalizeStatus_lowered s E).
      rewrite !includes_not_In; [reflexivity| | |];
        intros I; apply N; rewrite !in_app_iff; tauto.
    + destruct s; [reflexivity|discriminate].
  - intros s s' E. destruct (nonEmpty s) eqn:N.
    + assert (nonEmpty s' = true) as N'
          by (rewrite <- toLowerCase_nonEmpty, <- E, toLowerCase_nonEmpty; exact N).
      rewrite (normalizeStatus_lowered s N), (normalizeStatus_lowered s' N'), E.
      reflexivity.
    + assert (nonEmpty s' = false) as N'
          by (rewrite <- toLowerCase_nonEmpty, <- E, toLowerCase_nonEmpty; exact N).
      destruct s, s'; try discriminate; reflexivity.
  - intros value. exists (Transactions.normalizeStatus value).
    split; [reflexivity|intros bucket <-; reflexivity].
Qed.

(** ** Formatting *)

(** C8. [formatCurrencyAmount] never throws; when a currency is supplied and
    the currency formatter throws, the result is the code, one space and the
    number's plain rendering, so it contains the code; with no currency it is
    a decimal rendering of the number. *)
Theorem formatCurrencyAmount_never_throws `{Host} :
  forall (value : float) (currency : option string),
    (exists text, Transactions.formatCurrencyAmount value currency = Ok text) /\
    (forall code error,
        currency = Some code -> nonEmpty code = true ->
        Intl_formatCurrency code value = Throw error ->
        Transactions.formatCurrencyAmount value currency
        = Ok (code ++ " " ++ Number_toLocaleString value) /\
        contains (code ++ " " ++ Number_toLocaleString value) code) /\
    (truthy currency = false ->
     Transactions.formatCurrencyAmount value currency
     = Ok match Intl_formatDecimal value with
          | Ok text => text
          | Throw _ => Number_toLocaleString value
          end).
Proof.
  intros value currency. unfold Transactions.formatCurrencyAmount.
  split; [|split].
  - destruct (truthy currency).
    + destruct (Intl_formatCurrency _ value); simpl; eauto.
    + destruct (Intl_formatDecimal value); simpl; eauto.
  - intros code error -> N E. unfold truthy, option_string_truthy.
    rewrite N. simpl. rewrite E. split; [reflexivity|].
    exists "", (" " ++ Number_toLocaleString value). reflexivity.
  - intros T. rewrite T. destruct (Intl_formatDecimal value); reflexivity.
Qed.

(** ["EURO"] is not a well-formed currency code, so the formatter rejects
    it; the amount is still rendered, after the code. *)
Lemma formatCurrencyAmount_never_throws_witness :
  exists text,
    Transactions.formatCurrencyAmount 12%float (Some "EURO") = Ok text /\
    contains text "EURO".
Proof.
  destruct (formatCurrencyAmount_never_throws 12%float (Some "EURO"))
    as (_ & fallback & _).
  destruct (fallback "EURO" RangeError eq_refl eq_refl eq_refl) as (E & C).
  eexists. split; [exact E|exact C].
Defined.

(** ** The normalizer never throws *)

(** C1. For every input value [normalizeTransactionsFromOutput] returns a
    result and does not throw; the result carries a total; on [{}] it is the
    empty sequence with total 0 and no volume, currency or message. *)
Theorem normalizeTransactionsFromOutput_never_throws `{Host} :
  forall data : JsValue,
    (exists result,
        Transactions.normalizeTransactionsFromOutput data = Ok result /\
        is_Some (Transactions.total (Transactions.meta result))) /\
    Transactions.normalizeTransactionsFromOutput emptyObject
    = Ok {| Transactions.transactions := [];
            Transactions.meta :=
              {| Transactions.total := Some 0%float;
                 Transactions.totalVolume := None;
                 Transactions.metaCurrency := None;
                 Transactions.message := None;
                 Transactions.page := None;
                 Transactions.perPage := None;
                 Transactions.pageCount := None |} |}.
Proof.
  intros data. split.
  - exists (Value.normalizeTransactionsFromOutput data). split.
    + apply normalizeTransactionsFromOutput_returns.
    + simpl. unfold orElse.
      destruct (isNullish (Value.reportedTotal data)) eqn:N; [now eexists|].
      destruct (Value.reportedTotal data); [now eexists|discriminate].
  - rewrite normalizeTransactionsFromOutput_returns. reflexivity.
Qed.

(** ** Fields of one normalized entry *)

Section EntryFacts.
Context `{Host}.
Import Transactions.

Lemma field_getRecord (value : JsValue) (key : string) :
  field (getRecord value) key = field value key.
Proof. destruct value; reflexivity. Qed.

Lemma customerOf_customerObject (entry : JsValue) :
  Value.customerOf entry = Spec.customerObject entry.
Proof.
  unfold Value.customerOf, Spec.customerObject, orElse, getRecord. simpl.
  destruct (isRecord (field entry "customer")) eqn:A.
  - destruct (field entry "customer"); try discriminate; reflexivity.
  - destruct (isRecord (field entry "customer_data")) eqn:B.
    + destruct (field entry "customer_data"); try discriminate; reflexivity.
    + simpl. destruct (isRecord (field entry "customerDetails")); reflexivity.
Qed.

Lemma orElse_firstDefined {A} (a b : option A) :
  a |? b = Spec.firstDefined [a; b].
Proof. destruct a, b; reflexivity. Qed.

Lemma firstDefined_app {A} (front back : list (option A)) :
  Spec.firstDefined (front ++ [Spec.firstDefined back])
  = Spec.firstDefined (front ++ back).
Proof.
  induction front as [|[x|] rest IH]; simpl.
  - destruct (Spec.firstDefined back); reflexivity.
  - reflexivity.
  - exact IH.
Qed.

Lemma asString_clean (value : JsValue) : Spec.absentOrClean (asString value).
Proof.
  destruct value; simpl; trivial.
  destruct (nonEmpty (trim s)) eqn:N; simpl; [|trivial].
  now apply nonEmpty_trim_clean.
Qed.

Lemma clean_truthy (text : option string) (s : string) :
  Spec.absentOrClean text -> text = Some s -> truthy text = true.
Proof. intros C ->. now apply isClean_nonEmpty. Qed.

(** [buildName] on parts that are absent or clean: the parts that exist,
    joined by one space; the whole name when there is no part. *)
Lemma buildName_parts (firstName lastName fallback : option string) :
  Spec.absentOrClean firstName -> Spec.absentOrClean lastName ->
  Spec.absentOrClean fallback ->
  buildName firstName lastName fallback =
    match firstName, lastName with
    | Some first, Some last => Some (first ++ " " ++ last)
    | Some first, None => Some first
    | None, Some last => Some last
    | None, None => fallback
    end.
Proof.
  intros F L W. unfold buildName.
  destruct firstName as [first|], lastName as [last|]; simpl in F, L;
    unfold truthy, option_string_truthy; simpl;
    rewrite ?(isClean_nonEmpty _ F), ?(isClean_nonEmpty _ L); simpl.
  - f_equal. apply trim_fixed. now apply isClean_join.
  - f_equal. now apply trim_fixed.
  - f_equal. now apply trim_fixed.
  - destruct fallback as [name|]; [|reflexivity]. simpl in W.
    rewrite (trim_fixed _ W), (isClean_nonEmpty _ W). reflexivity.
Qed.

Lemma buildName_clean (firstName lastName fallback : option string) :
  Spec.absentOrClean firstName -> Spec.absentOrClean lastName ->
  Spec.absentOrClean fallback ->
  Spec.absentOrClean (buildName firstName lastName fallback).
Proof.
  intros F L W. rewrite (buildName_parts _ _ _ F L W).
  destruct firstName, lastName; simpl in *; trivial.
  now apply isClean_join.
Qed.

Lemma orElse_clean (a b : option string) :
  Spec.absentOrClean a -> Spec.absentOrClean b -> Spec.absentOrClean (a |? b).
Proof. destruct a; simpl; trivial. Qed.

(** [asString] gives the text a value holds. *)
Lemma asString_text (value : JsValue) : asString value = Spec.text value.
Proof.
  destruct value as [| | | |s| |]; try reflexivity.
  simpl. now destruct (trim s).
Qed.

(** [a ?? x] before [asString] reads [a] first. *)
Lemma readText_cons (a x : JsValue) (rest : list JsValue) :
  Spec.text x = Spec.readText rest ->
  Spec.text (a |? x) = Spec.readText (a :: rest).
Proof. intros X. destruct a; try reflexivity; exact X. Qed.

Lemma readText_one (a : JsValue) : Spec.text a = Spec.readText [a].
Proof. now destruct a. Qed.

Lemma asString_pair (a b : JsValue) :
  asString (a |? b) = Spec.readText [a; b].
Proof. rewrite asString_text. apply readText_cons, readText_one. Qed.

Lemma asString_triple (a b c : JsValue) :
  asString (a |? b |? c) = Spec.readText [a; b; c].
Proof.
  rewrite asString_text. apply readText_cons, readText_cons, readText_one.
Qed.

Lemma asString_quadruple (a b c d : JsValue) :
  asString (a |? b |? c |? d) = Spec.readText [a; b; c; d].
Proof.
  rewrite asString_text.
  apply readText_cons, readText_cons, readText_cons, readText_one.
Qed.

Lemma readText_clean (fields : list JsValue) :
  Spec.absentOrClean (Spec.readText fields).
Proof. unfold Spec.readText. rewrite <- asString_text. apply asString_clean. Qed.

Lemma customerName_value (entry : JsValue) :
  customerName (Value.normalizeTransaction entry) = Spec.customerName entry.
Proof.
  unfold Value.normalizeTransaction, Spec.customerName, Spec.namePart,
    Spec.wholeName, Spec.accountName, Spec.partFields, Spec.wholeNameFields.
  simpl.
  rewrite customerOf_customerObject, field_getRecord.
  rewrite buildName_parts by apply asString_clean.
  rewrite asString_quadruple, !asString_pair, asString_text.
  unfold Spec.joinParts.
  destruct (Spec.readText [field entry "first_name"; _]),
    (Spec.readText [field entry "last_name"; _]); try reflexivity.
  destruct (Spec.readText _); [reflexivity|].
  now destruct (Spec.text _).
Qed.

Lemma mappingText_errorText (error : JsValue) :
  Value.errorText error = Spec.mappingText error.
Proof.
  unfold Value.errorText, Spec.mappingText. rewrite asString_triple.
  now destruct error.
Qed.

(** [find] with [typeof error === "string"] gives the first plain-string
    element; it is kept when it is not the empty string. *)
Lemma firstPlainString_plainString (elements : list JsValue) :
  firstPlainString elements = Spec.plainString elements.
Proof.
  unfold firstPlainString, Spec.plainString.
  induction elements as [|element rest IH]; [reflexivity|].
  destruct element as [| | | |s| |]; try exact IH.
  simpl. now destruct s.
Qed.

Lemma find_truthy_firstDefined (texts : list (option string)) :
  Forall Spec.absentOrClean texts ->
  default None (find truthy texts) = Spec.firstDefined texts.
Proof.
  induction 1 as [|text rest C _ IH]; [reflexivity|].
  simpl. destruct text as [s|]; simpl.
  - unfold truthy, option_string_truthy. now rewrite (isClean_nonEmpty _ C).
  - exact IH.
Qed.

(** Fields that are absent or hold a text: the first present one is the
    first that holds a text. *)
Lemma readText_firstDefined (fields : list JsValue) :
  Forall (fun value => Spec.absentOrText value = true) fields ->
  Spec.readText fields = Spec.firstDefined (map Spec.text fields).
Proof.
  unfold Spec.readText.
  induction 1 as [|value rest A _ IH]; [reflexivity|].
  destruct value as [| |b|n|s|elements|members]; try exact IH;
    try discriminate A.
  unfold Spec.absentOrText in A. cbn [Spec.firstPresent map Spec.firstDefined].
  destruct (Spec.text (JStr s)); [reflexivity|discriminate A].
Qed.

Lemma firstDefined_append {A} (front back : list (option A)) :
  Spec.firstDefined (front ++ back)
  = Spec.firstDefined [Spec.firstDefined front; Spec.firstDefined back].
Proof.
  induction front as [|[x|] rest IH]; simpl.
  - now destruct (Spec.firstDefined back).
  - reflexivity.
  - exact IH.
Qed.

Lemma mappingTexts_clean (elements : list JsValue) :
  Forall Spec.absentOrClean (map Spec.mappingText elements).
Proof.
  apply Forall_map, Forall_forall. intros error _. apply readText_clean.
Qed.

Lemma extractErrorFromLog_value (log : JsValue) :
  Value.extractErrorFromLog log
  = Spec.firstDefined [Spec.errorsText (field log "errors");
                       asString (field log "message")].
Proof.
  unfold Value.extractErrorFromLog, Spec.errorsText.
  rewrite orElse_firstDefined. f_equal. f_equal.
  destruct (field log "errors"); try reflexivity.
  rewrite orElse_firstDefined, firstPlainString_plainString.
  f_equal. f_equal. f_equal.
  rewrite (map_ext _ _ mappingText_errorText).
  apply find_truthy_firstDefined, mappingTexts_clean.
Qed.

Lemma failureReason_value (entry : JsValue) :
  failureReason (Value.normalizeTransaction entry)
  = Spec.firstDefined (Spec.failureReasonChain entry).
Proof.
  unfold Value.normalizeTransaction, Spec.failureReasonChain, Spec.logLinks,
    Spec.gatewayFields, Spec.failureFields, Spec.reasonFields.
  simpl failureReason.
  rewrite extractErrorFromLog_value, !asString_pair, asString_text.
  destruct (Spec.readText [field entry "gateway_response"; _]); [reflexivity|].
  destruct (Spec.readText [field entry "failure_reason"; _]); [reflexivity|].
  destruct (Spec.readText [field entry "reason"; _]); [reflexivity|].
  reflexivity.
Qed.

Lemma firstPlainString_none (elements : list JsValue) :
  Forall (fun error => isStringValue error = false) elements ->
  firstPlainString elements = None.
Proof.
  intros N. unfold firstPlainString.
  destruct (find isStringValue elements) as [found|] eqn:F; [|reflexivity].
  apply find_some in F as [I S]. rewrite List.Forall_forall in N.
  rewrite (N _ I) in S. discriminate.
Qed.

Lemma firstDefined_clean (chain : list (option string)) :
  Forall Spec.absentOrClean chain ->
  Spec.absentOrClean (Spec.firstDefined chain).
Proof.
  induction 1 as [|text rest C _ IH]; simpl; [trivial|].
  destruct text; [exact C|exact IH].
Qed.

Lemma errorsText_clean (entry : JsValue) :
  Spec.noPlainStringError entry ->
  Spec.absentOrClean (Spec.errorsText (field (field entry "log") "errors")).
Proof.
  unfold Spec.noPlainStringError, Spec.errorsText.
  destruct (field (field entry "log") "errors"); simpl; trivial.
  intros N. rewrite <- firstPlainString_plainString.
  rewrite (firstPlainString_none _ N). simpl.
  pose proof (firstDefined_clean _ (mappingTexts_clean elements)) as C.
  destruct (Spec.firstDefined (map Spec.mappingText elements)); exact C.
Qed.

End EntryFacts.

(** Whatever the host, a blank first name on the entry hides the first name
    of the customer sub-object. *)
Lemma blank_part_any_host `{Host} :
  exists txn,
    Transactions.normalizeTransaction blankFirstName = Ok (Some txn) /\
    Transactions.customerName txn = Some "Lovelace" /\
    Spec.claimedCustomerName blankFirstName = Some "Ada Lovelace".
Proof. eexists. repeat split; reflexivity. Qed.

(** C6, as stated, fails: the customer carries both parts, yet the name is
    not the two parts joined. *)
Lemma blank_part_hides_customer_part :
  exists txn,
    Transactions.normalizeTransaction blankFirstName = Ok (Some txn) /\
    Transactions.customerName txn = Some "Lovelace" /\
    Spec.claimedCustomerName blankFirstName = Some "Ada Lovelace" /\
    Transactions.customerName txn <> Spec.claimedCustomerName blankFirstName.
Proof.
  destruct blank_part_any_host as (txn & E & N & C).
  exists txn. repeat split; trivial. rewrite N, C. discriminate.
Qed.

(** The same for the whole name: a blank [customer.name] hides the entry's
    [customer_name], whatever the host. *)
Lemma blank_name_hides_customer_name `{Host} :
  exists txn,
    Transactions.normalizeTransaction blankCustomerName = Ok (Some txn) /\
    Transactions.customerName txn = None /\
    Spec.claimedCustomerName blankCustomerName = Some "Bob".
Proof. eexists. repeat split; reflexivity. Qed.

(** C6, amended. For an entry that is an object, [customerName] is built
    from the first-name and last-name parts: the parts that exist, joined by
    one space, and only when neither exists the whole name, and failing that
    [authorization.account_name]. A part is read from the entry's own field
    and, only when that is [undefined] or [null], from the customer
    sub-object (the first object among [customer], [customer_data],
    [customerDetails]); what was read is a part when it is a string that is
    not blank. The whole name is read the same way from [customer.name],
    [customer_name], [customerName], [name]. The name is never blank. When
    every field read is absent or a string that is not blank, no field hides
    another, and the name is built from the available parts. *)
Theorem customerName_prefers_name_parts `{Host} :
  forall entry : JsValue,
    Transactions.isRecord entry = true ->
    exists txn,
      Transactions.normalizeTransaction entry = Ok (Some txn) /\
      Transactions.customerName txn = Spec.customerName entry /\
      Spec.absentOrClean (Transactions.customerName txn) /\
      (Forall (fun value => Spec.absentOrText value = true)
              (Spec.nameFields entry) ->
       Transactions.customerName txn = Spec.claimedCustomerName entry).
Proof.
  intros entry R. exists (Value.normalizeTransaction entry).
  split; [|split; [|split]].
  - now rewrite normalizeTransaction_returns, R.
  - apply customerName_value.
  - simpl. apply orElse_clean; [|apply asString_clean].
    apply buildName_clean; apply asString_clean.
  - intros A. rewrite customerName_value.
    unfold Spec.nameFields in A.
    apply Forall_app in A as [first A]. apply Forall_app in A as [last whole].
    unfold Spec.customerName, Spec.claimedCustomerName, Spec.namePart,
      Spec.wholeName, Spec.availablePart, Spec.availableWholeName.
    now rewrite !readText_firstDefined.
Qed.

(** The joined first and last name wins over [customer_name]. *)
Lemma customerName_prefers_name_parts_witness :
  Transactions.isRecord namedEntry = true /\
  exists txn,
    Transactions.normalizeTransaction namedEntry = Ok (Some txn) /\
    Transactions.customerName txn = Some "Ada Lovelace" /\
    Spec.claimedCustomerName namedEntry = Some "Ada Lovelace".
Proof.
  split; [reflexivity|].
  destruct (customerName_prefers_name_parts namedEntry eq_refl)
    as (txn & E & N & _ & C).
  exists txn. split; [exact E|]. split; [rewrite N; reflexivity|].
  rewrite <- C; [rewrite N; reflexivity|].
  unfold Spec.nameFields, Spec.partFields, Spec.wholeNameFields.
  repeat constructor.
Defined.

(** Whatever the host, an empty [failure_reason] hides [failureReason]. *)
Lemma empty_failure_reason_any_host `{Host} :
  exists txn,
    Transactions.normalizeTransaction emptyFailureReason = Ok (Some txn) /\
    Transactions.failureReason txn = None /\
    Spec.firstDefined (Spec.claimedFailureReasonChain emptyFailureReason)
    = Some "Insufficient funds".
Proof. eexists. repeat split; reflexivity. Qed.

(** C7, as stated, fails: [failureReason] holds a text, yet the entry has no
    failure reason. *)
Lemma empty_failure_reason_hides_failureReason :
  exists txn,
    Transactions.normalizeTransaction emptyFailureReason = Ok (Some txn) /\
    Transactions.failureReason txn = None /\
    Transactions.failureReason txn
    <> Spec.firstDefined (Spec.claimedFailureReasonChain emptyFailureReason).
Proof.
  destruct empty_failure_reason_any_host as (txn & E & F & C).
  exists txn. repeat split; trivial. rewrite F, C. discriminate.
Qed.

(** C7, amended. For an entry that is an object, [failureReason] is the
    first defined link of the chain: the gateway response text; the
    [failure_reason]/[failureReason] pair; the [reason]/[status_reason] pair;
    the first string of [log.errors] (its first plain-string element when
    that is not empty, else the text of the first element that is a mapping
    with a [message], [detail] or [description]); [log.message]. Within a
    pair the first field is read and, only when that is [undefined] or
    [null], the second; what was read is a link when it is a string that is
    not blank. When each of the six fields is absent or a string that is not
    blank, no field hides another, and [failureReason] is the first defined
    of the six fields and the two links of [log]. *)
Theorem failureReason_first_defined `{Host} :
  forall entry : JsValue,
    Transactions.isRecord entry = true ->
    exists txn,
      Transactions.normalizeTransaction entry = Ok (Some txn) /\
      Transactions.failureReason txn
      = Spec.firstDefined (Spec.failureReasonChain entry) /\
      (Forall (fun value => Spec.absentOrText value = true)
              (Spec.pairedFields entry) ->
       Transactions.failureReason txn
       = Spec.firstDefined (Spec.claimedFailureReasonChain entry)).
Proof.
  intros entry R. exists (Value.normalizeTransaction entry).
  split; [|split].
  - now rewrite normalizeTransaction_returns, R.
  - apply failureReason_value.
  - intros A. rewrite failureReason_value.
    unfold Spec.pairedFields in A.
    apply Forall_app in A as [gateway A]. apply Forall_app in A as [failure reason].
    unfold Spec.failureReasonChain, Spec.claimedFailureReasonChain,
      Spec.pairedFields.
    rewrite !readText_firstDefined by assumption.
    rewrite !map_app, !firstDefined_append.
    cbn [Spec.firstDefined].
    destruct (Spec.firstDefined (map Spec.text (Spec.gatewayFields entry)));
      [reflexivity|].
    destruct (Spec.firstDefined (map Spec.text (Spec.failureFields entry)));
      [reflexivity|].
    now destruct (Spec.firstDefined (map Spec.text (Spec.reasonFields entry))).
Qed.

(** An entry whose only reason-bearing field is
    [log: { errors: [{ message: "card declined" }] }]. *)
Lemma failureReason_first_defined_witness :
  Transactions.isRecord declinedEntry = true /\
  exists txn,
    Transactions.normalizeTransaction declinedEntry = Ok (Some txn) /\
    Transactions.failureReason txn = Some "card declined" /\
    Spec.firstDefined (Spec.claimedFailureReasonChain declinedEntry)
    = Some "card declined".
Proof.
  split; [reflexivity|].
  destruct (failureReason_first_defined declinedEntry eq_refl)
    as (txn & E & F & C).
  exists txn. split; [exact E|]. split; [rewrite F; reflexivity|].
  rewrite <- C; [rewrite F; reflexivity|].
  unfold Spec.pairedFields, Spec.gatewayFields, Spec.failureFields,
    Spec.reasonFields.
  repeat constructor.
Defined.

(** In [log.errors] the first plain-string element decides: when it is
    empty, later plain strings are not looked at, and the text of the first
    mapping is taken. *)
Lemma failureReason_empty_log_error `{Host} :
  exists txn,
    Transactions.normalizeTransaction emptyLogError = Ok (Some txn) /\
    Transactions.failureReason txn = Some "card declined".
Proof. eexists. split; reflexivity. Qed.

(** Whatever the host, an id of two spaces is kept as it is. *)
Lemma blank_id_any_host `{Host} :
  exists txn,
    Transactions.normalizeTransaction blankIdEntry = Ok (Some txn) /\
    Transactions.id txn = Some "  " /\
    ~ Spec.absentOrClean (Transactions.id txn).
Proof.
  eexists. split; [reflexivity|]. split; [reflexivity|].
  simpl. intros [(c & F & W) _]. injection F as <-. discriminate.
Qed.

(** C9, as stated, fails: an id of two spaces is kept as it is. *)
Lemma blank_id_is_kept :
  exists txn,
    Transactions.normalizeTransaction blankIdEntry = Ok (Some txn) /\
    Transactions.id txn = Some "  " /\
    ~ Spec.absentOrClean (Transactions.id txn).
Proof. exact blank_id_any_host. Qed.

(** C9, amended. In every normalized transaction [rawStatus],
    [customerName], [customerEmail], [gatewayResponse], [currency] and
    [createdAt] are absent or non-empty with no white space at either end, and
    so is [failureReason] when [log.errors] holds no plain-string element;
    [id] is the first of [id], [reference], [transaction_id], [transactionId]
    that is not nullish, converted by [toId], which returns a string as it
    is. *)
Theorem string_fields_absent_or_clean `{Host} :
  forall (entry : JsValue) (txn : Transactions.NormalizedTransaction),
    Transactions.normalizeTransaction entry = Ok (Some txn) ->
    Spec.absentOrClean (Transactions.rawStatus txn) /\
    Spec.absentOrClean (Transactions.customerName txn) /\
    Spec.absentOrClean (Transactions.customerEmail txn) /\
    Spec.absentOrClean (Transactions.gatewayResponse txn) /\
    Spec.absentOrClean (Transactions.currency txn) /\
    Spec.absentOrClean (Transactions.createdAt txn) /\
    (Spec.noPlainStringError entry ->
     Spec.absentOrClean (Transactions.failureReason txn)) /\
    Transactions.id txn
    = Transactions.toId (field entry "id" |? field entry "reference"
                           |? field entry "transaction_id"
                           |? field entry "transactionId") /\
    (forall s, Transactions.toId (JStr s) = Some s).
Proof.
  intros entry txn E. rewrite normalizeTransaction_returns in E.
  destruct (Transactions.isRecord entry); [|discriminate].
  injection E as <-.
  split.
  { simpl. pose proof (asString_clean
      (field entry "status" |? field entry "state" |? field entry "current_status"))
      as C.
    destruct (Transactions.asString _); simpl in *; [|trivial].
    now apply isClean_toLowerCase. }
  split.
  { simpl. apply orElse_clean; [|apply asString_clean].
    apply buildName_clean; apply asString_clean. }
  split.
  { simpl. repeat apply orElse_clean; apply asString_clean. }
  split; [apply asString_clean|].
  split; [apply asString_clean|].
  split; [apply asString_clean|].
  split; [|split; reflexivity].
  intros N. rewrite failureReason_value. apply firstDefined_clean.
  unfold Spec.failureReasonChain, Spec.logLinks. simpl app.
  repeat (apply List.Forall_cons; [apply readText_clean|]).
  apply List.Forall_cons; [now apply errorsText_clean|].
  apply List.Forall_cons; [|apply List.Forall_nil].
  rewrite <- asString_text. apply asString_clean.
Qed.

Lemma string_fields_absent_or_clean_witness :
  exists txn,
    Transactions.normalizeTransaction paddedEntry = Ok (Some txn) /\
    Transactions.rawStatus txn = Some "success" /\
    Transactions.currency txn = None /\
    Transactions.customerEmail txn = Some "ada@example.com" /\
    Spec.absentOrClean (Transactions.rawStatus txn) /\
    Spec.absentOrClean (Transactions.customerEmail txn) /\
    Spec.absentOrClean (Transactions.failureReason txn).
Proof.
  eexists. split; [reflexivity|].
  split; [reflexivity|]. split; [reflexivity|]. split; [reflexivity|].
  destruct (string_fields_absent_or_clean paddedEntry _ eq_refl)
    as (S & _ & M & _ & _ & _ & F & _).
  split; [exact S|]. split; [exact M|]. apply F. exact I.
Defined.

(** ** The sequence of transactions *)

Section Batch.
Context `{Host}.
Import Transactions.

Lemma transactions_value (data : JsValue) :
  transactions (Value.normalizeTransactionsFromOutput data)
  = Value.normalizeEntries (Value.sourceEntries data).
Proof. reflexivity. Qed.

Lemma sourceEntries_envelope (data : JsValue) (entries : list JsValue) :
  field data "data" = JArr entries -> Value.sourceEntries data = entries.
Proof.
  intros D. unfold Value.sourceEntries, Value.isTransactionPayload.
  rewrite D. destruct data; try discriminate. reflexivity.
Qed.

(** Each kept entry, in order, with the transaction it is normalized to. *)
Lemma normalizeEntries_pointwise (entries : list JsValue) :
  Forall2 (fun entry txn => normalizeTransaction entry = Ok (Some txn))
          (List.filter isRecord entries) (Value.normalizeEntries entries).
Proof.
  unfold Value.normalizeEntries.
  induction entries as [|entry rest IH]; simpl; [constructor|].
  destruct (isRecord entry) eqn:R; [|exact IH].
  simpl. constructor; [|exact IH].
  now rewrite normalizeTransaction_returns, R.
Qed.

Lemma normalizeEntries_length (entries : list JsValue) :
  List.length (Value.normalizeEntries entries)
  = (List.length entries
     - List.length (List.filter (fun entry => negb (isRecord entry)) entries))%nat.
Proof.
  unfold Value.normalizeEntries. rewrite length_map.
  pose proof (List.filter_length isRecord entries). lia.
Qed.

End Batch.

(** Whatever the host, an entry that is an array is normalized and kept. *)
Lemma array_entry_any_host `{Host} :
  exists result,
    Transactions.normalizeTransactionsFromOutput arrayEntryEnvelope = Ok result /\
    field arrayEntryEnvelope "data" = JArr [JArr []] /\
    List.length (Transactions.transactions result) = 1%nat /\
    (List.length [JArr []]
     - List.length (List.filter (fun entry => negb (Spec.isMapping entry))
                                [JArr []]))%nat = 0%nat.
Proof.
  eexists. repeat split; reflexivity.
Qed.

(** C4, as stated, fails: an entry that is an array is not a mapping, yet
    it is kept, so the envelope [{ data: [[]] }] yields one transaction
    where the count of mappings is zero. *)
Lemma array_entry_is_kept :
  exists result,
    Transactions.normalizeTransactionsFromOutput arrayEntryEnvelope = Ok result /\
    field arrayEntryEnvelope "data" = JArr [JArr []] /\
    List.length (Transactions.transactions result) = 1%nat /\
    (List.length [JArr []]
     - List.length (List.filter (fun entry => negb (Spec.isMapping entry))
                                [JArr []]))%nat = 0%nat.
Proof. exact array_entry_any_host. Qed.

(** C4, amended. For an envelope the transactions are the normalizations
    of the elements of [data] that are objects, arrays included, in source
    order; the entries dropped are [null], [undefined], booleans, numbers and
    strings, and the length is the length of [data] minus their number. *)
Theorem envelope_entries_in_order `{Host} :
  forall (data : JsValue) (entries : list JsValue),
    field data "data" = JArr entries ->
    exists result,
      Transactions.normalizeTransactionsFromOutput data = Ok result /\
      Forall2 (fun entry txn =>
                 Transactions.normalizeTransaction entry = Ok (Some txn))
              (List.filter Transactions.isRecord entries)
              (Transactions.transactions result) /\
      List.length (Transactions.transactions result)
      = (List.length entries
         - List.length
             (List.filter (fun entry => negb (Transactions.isRecord entry))
                          entries))%nat.
Proof.
  intros data entries D.
  exists (Value.normalizeTransactionsFromOutput data).
  rewrite transactions_value, (sourceEntries_envelope _ _ D).
  split; [apply normalizeTransactionsFromOutput_returns|].
  split; [apply normalizeEntries_pointwise|apply normalizeEntries_length].
Qed.

(** Of the four entries of [mixedEntries] the two objects are kept, in
    order. *)
Lemma envelope_entries_in_order_witness :
  exists result,
    Transactions.normalizeTransactionsFromOutput mixedEntries = Ok result /\
    map Transactions.id (Transactions.transactions result) = [Some "1"; Some "2"] /\
    List.length (Transactions.transactions result) = (4 - 2)%nat.
Proof.
  destruct (envelope_entries_in_order mixedEntries _ eq_refl)
    as (result & E & _ & L).
  exists result. split; [exact E|]. split; [|exact L].
  assert (Ok result = Ok (Value.normalizeTransactionsFromOutput mixedEntries))
    as R by (rewrite <- E; apply normalizeTransactionsFromOutput_returns).
  injection R as ->. reflexivity.
Defined.

(** ** The total volume *)

Section Volume.
Context `{Host}.
Import Transactions.

Lemma positive_not_zero (x : float) :
  (0 <? x)%float = true -> PrimFloat.is_zero x = false.
Proof.
  unfold PrimFloat.is_zero.
  rewrite FloatAxioms.ltb_spec, FloatAxioms.eqb_spec.
  change (FloatOps.Prim2SF 0) with (SpecFloat.S754_zero false).
  change (FloatOps.Prim2SF zero) with (SpecFloat.S754_zero false).
  unfold SpecFloat.SFltb, SpecFloat.SFeqb, SpecFloat.SFcompare.
  destruct (FloatOps.Prim2SF x) as [s|s| |s m e]; try destruct s; simpl;
    congruence.
Qed.

Lemma asNumber_finite (value : JsValue) (n : float) :
  asNumber value = Some n -> PrimFloat.is_finite n = true.
Proof.
  destruct value; simpl; try discriminate.
  - destruct (PrimFloat.is_finite n0) eqn:F; [|discriminate].
    now intros [= <-].
  - destruct (nonEmpty (trim s)); [|discriminate].
    destruct (PrimFloat.is_finite (Number_ofString s)) eqn:F; [|discriminate].
    now intros [= <-].
Qed.

Lemma finite_truthy (n : float) :
  PrimFloat.is_finite n = true -> truthyNumber n = negb (PrimFloat.is_zero n).
Proof.
  unfold truthyNumber, PrimFloat.is_finite.
  destruct (PrimFloat.is_nan n); [discriminate|].
  now rewrite orb_false_r.
Qed.

Lemma sumAmounts_fold (transactions : list NormalizedTransaction) (start : float) :
  fold_left (fun acc txn => (acc + default 0 (amount txn))%float) transactions start
  = fold_left PrimFloat.add
      (map (fun txn => default 0%float (amount txn)) transactions) start.
Proof.
  revert start. induction transactions as [|txn rest IH]; intros start;
    [reflexivity|apply IH].
Qed.

Lemma sumAmounts_derivedVolume (transactions : list NormalizedTransaction) :
  sumAmounts transactions = Spec.derivedVolume transactions.
Proof.
  unfold sumAmounts, Spec.derivedVolume, Spec.sumOfAmounts.
  now rewrite sumAmounts_fold.
Qed.

Lemma reportedVolume_gatewayVolume (data : JsValue) :
  Value.reportedVolume data = Spec.gatewayVolume data.
Proof.
  unfold Value.reportedVolume, Spec.gatewayVolume, Value.isTransactionPayload,
    Spec.isEnvelope.
  destruct data; try reflexivity.
  simpl isRecord. cbv iota. rewrite !andb_true_l, !field_getRecord.
  reflexivity.
Qed.

Lemma derivedVolume_not_zero (transactions : list NormalizedTransaction)
      (volume : float) :
  Spec.derivedVolume transactions = Some volume ->
  PrimFloat.is_zero volume = false.
Proof.
  unfold Spec.derivedVolume.
  destruct (0 <? Spec.sumOfAmounts transactions)%float eqn:P; [|discriminate].
  intros [= <-]. now apply positive_not_zero.
Qed.

Lemma totalVolume_value (data : JsValue) :
  totalVolume (meta (Value.normalizeTransactionsFromOutput data))
  = match Spec.gatewayVolume data with
    | Some volume =>
        if PrimFloat.is_zero volume
        then Spec.derivedVolume
               (transactions (Value.normalizeTransactionsFromOutput data))
        else Some volume
    | None =>
        Spec.derivedVolume
          (transactions (Value.normalizeTransactionsFromOutput data))
    end.
Proof.
  simpl. rewrite reportedVolume_gatewayVolume, sumAmounts_derivedVolume.
  destruct (Spec.gatewayVolume data) as [volume|] eqn:G; [|reflexivity].
  rewrite <- reportedVolume_gatewayVolume in G.
  unfold truthy, option_number_truthy.
  assert (PrimFloat.is_finite volume = true) as F.
  { unfold Value.reportedVolume in G.
    destruct (Value.isTransactionPayload data);
      now apply asNumber_finite in G. }
  rewrite (finite_truthy _ F), negb_involutive. reflexivity.
Qed.

End Volume.

(** Whatever the host, a reported volume of 0 gives way to the sum. *)
Lemma reported_zero_volume_any_host `{Host} :
  Spec.gatewayVolume zeroVolumeEnvelope = Some 0%float /\
  exists result,
    Transactions.normalizeTransactionsFromOutput zeroVolumeEnvelope = Ok result /\
    Transactions.totalVolume (Transactions.meta result) = Some 500%float.
Proof.
  split; [reflexivity|]. eexists. split; reflexivity.
Qed.

(** C3, as stated, fails: a reported volume of 0 is present and numeric,
    yet [meta.totalVolume] is the sum of the amounts. *)
Lemma reported_zero_volume_is_replaced :
  Spec.gatewayVolume zeroVolumeEnvelope = Some 0%float /\
  exists result,
    Transactions.normalizeTransactionsFromOutput zeroVolumeEnvelope = Ok result /\
    Transactions.totalVolume (Transactions.meta result) = Some 500%float.
Proof. exact reported_zero_volume_any_host. Qed.

(** C3, amended. [meta.totalVolume] is the volume the gateway reports
    whenever that is numeric and not zero; otherwise it is the sum of the
    entries' amounts when that sum is strictly greater than zero, and absent
    when it is not. It is never zero. *)
Theorem totalVolume_reported_or_derived `{Host} :
  forall data : JsValue,
    exists result,
      Transactions.normalizeTransactionsFromOutput data = Ok result /\
      Transactions.totalVolume (Transactions.meta result)
      = match Spec.gatewayVolume data with
        | Some volume =>
            if PrimFloat.is_zero volume
            then Spec.derivedVolume (Transactions.transactions result)
            else Some volume
        | None => Spec.derivedVolume (Transactions.transactions result)
        end /\
      (forall volume,
          Transactions.totalVolume (Transactions.meta result) = Some volume ->
          PrimFloat.is_zero volume = false).
Proof.
  intros data. exists (Value.normalizeTransactionsFromOutput data).
  split; [apply normalizeTransactionsFromOutput_returns|].
  split; [apply totalVolume_value|].
  intros volume. rewrite totalVolume_value.
  destruct (Spec.gatewayVolume data) as [reported|].
  - destruct (PrimFloat.is_zero reported) eqn:Z.
    + apply derivedVolume_not_zero.
    + now intros [= <-].
  - apply derivedVolume_not_zero.
Qed.

(** Two entries with [amount: 0]: no volume, not 0. The spec's scenario of
    two transactions: 800. *)
Lemma totalVolume_scenarios :
  (exists result,
      Transactions.normalizeTransactionsFromOutput zeroAmounts = Ok result /\
      Transactions.totalVolume (Transactions.meta result) = None) /\
  (exists result,
      Transactions.normalizeTransactionsFromOutput twoTransactions = Ok result /\
      Transactions.total (Transactions.meta result) = Some 2%float /\
      Transactions.totalVolume (Transactions.meta result) = Some 800%float /\
      Transactions.metaCurrency (Transactions.meta result) = Some "NGN").
Proof.
  split; eexists; repeat split; reflexivity.
Qed.

(** ** Shape discovery *)

Section Discovery.
Context `{Host}.
Import Transactions.

(** Probing a list of keys of an object: the first array found. *)
Lemma probe_firstArray (members : gmap string JsValue) (keys : list string) :
  match find Array_isArray
          (List.filter Array_isArray (map (field (JObj members)) keys)) with
  | Some source => Value.elements source
  | None => []
  end
  = Spec.firstArray (map (fun key => members !! key) keys).
Proof.
  induction keys as [|key rest IH]; [reflexivity|].
  simpl. destruct (members !! key) as [[| | b | n | s | entries | m]|];
    simpl; try exact IH.
  reflexivity.
Qed.

Lemma sourceEntries_discoveredEntries (data : JsValue) :
  Value.sourceEntries data = Spec.discoveredEntries data.
Proof.
  unfold Value.sourceEntries, Value.isTransactionPayload,
    Value.extractTransactionArrays, Spec.discoveredEntries.
  destruct data as [| | b | n | s | entries | members]; try reflexivity.
  - destruct b; reflexivity.
  - simpl. destruct (negb (truthy (JNum n))); reflexivity.
  - simpl. destruct (negb (truthy (JStr s))); reflexivity.
  - change (truthy (JObj members)) with true.
    change (Array_isArray (JObj members)) with false.
    change (isRecord (JObj members)) with true.
    rewrite andb_true_l. simpl negb. cbv iota.
    change possibleKeys
      with ["transactions"; "data"; "items"; "records"; "results"].
    rewrite probe_firstArray. simpl field.
    destruct (members !! "data") as [[| | b | n | s | entries | m]|];
      reflexivity.
Qed.

Lemma discoveredEntries_envelope (data : JsValue) (entries : list JsValue) :
  field data "data" = JArr entries -> Spec.discoveredEntries data = entries.
Proof.
  intros D. destruct data; try discriminate.
  unfold field in D. unfold Spec.discoveredEntries. revert D.
  destruct (members !! "data") as [value|]; intros D; [|discriminate D].
  change (value = JArr entries) in D. now subst value.
Qed.

Lemma discoveredEntries_wrapper (members : gmap string JsValue)
      (listed : list JsValue) :
  members !! "transactions" = Some (JArr listed) ->
  Array_isArray (field (JObj members) "data") = false ->
  Spec.discoveredEntries (JObj members) = listed.
Proof.
  intros L D. unfold field in D. unfold Spec.discoveredEntries.
  cbn [map]. rewrite L. revert D.
  destruct (members !! "data") as [[| | b | n | s | entries | m]|];
    intros D; try reflexivity.
  discriminate D.
Qed.

End Discovery.

(** C5. The array that is processed is found by shape discovery: the
    [data] array of an envelope, whatever the other keys hold; else the input
    itself when it is an array; else, for an object, the first array under
    [transactions], [data], [items], [records], [results], in that order; so
    an object whose [transactions] and [items] are arrays and whose [data] is
    not has its [transactions] array processed. *)
Theorem shape_discovery `{Host} :
  forall data : JsValue,
    exists result,
      Transactions.normalizeTransactionsFromOutput data = Ok result /\
      Transactions.normalizeEntries (Spec.discoveredEntries data)
      = Ok (Transactions.transactions result) /\
      (forall entries,
          field data "data" = JArr entries ->
          Transactions.normalizeEntries entries
          = Ok (Transactions.transactions result)) /\
      (forall entries,
          data = JArr entries ->
          Transactions.normalizeEntries entries
          = Ok (Transactions.transactions result)) /\
      (forall members listed items,
          data = JObj members ->
          members !! "transactions" = Some (JArr listed) ->
          members !! "items" = Some (JArr items) ->
          Array_isArray (field data "data") = false ->
          Transactions.normalizeEntries listed
          = Ok (Transactions.transactions result)).
Proof.
  intros data. exists (Value.normalizeTransactionsFromOutput data).
  split; [apply normalizeTransactionsFromOutput_returns|].
  assert (Transactions.normalizeEntries (Spec.discoveredEntries data)
          = Ok (Transactions.transactions
                  (Value.normalizeTransactionsFromOutput data))) as D.
  { rewrite transactions_value, sourceEntries_discoveredEntries.
    apply normalizeEntries_returns. }
  split; [exact D|]. split; [|split].
  - intros entries E. now rewrite (discoveredEntries_envelope _ _ E) in D.
  - intros entries ->. exact D.
  - intros members listed items -> L _ A.
    now rewrite (discoveredEntries_wrapper _ _ L A) in D.
Qed.

(** The wrapper [{ transactions: [...], data: "none", items: [...] }]: the
    [transactions] array is the one processed. *)
Lemma shape_discovery_scenario :
  exists result,
    Transactions.normalizeTransactionsFromOutput wrapperObject = Ok result /\
    map Transactions.id (Transactions.transactions result) = [Some "t"].
Proof.
  eexists. split; reflexivity.
Qed.

(** ** The copy inside the component against the library *)

Section Copies.
Context `{Host}.

Lemma stable_fields_agree (entry : JsValue) :
  Spec.agreeOnStableFields (Value.normalizeTransaction entry)
                           (Value.summaryTransaction entry).
Proof. repeat split. Qed.

Lemma asString_nullish (value : JsValue) :
  isNullish value = true -> Transactions.asString value = None.
Proof. destruct value; try discriminate; reflexivity. Qed.

(** Reading two fields in either order gives the same string when one of
    them is nullish. *)
Lemma asString_orElse_comm (a b : JsValue) :
  isNullish a = true \/ isNullish b = true ->
  Transactions.asString (a |? b) = Transactions.asString (b |? a).
Proof.
  unfold orElse.
  destruct (isNullish a) eqn:A, (isNullish b) eqn:B; intros [N|N];
    try discriminate; try reflexivity.
  all: now rewrite (asString_nullish a A), (asString_nullish b B).
Qed.

Lemma asString_orElse_nullish (a b : JsValue) :
  isNullish b = true ->
  Transactions.asString (a |? b) = Transactions.asString a.
Proof.
  intros B. unfold orElse. destruct (isNullish a) eqn:A; [|reflexivity].
  now rewrite (asString_nullish a A), (asString_nullish b B).
Qed.

Lemma asNumber_nullish (value : JsValue) :
  isNullish value = true -> Transactions.asNumber value = None.
Proof. destruct value; try discriminate; reflexivity. Qed.

Lemma asNumber_orElse_nullish (a b : JsValue) :
  isNullish b = true ->
  Transactions.asNumber (a |? b) = Transactions.asNumber a.
Proof.
  intros B. unfold orElse. destruct (isNullish a) eqn:A; [|reflexivity].
  now rewrite (asNumber_nullish a A), (asNumber_nullish b B).
Qed.

Lemma shared_fields_agree (entry : JsValue) :
  Spec.readAlike entry ->
  Spec.agreeOnSharedFields (Value.normalizeTransaction entry)
                           (Value.summaryTransaction entry).
Proof.
  intros (E & F & L). split; [apply stable_fields_agree|].
  simpl. rewrite customerOf_customerObject. split.
  - now rewrite (asString_orElse_comm _ _ F), (asString_orElse_comm _ _ L).
  - f_equal. f_equal.
    change (field entry "customer_email" |? field entry "email"
              |? field entry "customerEmail")
      with ((field entry "customer_email"
               |? (field entry "email" |? field entry "customerEmail"))).
    unfold orElse at 1 3.
    destruct (isNullish (field entry "customer_email")); [|reflexivity].
    now apply asString_orElse_nullish.
Qed.

Lemma entries_agree (P : Transactions.NormalizedTransaction ->
                         TransactionSummary.NormalizedTransaction -> Prop)
      (entries : list JsValue) :
  Forall (fun entry => P (Value.normalizeTransaction entry)
                         (Value.summaryTransaction entry)) entries ->
  Forall2 P (Value.normalizeEntries entries) (Value.summaryEntries entries).
Proof.
  unfold Value.normalizeEntries, Value.summaryEntries.
  induction 1 as [|entry rest A _ IH]; simpl; [constructor|].
  destruct (Transactions.isRecord entry); [|exact IH].
  simpl. now constructor.
Qed.

Lemma entries_same_length (entries : list JsValue) :
  lengthNumber (Value.normalizeEntries entries)
  = lengthNumber (Value.summaryEntries entries).
Proof.
  unfold lengthNumber, Value.normalizeEntries, Value.summaryEntries.
  now rewrite !length_map.
Qed.

Lemma entries_same_currency (entries : list JsValue) :
  Transactions.inferCurrency (Value.normalizeEntries entries)
  = TransactionSummary.inferCurrency (Value.summaryEntries entries).
Proof.
  unfold Transactions.inferCurrency, TransactionSummary.inferCurrency,
    Value.normalizeEntries, Value.summaryEntries.
  induction (List.filter Transactions.isRecord entries) as [|entry rest IH];
    [reflexivity|].
  simpl. destruct (truthy (Transactions.asString (field entry "currency")));
    [reflexivity|exact IH].
Qed.

Lemma entries_same_sum (entries : list JsValue) :
  Transactions.sumAmounts (Value.normalizeEntries entries)
  = TransactionSummary.sumAmounts (Value.summaryEntries entries).
Proof.
  unfold Transactions.sumAmounts, TransactionSummary.sumAmounts,
    Value.normalizeEntries, Value.summaryEntries.
  assert (forall kept start,
             fold_left (fun acc txn =>
                          (acc + default 0 (Transactions.amount txn))%float)
                       (map Value.normalizeTransaction kept) start
             = fold_left (fun acc txn =>
                            (acc + default 0 (TransactionSummary.amount txn))%float)
                         (map Value.summaryTransaction kept) start) as S.
  { induction kept as [|entry rest IH]; intros start; [reflexivity|apply IH]. }
  now rewrite S.
Qed.

Lemma summaryVolume_reported (data : JsValue) :
  Spec.noMinorVolume data ->
  Value.summaryVolume data = Value.reportedVolume data.
Proof.
  unfold Spec.noMinorVolume, Spec.isEnvelope, Value.summaryVolume,
    Value.reportedVolume, Value.isTransactionPayload.
  intros N. destruct (Transactions.isRecord data); [|reflexivity].
  rewrite andb_true_l.
  destruct (Array_isArray (field data "data")); [|reflexivity].
  rewrite !field_getRecord. symmetry. apply asNumber_orElse_nullish.
  now apply N.
Qed.

End Copies.

(** Whatever the host, only the library reads the entry-level
    [customerEmail]. *)
Lemma summary_copy_any_host `{Host} :
  exists result copy,
    Transactions.normalizeTransactionsFromOutput camelCaseEmail = Ok result /\
    TransactionSummary.normalizeTransactionsFromOutput camelCaseEmail = Ok copy /\
    map Transactions.customerEmail (Transactions.transactions result)
    = [Some "ada@example.com"] /\
    map TransactionSummary.customerEmail (TransactionSummary.transactions copy)
    = [None].
Proof.
  do 2 eexists. repeat split; reflexivity.
Qed.

(** C10, as stated, fails: the component's copy does not read the
    entry-level [customerEmail] field, which the library reads. *)
Lemma summary_copy_ignores_customerEmail :
  exists result copy,
    Transactions.normalizeTransactionsFromOutput camelCaseEmail = Ok result /\
    TransactionSummary.normalizeTransactionsFromOutput camelCaseEmail = Ok copy /\
    map Transactions.customerEmail (Transactions.transactions result)
    = [Some "ada@example.com"] /\
    map TransactionSummary.customerEmail (TransactionSummary.transactions copy)
    = [None].
Proof. exact summary_copy_any_host. Qed.

(** The two other places where the copies differ: which first name wins
    when the entry and its customer both have one, and the envelope's
    [meta.total_volume_in_minor]. *)
Lemma summary_copy_other_differences :
  (exists result copy,
      Transactions.normalizeTransactionsFromOutput twoFirstNames = Ok result /\
      TransactionSummary.normalizeTransactionsFromOutput twoFirstNames = Ok copy /\
      map Transactions.customerName (Transactions.transactions result)
      = [Some "Ada"] /\
      map TransactionSummary.customerName (TransactionSummary.transactions copy)
      = [Some "Grace"]) /\
  (exists result copy,
      Transactions.normalizeTransactionsFromOutput minorVolumeEnvelope = Ok result /\
      TransactionSummary.normalizeTransactionsFromOutput minorVolumeEnvelope
      = Ok copy /\
      Transactions.totalVolume (Transactions.meta result) = Some 700%float /\
      TransactionSummary.totalVolume (TransactionSummary.meta copy) = None).
Proof.
  split; do 2 eexists; repeat split; reflexivity.
Qed.

(** C10, amended. On every input both normalizers return; their
    transactions are as many, in the same order, and agree on [id], [status],
    [rawStatus], [failureReason], [amount], [currency] and [createdAt]; their
    metas agree on [total], [currency] and [message]. They agree on
    [totalVolume] when the envelope's meta has no [total_volume_in_minor],
    and on [customerName] and [customerEmail] as well when no entry has an
    entry-level [customerEmail] or a name part both on the entry and on its
    customer sub-object. *)
Theorem summary_copy_agrees_with_library `{Host} :
  forall data : JsValue,
    exists result copy,
      Transactions.normalizeTransactionsFromOutput data = Ok result /\
      TransactionSummary.normalizeTransactionsFromOutput data = Ok copy /\
      Forall2 Spec.agreeOnStableFields
              (Transactions.transactions result)
              (TransactionSummary.transactions copy) /\
      Transactions.total (Transactions.meta result)
      = TransactionSummary.total (TransactionSummary.meta copy) /\
      Transactions.metaCurrency (Transactions.meta result)
      = TransactionSummary.metaCurrency (TransactionSummary.meta copy) /\
      Transactions.message (Transactions.meta result)
      = TransactionSummary.message (TransactionSummary.meta copy) /\
      (Spec.noMinorVolume data ->
       Transactions.totalVolume (Transactions.meta result)
       = TransactionSummary.totalVolume (TransactionSummary.meta copy)) /\
      (Forall Spec.readAlike (Spec.discoveredEntries data) ->
       Forall2 Spec.agreeOnSharedFields
               (Transactions.transactions result)
               (TransactionSummary.transactions copy)).
Proof.
  intros data.
  exists (Value.normalizeTransactionsFromOutput data),
    (Value.summaryFromOutput data).
  split; [apply normalizeTransactionsFromOutput_returns|].
  split; [apply summaryFromOutput_returns|].
  simpl.
  split.
  { apply entries_agree, List.Forall_forall. intros entry _.
    apply stable_fields_agree. }
  split; [now rewrite entries_same_length|].
  split; [now rewrite entries_same_currency|].
  split; [reflexivity|].
  split.
  - intros N. now rewrite (summaryVolume_reported _ N), entries_same_sum.
  - intros A. rewrite sourceEntries_discoveredEntries.
    apply entries_agree. revert A. apply List.Forall_impl.
    apply shared_fields_agree.
Qed.

(** On the spec's scenario of two transactions the two copies agree on
    every shared field and on the volume. *)
Lemma summary_copy_agrees_with_library_witness :
  exists result copy,
    Transactions.normalizeTransactionsFromOutput twoTransactions = Ok result /\
    TransactionSummary.normalizeTransactionsFromOutput twoTransactions = Ok copy /\
    Forall2 Spec.agreeOnSharedFields
            (Transactions.transactions result)
            (TransactionSummary.transactions copy) /\
    Transactions.totalVolume (Transactions.meta result)
    = TransactionSummary.totalVolume (TransactionSummary.meta copy).
Proof.
  destruct (summary_copy_agrees_with_library twoTransactions)
    as (result & copy & L & C & _ & _ & _ & _ & V & A).
  exists result, copy. split; [exact L|]. split; [exact C|]. split.
  - apply A. repeat constructor.
  - apply V. intros _. reflexivity.
Defined.

(** * Further properties of the normalizer *)

Section MoreEntryFacts.
Context `{Host}.
Import Transactions.

Lemma normalizeTransaction_inversion (entry : JsValue)
      (txn : NormalizedTransaction) :
  normalizeTransaction entry = Ok (Some txn) ->
  isRecord entry = true /\ txn = Value.normalizeTransaction entry.
Proof.
  rewrite normalizeTransaction_returns.
  destruct (isRecord entry); [|discriminate].
  intros [= <-]. now split.
Qed.

Lemma toLowerCaseUnit_idempotent (c : ascii) :
  toLowerCaseUnit (toLowerCaseUnit c) = toLowerCaseUnit c.
Proof. destruct c as [[] [] [] [] [] [] [] []]; reflexivity. Qed.

Lemma toLowerCase_idempotent (s : string) :
  toLowerCase (toLowerCase s) = toLowerCase s.
Proof.
  induction s as [|c rest IH]; [reflexivity|].
  simpl. now rewrite toLowerCaseUnit_idempotent, IH.
Qed.

Lemma normalizeStatus_toLowerCase (text : option string) :
  normalizeStatus (toLowerCase <$> text) = normalizeStatus text.
Proof.
  destruct text as [s|]; [|reflexivity]. simpl.
  destruct (nonEmpty s) eqn:N.
  - rewrite (normalizeStatus_lowered s N).
    rewrite normalizeStatus_lowered by now rewrite toLowerCase_nonEmpty.
    now rewrite toLowerCase_idempotent.
  - destruct s; [reflexivity|discriminate].
Qed.

Lemma field_undefined (key : string) : field JUndefined key = JUndefined.
Proof. reflexivity. Qed.

End MoreEntryFacts.

(** X1. The stored status is the classification of the stored raw status,
    and the raw status is in lower case. *)
Theorem status_classifies_rawStatus `{Host} :
  forall (entry : JsValue) (txn : Transactions.NormalizedTransaction),
    Transactions.normalizeTransaction entry = Ok (Some txn) ->
    Transactions.status txn
    = Transactions.normalizeStatus (Transactions.rawStatus txn) /\
    (forall raw, Transactions.rawStatus txn = Some raw -> toLowerCase raw = raw).
Proof.
  intros entry txn E. apply normalizeTransaction_inversion in E as [_ ->].
  simpl. split.
  - symmetry. apply normalizeStatus_toLowerCase.
  - intros raw. destruct (Transactions.asString _) as [s|]; [|discriminate].
    intros [= <-]. apply toLowerCase_idempotent.
Qed.

Lemma status_classifies_rawStatus_witness :
  exists txn,
    Transactions.normalizeTransaction failedEntry = Ok (Some txn) /\
    Transactions.rawStatus txn = Some "failed" /\
    Transactions.status txn
    = Transactions.normalizeStatus (Transactions.rawStatus txn).
Proof.
  eexists. split; [reflexivity|]. split; [reflexivity|].
  apply (status_classifies_rawStatus failedEntry _ eq_refl).
Defined.

(** X2. An amount, when present, is a finite number: never NaN and never an
    infinity. *)
Theorem amount_is_finite `{Host} :
  forall (entry : JsValue) (txn : Transactions.NormalizedTransaction)
         (n : float),
    Transactions.normalizeTransaction entry = Ok (Some txn) ->
    Transactions.amount txn = Some n ->
    PrimFloat.is_finite n = true.
Proof.
  intros entry txn n E. apply normalizeTransaction_inversion in E as [_ ->].
  simpl. apply asNumber_finite.
Qed.

Lemma amount_is_finite_witness :
  exists txn,
    Transactions.normalizeTransaction failedEntry = Ok (Some txn) /\
    Transactions.amount txn = Some 500%float /\
    PrimFloat.is_finite 500 = true.
Proof.
  eexists. split; [reflexivity|]. split; [reflexivity|].
  apply (amount_is_finite failedEntry _ 500%float eq_refl eq_refl).
Defined.

(** X3. The customer email is the first defined value of the chain: the
    customer sub-object's [email]; the entry's [customer_email], [email] or
    [customerEmail]; [authorization.email]; [metadata.email]. *)
Theorem customerEmail_first_defined `{Host} :
  forall entry : JsValue,
    Transactions.isRecord entry = true ->
    exists txn,
      Transactions.normalizeTransaction entry = Ok (Some txn) /\
      Transactions.customerEmail txn
      = Spec.firstDefined (Contract.customerEmailChain entry).
Proof.
  intros entry R. exists (Value.normalizeTransaction entry). split.
  - now rewrite normalizeTransaction_returns, R.
  - unfold Contract.customerEmailChain. simpl Transactions.customerEmail.
    rewrite customerOf_customerObject, !field_getRecord.
    destruct (Transactions.asString (field (Spec.customerObject entry) "email"));
      [reflexivity|].
    destruct (Transactions.asString
                (field entry "customer_email" |? field entry "email"
                   |? field entry "customerEmail")); [reflexivity|].
    destruct (Transactions.asString (field (field entry "authorization") "email"));
      [reflexivity|].
    destruct (Transactions.asString (field (field entry "metadata") "email"));
      reflexivity.
Qed.

(** The customer's email wins over the entry's own. *)
Lemma customerEmail_first_defined_witness :
  exists txn,
    Transactions.normalizeTransaction failedEntry = Ok (Some txn) /\
    Transactions.customerEmail txn = Some "ada@example.com".
Proof.
  destruct (customerEmail_first_defined failedEntry eq_refl) as (txn & E & C).
  exists txn. split; [exact E|]. rewrite C. reflexivity.
Defined.

Section UnknownKeys.
Context `{Host}.
Import Transactions.

Lemma entryKey_differs (key other : string) :
  In key Contract.entryKeys -> ~ In other Contract.entryKeys -> other <> key.
Proof. intros I N ->. now apply N. Qed.

Lemma field_insert_other (members : gmap string JsValue) (other key : string)
      (value : JsValue) :
  In key Contract.entryKeys -> ~ In other Contract.entryKeys ->
  field (JObj (<[other := value]> members)) key = field (JObj members) key.
Proof.
  intros I N. unfold field.
  now rewrite lookup_insert_ne by (apply (entryKey_differs key other I N)).
Qed.

Lemma normalizeTransaction_value_insert (members : gmap string JsValue)
      (other : string) (value : JsValue) :
  ~ In other Contract.entryKeys ->
  Value.normalizeTransaction (JObj (<[other := value]> members))
  = Value.normalizeTransaction (JObj members).
Proof.
  intros N. unfold Value.normalizeTransaction, Value.customerOf.
  rewrite !(fun key I => field_insert_other members other key value I N)
    by (unfold Contract.entryKeys; cbn [In]; tauto).
  reflexivity.
Qed.

Lemma normalizeTransaction_value_blank (entry : JsValue) :
  (forall key, In key Contract.entryKeys -> field entry key = JUndefined) ->
  Value.normalizeTransaction entry = Contract.blankTransaction.
Proof.
  intros U. unfold Value.normalizeTransaction, Value.customerOf.
  rewrite !U by (unfold Contract.entryKeys; cbn [In]; tauto).
  reflexivity.
Qed.

End UnknownKeys.

(** X4. Members the normalizer does not know are ignored: adding to an entry
    a member under any name other than the ones [normalizeTransaction] reads
    does not change the transaction. *)
Theorem unknown_members_are_ignored `{Host} :
  forall (members : gmap string JsValue) (other : string) (value : JsValue),
    ~ In other Contract.entryKeys ->
    Transactions.normalizeTransaction (JObj (<[other := value]> members))
    = Transactions.normalizeTransaction (JObj members).
Proof.
  intros members other value N.
  rewrite !normalizeTransaction_returns. simpl Transactions.isRecord.
  now rewrite normalizeTransaction_value_insert.
Qed.

Lemma unknown_members_are_ignored_witness :
  Transactions.normalizeTransaction
    (JObj (<["channel" := JStr "card"]> (list_to_map [("id", JStr "7")])))
  = Transactions.normalizeTransaction (JObj (list_to_map [("id", JStr "7")])).
Proof.
  apply unknown_members_are_ignored. unfold Contract.entryKeys. cbn [In].
  intros D. repeat (destruct D as [D|D]; [discriminate D|]). exact D.
Defined.

(** X5. An entry that is an object with none of the members the normalizer
    reads, and every entry that is an array, becomes the transaction with
    status [other] and no other field. *)
Theorem entry_without_known_members_is_blank `{Host} :
  forall entry : JsValue,
    Transactions.isRecord entry = true ->
    (forall key, In key Contract.entryKeys -> field entry key = JUndefined) ->
    Transactions.normalizeTransaction entry = Ok (Some Contract.blankTransaction).
Proof.
  intros entry R U. rewrite normalizeTransaction_returns, R.
  now rewrite normalizeTransaction_value_blank.
Qed.

Lemma entry_without_known_members_is_blank_witness :
  Transactions.normalizeTransaction (JArr [JStr "x"; JNum 1])
  = Ok (Some Contract.blankTransaction).
Proof.
  apply entry_without_known_members_is_blank; [reflexivity|].
  intros key _. reflexivity.
Defined.

(** ** Further properties of the aggregate *)

Section MoreBatchFacts.
Context `{Host}.
Import Transactions.

Lemma isTransactionPayload_isEnvelope (data : JsValue) :
  Value.isTransactionPayload data = Spec.isEnvelope data.
Proof.
  unfold Value.isTransactionPayload, Spec.isEnvelope.
  destruct data; reflexivity.
Qed.

Lemma reportedTotal_gatewayTotal (data : JsValue) :
  Value.reportedTotal data = Contract.gatewayTotal data.
Proof.
  unfold Value.reportedTotal, Contract.gatewayTotal.
  rewrite isTransactionPayload_isEnvelope, !field_getRecord. reflexivity.
Qed.

Lemma reportedCurrency_gatewayCurrency (data : JsValue) :
  Value.reportedCurrency data = Contract.gatewayCurrency data.
Proof.
  unfold Value.reportedCurrency, Contract.gatewayCurrency.
  rewrite isTransactionPayload_isEnvelope, !field_getRecord. reflexivity.
Qed.

Lemma asString_truthy (value : JsValue) :
  truthy (asString value) = negb (isNullish (asString value)).
Proof.
  pose proof (asString_clean value) as C.
  destruct (asString value) as [s|]; [|reflexivity].
  simpl in C. apply isClean_nonEmpty in C. exact C.
Qed.

Lemma metaCurrency_value (data : JsValue) :
  metaCurrency (meta (Value.normalizeTransactionsFromOutput data))
  = Spec.firstDefined
      [Contract.gatewayCurrency data;
       inferCurrency (transactions (Value.normalizeTransactionsFromOutput data))].
Proof.
  simpl metaCurrency. rewrite <- orElse_firstDefined.
  rewrite reportedCurrency_gatewayCurrency.
  destruct (Value.isTransactionPayload data); [|reflexivity].
  unfold Contract.gatewayCurrency.
  destruct (Spec.isEnvelope data); rewrite asString_truthy;
    unfold orElse; now destruct (isNullish _).
Qed.

(** The first transaction that has a currency decides. *)
Lemma inferCurrency_cons (txn : NormalizedTransaction)
      (rest : list NormalizedTransaction) :
  inferCurrency (txn :: rest)
  = if truthy (currency txn) then currency txn else inferCurrency rest.
Proof.
  unfold inferCurrency. simpl. now destruct (truthy (currency txn)).
Qed.

End MoreBatchFacts.

(** X6. [meta.total] is always present: it is the total the gateway reports
    whenever that is numeric, a reported 0 included, and the number of
    normalized transactions otherwise. *)
Theorem total_reported_or_counted `{Host} :
  forall data : JsValue,
    exists result,
      Transactions.normalizeTransactionsFromOutput data = Ok result /\
      Transactions.total (Transactions.meta result)
      = Some (default (lengthNumber (Transactions.transactions result))
                      (Contract.gatewayTotal data)).
Proof.
  intros data. exists (Value.normalizeTransactionsFromOutput data).
  split; [apply normalizeTransactionsFromOutput_returns|].
  simpl Transactions.total. rewrite reportedTotal_gatewayTotal.
  now destruct (Contract.gatewayTotal data).
Qed.

(** X7. [inferCurrency] is first-wins: it returns a currency exactly when
    some transaction has a non-empty one, and then that of the first such
    transaction. *)
Theorem inferCurrency_first_wins :
  forall (transactions : list Transactions.NormalizedTransaction)
         (code : string),
    Transactions.inferCurrency transactions = Some code <->
    exists before txn after,
      transactions = (before ++ txn :: after)%list /\
      Transactions.currency txn = Some code /\
      nonEmpty code = true /\
      Forall (fun earlier => truthy (Transactions.currency earlier) = false)
             before.
Proof.
  intros transactions code. induction transactions as [|txn rest IH].
  - split; [discriminate|]. intros (before & t & after & E & _).
    now destruct before.
  - rewrite inferCurrency_cons. destruct (truthy (Transactions.currency txn)) eqn:T.
    + split.
      * intros C. exists [], txn, rest. repeat split; trivial.
        unfold truthy, option_string_truthy in T. now rewrite C in T.
      * intros (before & t & after & E & C & N & F).
        destruct before as [|earlier before'].
        -- simpl in E. now injection E as <- _.
        -- simpl in E. injection E as <- _.
           apply List.Forall_inv in F. congruence.
    + rewrite IH. split.
      * intros (before & t & after & -> & C & N & F).
        exists (txn :: before), t, after. repeat split; trivial.
        now constructor.
      * intros (before & t & after & E & C & N & F).
        destruct before as [|earlier before'].
        -- simpl in E. injection E as <- _.
           unfold truthy, option_string_truthy in T. rewrite C, N in T.
           discriminate.
        -- simpl in E. injection E as <- ->.
           apply List.Forall_inv_tail in F. now exists before', t, after.
Qed.

(** X8. [meta.currency] is the currency the gateway reports, when it is a
    string that is not blank, and otherwise the inferred one, in the envelope
    shape and in every other shape alike. *)
Theorem currency_reported_or_inferred `{Host} :
  forall data : JsValue,
    exists result,
      Transactions.normalizeTransactionsFromOutput data = Ok result /\
      Transactions.metaCurrency (Transactions.meta result)
      = Spec.firstDefined
          [Contract.gatewayCurrency data;
           Transactions.inferCurrency (Transactions.transactions result)].
Proof.
  intros data. exists (Value.normalizeTransactionsFromOutput data).
  split; [apply normalizeTransactionsFromOutput_returns|].
  apply metaCurrency_value.
Qed.

(** X9. The pagination fields are read in the envelope shape only: for any
    other input [page], [perPage] and [pageCount] are absent, whatever the
    input holds. *)
Theorem pagination_only_in_envelope `{Host} :
  forall data : JsValue,
    Spec.isEnvelope data = false ->
    exists result,
      Transactions.normalizeTransactionsFromOutput data = Ok result /\
      Transactions.page (Transactions.meta result) = None /\
      Transactions.perPage (Transactions.meta result) = None /\
      Transactions.pageCount (Transactions.meta result) = None.
Proof.
  intros data E. exists (Value.normalizeTransactionsFromOutput data).
  split; [apply normalizeTransactionsFromOutput_returns|].
  simpl. rewrite isTransactionPayload_isEnvelope, E. now repeat split.
Qed.

(** [{ items: [], meta: { page: 2 } }]: the page is not read. *)
Lemma pagination_only_in_envelope_witness :
  exists result,
    Transactions.normalizeTransactionsFromOutput
      (obj [("items", JArr []); ("meta", obj [("page", JNum 2)])]) = Ok result /\
    Transactions.page (Transactions.meta result) = None.
Proof.
  destruct (pagination_only_in_envelope
              (obj [("items", JArr []); ("meta", obj [("page", JNum 2)])])
              eq_refl) as (result & E & P & _).
  now exists result.
Defined.

Section Wrappers.
Context `{Host}.
Import Transactions.

Lemma lookup_not_array {A} (found : option JsValue) (otherwise : A)
      (pick : list JsValue -> A) :
  Array_isArray (default JUndefined found) = false ->
  match found with
  | Some (JArr entries) => pick entries
  | _ => otherwise
  end = otherwise.
Proof. destruct found as [[| | | | |entries|members]|]; now try discriminate. Qed.

Lemma firstArray_skip (found : option JsValue) (rest : list (option JsValue)) :
  Array_isArray (default JUndefined found) = false ->
  Spec.firstArray (found :: rest) = Spec.firstArray rest.
Proof. destruct found as [[| | | | |entries|members]|]; now try discriminate. Qed.

Lemma wrapper_discoveredEntries (members : gmap string JsValue) (key : string)
      (entries : list JsValue) :
  Contract.wraps members key entries ->
  Spec.discoveredEntries (JObj members) = entries.
Proof.
  intros (I & L & N).
  unfold Spec.discoveredEntries. cbn [map].
  assert (forall other, In other possibleKeys -> other <> key ->
                        Array_isArray (default JUndefined (members !! other))
                        = false) as N' by exact N.
  unfold possibleKeys in I, N'. cbn [In] in I.
  destruct I as [<-|[<-|[<-|[<-|[<-|[]]]]]]; rewrite ?L; try reflexivity;
    rewrite (lookup_not_array (members !! "data"))
      by (apply N'; [cbn [In]; tauto|discriminate]);
    repeat (rewrite firstArray_skip
              by (apply N'; [cbn [In]; tauto|discriminate]));
    reflexivity.
Qed.

Lemma wrapper_reports_nothing (members : gmap string JsValue) :
  Contract.reportsNothing members ->
  field (JObj members) "meta" = JUndefined /\
  Value.reportedTotal (JObj members) = None /\
  Value.reportedVolume (JObj members) = None /\
  Value.reportedCurrency (JObj members) = None /\
  Value.reportedMessage (JObj members) = None.
Proof.
  intros U. unfold Contract.reportsNothing, Contract.reportKeys in U.
  pose proof (U "meta" ltac:(cbn [In]; tauto)) as M.
  pose proof (U "total" ltac:(cbn [In]; tauto)) as T.
  pose proof (U "total_volume" ltac:(cbn [In]; tauto)) as V.
  pose proof (U "currency" ltac:(cbn [In]; tauto)) as C.
  pose proof (U "message" ltac:(cbn [In]; tauto)) as G.
  unfold Value.reportedTotal, Value.reportedVolume, Value.reportedCurrency,
    Value.reportedMessage.
  cbv zeta. change (getRecord (JObj members)) with (JObj members).
  rewrite M, T, V, C, G.
  destruct (Value.isTransactionPayload (JObj members)); repeat split.
Qed.

Lemma wrapper_value (members : gmap string JsValue) :
  Contract.reportsNothing members ->
  Value.normalizeTransactionsFromOutput (JObj members)
  = Value.normalizeTransactionsFromOutput
      (JArr (Spec.discoveredEntries (JObj members))).
Proof.
  intros U.
  destruct (wrapper_reports_nothing members U) as (M & T & V & C & G).
  unfold Value.normalizeTransactionsFromOutput.
  rewrite M, T, V, C, G.
  change (Value.sourceEntries (JArr (Spec.discoveredEntries (JObj members))))
    with (Spec.discoveredEntries (JObj members)).
  rewrite <- (sourceEntries_discoveredEntries (JObj members)).
  destruct (Value.isTransactionPayload (JObj members)); reflexivity.
Qed.

End Wrappers.

(** X10. The shape does not matter: an object that has no [meta], [total],
    [total_volume], [currency] or [message] of its own normalizes to the same
    result as the bare array of the entries discovered in it, whatever its
    other members are. So an object that holds an array of entries under one
    of the candidate keys (for [data] this is the envelope), and no array
    under any other candidate key, normalizes as that array does. *)
Theorem bare_array_and_wrappers_agree `{Host} :
  forall members : gmap string JsValue,
    Contract.reportsNothing members ->
    Transactions.normalizeTransactionsFromOutput (JObj members)
    = Transactions.normalizeTransactionsFromOutput
        (JArr (Spec.discoveredEntries (JObj members))) /\
    (forall key entries,
        Contract.wraps members key entries ->
        Transactions.normalizeTransactionsFromOutput (JObj members)
        = Transactions.normalizeTransactionsFromOutput (JArr entries)).
Proof.
  intros members U.
  assert (Transactions.normalizeTransactionsFromOutput (JObj members)
          = Transactions.normalizeTransactionsFromOutput
              (JArr (Spec.discoveredEntries (JObj members)))) as E.
  { rewrite !normalizeTransactionsFromOutput_returns.
    f_equal. now apply wrapper_value. }
  split; [exact E|].
  intros key entries W. rewrite E.
  now rewrite (wrapper_discoveredEntries members key entries W).
Qed.

(** The wrapper's own [status], [items] (not an array) and [page] do not
    matter. *)
Lemma bare_array_and_wrappers_agree_witness :
  Contract.reportsNothing recordsWrapper /\
  Contract.wraps recordsWrapper "records" [declinedEntry; JNull] /\
  Transactions.normalizeTransactionsFromOutput (JObj recordsWrapper)
  = Transactions.normalizeTransactionsFromOutput (JArr [declinedEntry; JNull]).
Proof.
  assert (Contract.reportsNothing recordsWrapper) as U.
  { intros reported R. unfold Contract.reportKeys in R. cbn [In] in R.
    destruct R as [<-|[<-|[<-|[<-|[<-|[]]]]]]; reflexivity. }
  assert (Contract.wraps recordsWrapper "records" [declinedEntry; JNull]) as W.
  { split; [unfold Transactions.possibleKeys; cbn [In]; tauto|].
    split; [reflexivity|].
    intros other O D. unfold Transactions.possibleKeys in O. cbn [In] in O.
    destruct O as [<-|[<-|[<-|[<-|[<-|[]]]]]];
      try reflexivity; now elim D. }
  split; [exact U|]. split; [exact W|].
  destruct (bare_array_and_wrappers_agree recordsWrapper U) as (_ & A).
  exact (A "records" _ W).
Defined.

(** A reported total is kept, so a wrapper that has one differs from the
    bare array. *)
Lemma wrapper_with_total_differs `{Host} :
  exists wrapped bare,
    Transactions.normalizeTransactionsFromOutput
      (obj [("records", JArr [declinedEntry]); ("total", JNum 9)]) = Ok wrapped /\
    Transactions.normalizeTransactionsFromOutput (JArr [declinedEntry]) = Ok bare /\
    Transactions.total (Transactions.meta wrapped) = Some 9%float /\
    Transactions.total (Transactions.meta bare) = Some 1%float.
Proof. do 2 eexists. repeat split; reflexivity. Qed.

(** * The summary card *)

Section SortFacts.
Context {A : Type} (weight : A -> nat).

Lemma insertDescending_permutation (x : A) (l : list A) :
  Permutation (x :: l) (insertDescending weight x l).
Proof.
  induction l as [|y rest IH]; [reflexivity|].
  simpl. destruct (weight x <? weight y)%nat; [|reflexivity].
  rewrite perm_swap. now constructor.
Qed.

Lemma sortDescending_permutation (l : list A) :
  Permutation l (sortDescending weight l).
Proof.
  induction l as [|x rest IH]; [reflexivity|].
  simpl. rewrite <- insertDescending_permutation. now constructor.
Qed.

Lemma insertDescending_descending (x : A) (l : list A) :
  CardSpec.descending weight l ->
  CardSpec.descending weight (insertDescending weight x l).
Proof.
  unfold CardSpec.descending. induction 1 as [|y rest S IH F].
  - repeat constructor.
  - simpl. destruct (weight x <? weight y)%nat eqn:L.
    + apply Nat.ltb_lt in L. constructor; [exact IH|].
      apply (Permutation_Forall (insertDescending_permutation x rest)).
      constructor; [lia|exact F].
    + apply Nat.ltb_ge in L. constructor; [now constructor|].
      constructor; [exact L|].
      revert F. apply List.Forall_impl. intros z. lia.
Qed.

Lemma sortDescending_descending (l : list A) :
  CardSpec.descending weight (sortDescending weight l).
Proof.
  induction l as [|x rest IH]; [constructor|].
  now apply insertDescending_descending.
Qed.

Lemma firstn_In (n : nat) (l : list A) (z : A) :
  In z (firstn n l) -> In z l.
Proof.
  intros I. rewrite <- (firstn_skipn n l). apply in_or_app. now left.
Qed.

Lemma firstn_descending (n : nat) (l : list A) :
  CardSpec.descending weight l -> CardSpec.descending weight (firstn n l).
Proof.
  unfold CardSpec.descending. intros S. revert n.
  induction S as [|y rest S IH F]; intros [|n]; simpl; try constructor.
  - apply IH.
  - apply List.Forall_forall. intros z I.
    rewrite List.Forall_forall in F. apply F.
    now apply (firstn_In n rest).
Qed.

End SortFacts.

Section MapFacts.
Context {V : Type}.

Lemma Map_get_None (key : string) (entries : list (string * V)) :
  Map_get key entries = None <-> ~ In key (map fst entries).
Proof.
  induction entries as [|[k v] rest IH]; simpl; [tauto|].
  destruct (String.eqb_spec k key) as [->|D].
  - split; [discriminate|]. intros N. elim N. now left.
  - rewrite IH. tauto.
Qed.

Lemma Map_set_present (key : string) (value : V) (entries : list (string * V)) :
  In key (map fst entries) ->
  map fst (Map_set key value entries) = map fst entries.
Proof.
  induction entries as [|[k v] rest IH]; simpl; [tauto|].
  destruct (String.eqb_spec k key) as [->|D]; [reflexivity|].
  intros [E|I]; [contradiction|]. simpl. now rewrite IH.
Qed.

Lemma Map_set_absent (key : string) (value : V) (entries : list (string * V)) :
  ~ In key (map fst entries) ->
  Map_set key value entries = (entries ++ [(key, value)])%list.
Proof.
  induction entries as [|[k v] rest IH]; simpl; [reflexivity|].
  destruct (String.eqb_spec k key) as [->|D]; [tauto|].
  intros N. rewrite IH by tauto. reflexivity.
Qed.

(** Replacing the value of a present key changes a sum over the values by
    the difference of the two values. *)
Lemma Map_set_sum (measure : V -> nat) (key : string) (old value : V)
      (entries : list (string * V)) :
  Map_get key entries = Some old ->
  list_sum (map (fun entry => measure (snd entry)) (Map_set key value entries))
  + measure old
  = list_sum (map (fun entry => measure (snd entry)) entries) + measure value.
Proof.
  induction entries as [|[k v] rest IH]; simpl; [discriminate|].
  destruct (String.eqb_spec k key) as [->|D].
  - intros [= ->]. simpl. lia.
  - intros G. simpl. specialize (IH G). lia.
Qed.

Lemma Map_set_Forall (P : V -> Prop) (key : string) (value : V)
      (entries : list (string * V)) :
  P value -> Forall (fun entry => P (snd entry)) entries ->
  Forall (fun entry => P (snd entry)) (Map_set key value entries).
Proof.
  intros PV F. induction F as [|[k v] rest Pv F IH]; simpl.
  - constructor; [exact PV|constructor].
  - destruct (String.eqb k key); constructor; simpl; assumption.
Qed.

Lemma Map_set_NoDup (key : string) (value : V) (entries : list (string * V)) :
  List.NoDup (map fst entries) ->
  List.NoDup (map fst (Map_set key value entries)).
Proof.
  intros N. destruct (in_dec string_dec key (map fst entries)) as [I|A].
  - now rewrite (Map_set_present key value entries I).
  - rewrite (Map_set_absent key value entries A), map_app. simpl.
    apply List.NoDup_app; [exact N| |].
    + constructor; [intros []|constructor].
    + intros k I [<-|[]]. contradiction.
Qed.

Lemma Map_set_length (key : string) (value : V) (entries : list (string * V)) :
  List.length (Map_set key value entries)
  = match Map_get key entries with
    | Some _ => List.length entries
    | None => S (List.length entries)
    end.
Proof.
  induction entries as [|[k v] rest IH]; simpl; [reflexivity|].
  destruct (String.eqb k key); simpl; [reflexivity|].
  rewrite IH. now destruct (Map_get key rest).
Qed.

End MapFacts.

Section CustomerFacts.
Import SummaryCard.

Lemma recordCustomer_invariant (map : list (string * CustomerSummary))
      (txn : Transactions.NormalizedTransaction) (index : nat) :
  CardSpec.customersInvariant map ->
  CardSpec.customersInvariant (recordCustomer map txn index).
Proof.
  intros [N C]. unfold recordCustomer.
  destruct (negb (truthy (keySourceOf txn index))); [now split|].
  destruct (Map_get (keyOf (keySourceOf txn index)) map) as [existing|];
    (split; [now apply Map_set_NoDup|]);
    apply (Map_set_Forall (fun summary => 1 <= count summary)); simpl;
    trivial; lia.
Qed.

Lemma recordCustomer_sum (map : list (string * CustomerSummary))
      (txn : Transactions.NormalizedTransaction) (index : nat) :
  CardSpec.sumCounts (recordCustomer map txn index)
  = CardSpec.sumCounts map + (if CardSpec.isKeyed txn index then 1 else 0).
Proof.
  unfold recordCustomer, CardSpec.isKeyed, CardSpec.sumCounts.
  destruct (truthy (keySourceOf txn index)); simpl; [|lia].
  destruct (Map_get (keyOf (keySourceOf txn index)) map) as [existing|] eqn:G.
  - pose proof (Map_set_sum count _ _
                  {| count := count existing + 1;
                     name := name existing |? Transactions.customerName txn;
                     email := email existing |? Transactions.customerEmail txn |}
                  _ G) as S.
    simpl in S. lia.
  - apply Map_get_None in G. rewrite (Map_set_absent _ _ _ G).
    rewrite map_app, list_sum_app. simpl. lia.
Qed.

Lemma recordCustomer_length (map : list (string * CustomerSummary))
      (txn : Transactions.NormalizedTransaction) (index : nat) :
  List.length (recordCustomer map txn index)
  <= List.length map + (if CardSpec.isKeyed txn index then 1 else 0).
Proof.
  unfold recordCustomer, CardSpec.isKeyed.
  destruct (truthy (keySourceOf txn index)); simpl; [|lia].
  destruct (Map_get (keyOf (keySourceOf txn index)) map) as [existing|] eqn:G;
    rewrite Map_set_length, G; lia.
Qed.

Lemma forEachCustomer_facts
      (transactions : list Transactions.NormalizedTransaction) :
  forall (index : nat) (map : list (string * CustomerSummary)),
    CardSpec.customersInvariant map ->
    CardSpec.customersInvariant (forEachCustomer transactions index map) /\
    CardSpec.sumCounts (forEachCustomer transactions index map)
    = CardSpec.sumCounts map + CardSpec.keyedFrom transactions index /\
    List.length (forEachCustomer transactions index map)
    <= List.length map + CardSpec.keyedFrom transactions index.
Proof.
  induction transactions as [|txn rest IH]; intros index map I; simpl.
  - repeat split; try apply I; lia.
  - destruct (IH (S index) _ (recordCustomer_invariant map txn index I))
      as (I' & S & L).
    split; [exact I'|]. rewrite S, recordCustomer_sum.
    pose proof (recordCustomer_length map txn index). split; lia.
Qed.

Lemma keyedFrom_bound (transactions : list Transactions.NormalizedTransaction)
      (index : nat) :
  CardSpec.keyedFrom transactions index <= List.length transactions.
Proof.
  revert index. induction transactions as [|txn rest IH]; intros index; simpl;
    [lia|].
  specialize (IH (S index)). destruct (CardSpec.isKeyed txn index); lia.
Qed.

Lemma keyedFrom_all (transactions : list Transactions.NormalizedTransaction)
      (index : nat) :
  Forall (fun txn => truthy (Transactions.customerEmail txn) = true)
         transactions ->
  CardSpec.keyedFrom transactions index = List.length transactions.
Proof.
  intros F. revert index.
  induction F as [|txn rest E _ IH]; intros index; simpl; [reflexivity|].
  rewrite IH. unfold CardSpec.isKeyed, keySourceOf.
  destruct (Transactions.customerEmail txn) as [e|]; [|discriminate].
  simpl. unfold truthy, KeySource_truthy.
  unfold truthy, option_string_truthy in E. now rewrite E.
Qed.

Lemma firstn_sum (n : nat) (l : list nat) :
  list_sum (firstn n l) <= list_sum l.
Proof.
  rewrite <- (firstn_skipn n l) at 2. rewrite list_sum_app. lia.
Qed.

End CustomerFacts.

(** X11. [summarizeCustomers] lists at most five customers, as many as there
    are when there are fewer, in non-increasing order of their counts; the
    listed keys are distinct and every listed customer has a count of at
    least 1. *)
Theorem customers_listed :
  forall transactions : list Transactions.NormalizedTransaction,
    let summary := SummaryCard.summarizeCustomers transactions in
    List.length (SummaryCard.customerList summary)
    = Nat.min 5 (SummaryCard.totalUnique summary) /\
    CardSpec.descending (fun entry => SummaryCard.count (snd entry))
                        (SummaryCard.customerList summary) /\
    List.NoDup (map fst (SummaryCard.customerList summary)) /\
    Forall (fun entry => 1 <= SummaryCard.count (snd entry))
           (SummaryCard.customerList summary).
Proof.
  intros transactions. simpl.
  destruct (forEachCustomer_facts transactions 0 [])
    as ((N & C) & _); [split; constructor|].
  set (entries := SummaryCard.forEachCustomer transactions 0 []) in *.
  set (weight := fun entry : string * SummaryCard.CustomerSummary =>
                   SummaryCard.count (snd entry)) in *.
  pose proof (sortDescending_permutation weight entries) as P.
  split; [|split; [|split]].
  - rewrite length_firstn. now rewrite <- (Permutation_length P).
  - apply firstn_descending, sortDescending_descending.
  - rewrite <- firstn_map.
    apply (NoDup_app_remove_r
             _ (skipn 5 (map fst (sortDescending weight entries)))).
    rewrite firstn_skipn.
    apply (Permutation_NoDup (Permutation_map fst P) N).
  - apply List.Forall_forall. intros entry I. apply firstn_In in I.
    rewrite List.Forall_forall in C. apply C.
    apply (Permutation_in _ (Permutation_sym P) I).
Qed.

(** X12. [summarizeCustomers] counts every recorded transaction once: the
    number of customers is at most the number of recorded transactions, which
    is at most the number of transactions; the listed counts add up to at
    most that number, and to exactly that number when there are no more than
    five customers. Every transaction is recorded when each has a non-empty
    email. *)
Theorem customers_counted :
  forall transactions : list Transactions.NormalizedTransaction,
    let summary := SummaryCard.summarizeCustomers transactions in
    let recorded := CardSpec.keyedFrom transactions 0 in
    SummaryCard.totalUnique summary <= recorded /\
    recorded <= List.length transactions /\
    CardSpec.sumCounts (SummaryCard.customerList summary) <= recorded /\
    (SummaryCard.totalUnique summary <= 5 ->
     CardSpec.sumCounts (SummaryCard.customerList summary) = recorded) /\
    (Forall (fun txn => truthy (Transactions.customerEmail txn) = true)
            transactions ->
     recorded = List.length transactions).
Proof.
  intros transactions. simpl.
  destruct (forEachCustomer_facts transactions 0 [])
    as (_ & S & L); [split; constructor|].
  set (entries := SummaryCard.forEachCustomer transactions 0 []) in *.
  set (weight := fun entry : string * SummaryCard.CustomerSummary =>
                   SummaryCard.count (snd entry)) in *.
  pose proof (sortDescending_permutation weight entries) as P.
  assert (CardSpec.sumCounts (sortDescending weight entries)
          = CardSpec.keyedFrom transactions 0) as T.
  { change (CardSpec.keyedFrom transactions 0)
      with (CardSpec.sumCounts [] + CardSpec.keyedFrom transactions 0).
    rewrite <- S. unfold CardSpec.sumCounts.
    symmetry. apply Permutation_list_sum, Permutation_map, P. }
  split; [simpl in L; lia|].
  split; [apply keyedFrom_bound|].
  split; [|split].
  - rewrite <- T. unfold CardSpec.sumCounts. rewrite <- firstn_map.
    apply firstn_sum.
  - intros U. rewrite <- T. f_equal. apply firstn_all2.
    now rewrite <- (Permutation_length P).
  - apply keyedFrom_all.
Qed.

(** ** Failure reasons *)

Section CapitalizeFacts.
Import SummaryCard.

Lemma capitalize_unit_lower (atBoundary : bool) (c : ascii) :
  toLowerCaseUnit
    (if atBoundary && isWordUnit c then toUpperCaseWordUnit c else c)
  = toLowerCaseUnit c.
Proof.
  destruct atBoundary; [|reflexivity].
  destruct c as [[] [] [] [] [] [] [] []]; reflexivity.
Qed.

Lemma capitalize_unit_whitespace (atBoundary : bool) (c : ascii) :
  isWhiteSpace
    (if atBoundary && isWordUnit c then toUpperCaseWordUnit c else c)
  = isWhiteSpace c.
Proof.
  destruct atBoundary; [|reflexivity].
  destruct c as [[] [] [] [] [] [] [] []]; reflexivity.
Qed.

Lemma capitalize_unit_idempotent (atBoundary : bool) (c : ascii) :
  let once := if atBoundary && isWordUnit c then toUpperCaseWordUnit c else c in
  (if atBoundary && isWordUnit once then toUpperCaseWordUnit once else once)
  = once.
Proof.
  destruct atBoundary; [|reflexivity].
  destruct c as [[] [] [] [] [] [] [] []]; reflexivity.
Qed.

Lemma capitalizeFrom_lower (atBoundary : bool) (value : string) :
  toLowerCase (capitalizeFrom atBoundary value) = toLowerCase value.
Proof.
  revert atBoundary. induction value as [|c rest IH]; intros atBoundary;
    [reflexivity|].
  simpl. now rewrite capitalize_unit_lower, IH.
Qed.

Lemma capitalizeFrom_length (atBoundary : bool) (value : string) :
  String.length (capitalizeFrom atBoundary value) = String.length value.
Proof.
  revert atBoundary. induction value as [|c rest IH]; intros atBoundary;
    [reflexivity|].
  simpl. now rewrite IH.
Qed.

Lemma capitalizeFrom_idempotent (atBoundary : bool) (value : string) :
  capitalizeFrom atBoundary (capitalizeFrom atBoundary value)
  = capitalizeFrom atBoundary value.
Proof.
  revert atBoundary. induction value as [|c rest IH]; intros atBoundary;
    [reflexivity|].
  simpl. rewrite capitalize_unit_whitespace, IH.
  now rewrite (capitalize_unit_idempotent atBoundary c).
Qed.

End CapitalizeFacts.

(** X13. [capitalize] changes the case of letters only: the result has the
    length of its argument and the same lower-cased form, and capitalizing
    twice is capitalizing once. *)
Theorem capitalize_changes_case_only :
  forall value : string,
    String.length (SummaryCard.capitalize value) = String.length value /\
    toLowerCase (SummaryCard.capitalize value) = toLowerCase value /\
    SummaryCard.capitalize (SummaryCard.capitalize value)
    = SummaryCard.capitalize value.
Proof.
  intros value. unfold SummaryCard.capitalize. split; [|split].
  - apply capitalizeFrom_length.
  - apply capitalizeFrom_lower.
  - apply capitalizeFrom_idempotent.
Qed.

Section ReasonFacts.
Import SummaryCard.

Lemma Map_set_keys {V} (key other : string) (value : V)
      (entries : list (string * V)) :
  In other (map fst (Map_set key value entries)) ->
  other = key \/ In other (map fst entries).
Proof.
  destruct (in_dec string_dec key (map fst entries)) as [I|A].
  - rewrite (Map_set_present key value entries I). now right.
  - rewrite (Map_set_absent key value entries A), map_app, in_app_iff.
    simpl. intros [O|[<-|[]]]; [now right|now left].
Qed.

Lemma Map_set_keys_Forall {V} (P : string -> Prop) (key : string) (value : V)
      (entries : list (string * V)) :
  P key -> Forall (fun entry => P (fst entry)) entries ->
  Forall (fun entry => P (fst entry)) (Map_set key value entries).
Proof.
  intros PK F. induction F as [|[k v] rest Pk F IH]; simpl.
  - constructor; [exact PK|constructor].
  - destruct (String.eqb k key); constructor; simpl; assumption.
Qed.

Lemma recordReason_invariant (reasons : list (string * nat))
      (txn : Transactions.NormalizedTransaction) :
  CardSpec.reasonsInvariant reasons ->
  CardSpec.reasonsInvariant (recordReason reasons txn).
Proof.
  intros (N & L & C). unfold recordReason.
  destruct (negb (truthy (trim <$> Transactions.failureReason txn)));
    [now repeat split|].
  split; [now apply Map_set_NoDup|]. split.
  - apply (Map_set_keys_Forall (fun key => toLowerCase key = key)); trivial.
    apply toLowerCase_idempotent.
  - apply (Map_set_Forall (fun total => 1 <= total)); trivial. lia.
Qed.

Lemma recordReason_sum (reasons : list (string * nat))
      (txn : Transactions.NormalizedTransaction) :
  list_sum (map snd (recordReason reasons txn))
  = list_sum (map snd reasons) + (if CardSpec.isReasoned txn then 1 else 0).
Proof.
  unfold recordReason, CardSpec.isReasoned.
  destruct (truthy (trim <$> Transactions.failureReason txn)); simpl; [|lia].
  set (key := toLowerCase (default "" (trim <$> Transactions.failureReason txn))).
  destruct (Map_get key reasons) as [total|] eqn:G.
  - pose proof (Map_set_sum (fun total => total) key total (total + 1) reasons G)
      as S.
    cbv beta in S.
    change (fun entry : string * nat => snd entry) with (@snd string nat) in S.
    simpl. lia.
  - apply Map_get_None in G. rewrite (Map_set_absent _ _ _ G).
    rewrite map_app, list_sum_app. simpl. lia.
Qed.

Lemma reasons_facts (transactions : list Transactions.NormalizedTransaction) :
  forall reasons : list (string * nat),
    CardSpec.reasonsInvariant reasons ->
    CardSpec.reasonsInvariant (fold_left recordReason transactions reasons) /\
    list_sum (map snd (fold_left recordReason transactions reasons))
    = list_sum (map snd reasons)
      + List.length (List.filter CardSpec.isReasoned transactions).
Proof.
  induction transactions as [|txn rest IH]; intros reasons I; simpl.
  - split; [exact I|lia].
  - destruct (IH _ (recordReason_invariant reasons txn I)) as (I' & S).
    split; [exact I'|]. rewrite S, recordReason_sum.
    destruct (CardSpec.isReasoned txn); simpl; lia.
Qed.

Lemma reasoned_nonSuccess (transactions : list Transactions.NormalizedTransaction) :
  List.filter CardSpec.isReasoned (List.filter isNonSuccess transactions)
  = List.filter CardSpec.hasReason transactions.
Proof.
  induction transactions as [|txn rest IH]; [reflexivity|].
  simpl. unfold CardSpec.hasReason at 1.
  destruct (isNonSuccess txn); simpl; [|exact IH].
  fold (CardSpec.isReasoned txn). destruct (CardSpec.isReasoned txn); now rewrite IH.
Qed.

Lemma positive_sum_nonempty (entries : list (string * nat)) :
  Forall (fun entry => 1 <= snd entry) entries ->
  (List.length entries = 0 <-> list_sum (map snd entries) = 0).
Proof.
  destruct 1 as [|entry rest P _]; simpl; [tauto|]. split; [discriminate|lia].
Qed.

End ReasonFacts.

Section PercentageFacts.

Lemma nan_not_below (x y : float) :
  PrimFloat.is_nan x = true -> (x <? y)%float = false.
Proof.
  unfold PrimFloat.is_nan. rewrite FloatAxioms.ltb_spec, FloatAxioms.eqb_spec.
  unfold SpecFloat.SFltb, SpecFloat.SFeqb, SpecFloat.SFcompare.
  destruct (FloatOps.Prim2SF x) as [s|s| |s m e];
    try (destruct s; discriminate); try reflexivity.
  destruct s; rewrite Z.compare_refl, ?Pos.compare_refl; simpl;
    rewrite ?Pos.compare_refl; simpl; discriminate.
Qed.

Lemma Math_max1_floor (x : float) : (Math_max1 x <? 1)%float = false.
Proof.
  unfold Math_max1. destruct (PrimFloat.is_nan x) eqn:N.
  - now apply nan_not_below.
  - destruct (x <? 1)%float eqn:L; [reflexivity|exact L].
Qed.

End PercentageFacts.

(** X14. [summarizeFailureReasons] lists at most four reasons in non-increasing
    order of their counts; every listed reason has a count of at least 1 and
    a percentage that is never below 1; no two listed reasons are equal up
    to case; the listed counts add up to at most the number of non-success
    transactions that carry a non-blank failure reason. *)
Theorem failure_reasons_listed :
  forall (math : MathHost)
         (transactions : list Transactions.NormalizedTransaction),
    let reasons := SummaryCard.summarizeFailureReasons transactions in
    List.length reasons <= 4 /\
    CardSpec.descending SummaryCard.reasonCount reasons /\
    Forall (fun entry => 1 <= SummaryCard.reasonCount entry) reasons /\
    Forall (fun entry => (SummaryCard.percentage entry <? 1)%float = false)
           reasons /\
    List.NoDup (map (fun entry => toLowerCase (SummaryCard.reason entry))
                    reasons) /\
    list_sum (map SummaryCard.reasonCount reasons)
    <= List.length (List.filter CardSpec.hasReason transactions).
Proof.
  intros math transactions. cbv zeta.
  unfold SummaryCard.summarizeFailureReasons.
  set (nonSuccessTxns := List.filter SummaryCard.isNonSuccess transactions).
  destruct (reasons_facts nonSuccessTxns []) as ((N & L & C) & S);
    [repeat split; constructor|].
  unfold nonSuccessTxns in S at 2. rewrite reasoned_nonSuccess in S.
  set (entries := fold_left SummaryCard.recordReason nonSuccessTxns []) in *.
  destruct ((List.length entries =? 0)%nat
            || (List.length nonSuccessTxns =? 0)%nat).
  { repeat split; simpl; try lia; constructor. }
  set (summaryOf := fun entry : string * nat =>
         {| SummaryCard.reason := SummaryCard.capitalize (fst entry);
            SummaryCard.reasonCount := snd entry;
            SummaryCard.percentage :=
              SummaryCard.percentageOf (snd entry)
                                       (List.length nonSuccessTxns) |}).
  pose proof (sortDescending_permutation SummaryCard.reasonCount
                                         (map summaryOf entries)) as P.
  set (sorted := sortDescending SummaryCard.reasonCount
                                (map summaryOf entries)) in *.
  assert (forall entry, In entry (firstn 4 sorted) ->
                        exists source, In source entries
                                       /\ entry = summaryOf source) as O.
  { intros entry I. apply firstn_In in I.
    apply (Permutation_in _ (Permutation_sym P)) in I.
    apply in_map_iff in I. destruct I as (source & <- & I). now exists source. }
  split; [rewrite length_firstn; lia|].
  split; [apply firstn_descending, sortDescending_descending|].
  split; [|split; [|split]].
  - apply List.Forall_forall. intros entry I.
    destruct (O entry I) as (source & I' & ->). simpl.
    rewrite List.Forall_forall in C. now apply C.
  - apply List.Forall_forall. intros entry I.
    destruct (O entry I) as (source & I' & ->). simpl.
    apply Math_max1_floor.
  - rewrite <- firstn_map.
    apply (NoDup_app_remove_r
             _ (skipn 4 (map (fun entry =>
                                toLowerCase (SummaryCard.reason entry))
                             sorted))).
    rewrite firstn_skipn.
    apply (Permutation_NoDup
             (Permutation_map
                (fun entry => toLowerCase (SummaryCard.reason entry)) P)).
    rewrite map_map. simpl.
    replace (map (fun source : string * nat =>
                    toLowerCase (SummaryCard.capitalize (fst source)))
                 entries)
      with (map fst entries); [exact N|].
    apply map_ext_in. intros source I.
    rewrite List.Forall_forall in L.
    unfold SummaryCard.capitalize. rewrite capitalizeFrom_lower.
    symmetry. now apply L.
  - rewrite <- firstn_map. etransitivity; [apply firstn_sum|].
    rewrite <- (Permutation_list_sum
                  (Permutation_map SummaryCard.reasonCount P)).
    rewrite map_map. simpl.
    change (map (fun entry : string * nat => snd entry) entries)
      with (map snd entries).
    simpl in S. lia.
Qed.

(** X15. [summarizeFailureReasons] returns no reason exactly when no
    transaction that is not a success carries a non-blank failure reason. *)
Theorem failure_reasons_empty_iff :
  forall (math : MathHost)
         (transactions : list Transactions.NormalizedTransaction),
    SummaryCard.summarizeFailureReasons transactions = []
    <-> Forall (fun txn => CardSpec.hasReason txn = false) transactions.
Proof.
  intros math transactions.
  unfold SummaryCard.summarizeFailureReasons.
  set (nonSuccessTxns := List.filter SummaryCard.isNonSuccess transactions).
  destruct (reasons_facts nonSuccessTxns []) as ((N & L & C) & S);
    [repeat split; constructor|].
  unfold nonSuccessTxns in S at 2. rewrite reasoned_nonSuccess in S.
  set (entries := fold_left SummaryCard.recordReason nonSuccessTxns []) in *.
  pose proof (positive_sum_nonempty entries C) as Z. simpl in S.
  assert (List.length (List.filter CardSpec.hasReason transactions) = 0
          <-> Forall (fun txn => CardSpec.hasReason txn = false) transactions)
    as F.
  { clear. induction transactions as [|txn rest IH]; simpl.
    - split; [constructor|reflexivity].
    - destruct (CardSpec.hasReason txn) eqn:R; simpl.
      + split; [discriminate|]. intros F. inversion F. congruence.
      + rewrite IH. split; [now constructor|]. intros F. now inversion F. }
  destruct (List.length entries =? 0)%nat eqn:E; simpl.
  - apply Nat.eqb_eq in E. split; [|reflexivity]. intros _.
    apply F. apply Z in E. lia.
  - apply Nat.eqb_neq in E.
    assert (List.length (List.filter CardSpec.hasReason transactions) <> 0)
      as R by (rewrite <- S; intros R; apply E, Z, R).
    destruct (List.length nonSuccessTxns =? 0)%nat eqn:E'.
    + apply Nat.eqb_eq, length_zero_iff_nil in E'.
      unfold entries in E. rewrite E' in E. now elim E.
    + split; [|intros A; now apply F in A].
      intros T. apply (f_equal (@List.length _)) in T.
      rewrite length_firstn in T.
      rewrite <- (Permutation_length
                    (sortDescending_permutation SummaryCard.reasonCount _)) in T.
      rewrite length_map in T.
      change (Nat.min 4 (List.length entries) = 0) in T. lia.
Qed.

(** ** The card's derived values *)

Section CardFacts.
Import SummaryCard.

Lemma countStatus_counts (transactions : list Transactions.NormalizedTransaction) :
  forall acc : StatusCounts,
    let counts := fold_left countStatus transactions acc in
    success counts
    = success acc + CardSpec.countOf Transactions.Success transactions /\
    failed counts
    = failed acc + CardSpec.countOf Transactions.Failed transactions /\
    abandoned counts
    = abandoned acc + CardSpec.countOf Transactions.Abandoned transactions /\
    other counts
    = other acc + CardSpec.countOf Transactions.Other transactions.
Proof.
  unfold CardSpec.countOf.
  induction transactions as [|txn rest IH]; intros acc; simpl.
  - repeat split; lia.
  - specialize (IH (countStatus acc txn)). simpl in IH.
    destruct IH as (S & F & A & O). rewrite S, F, A, O.
    unfold countStatus.
    destruct (Transactions.status txn); simpl; repeat split; lia.
Qed.

Lemma countOf_partition (transactions : list Transactions.NormalizedTransaction) :
  CardSpec.countOf Transactions.Success transactions
  + CardSpec.countOf Transactions.Failed transactions
  + CardSpec.countOf Transactions.Abandoned transactions
  + CardSpec.countOf Transactions.Other transactions
  = List.length transactions.
Proof.
  unfold CardSpec.countOf.
  induction transactions as [|txn rest IH]; [reflexivity|].
  simpl. destruct (Transactions.status txn); simpl; lia.
Qed.

Lemma not_below_nan (x y : float) :
  PrimFloat.is_nan y = true -> (x <? y)%float = false.
Proof.
  unfold PrimFloat.is_nan. rewrite FloatAxioms.ltb_spec, FloatAxioms.eqb_spec.
  unfold SpecFloat.SFltb, SpecFloat.SFeqb, SpecFloat.SFcompare.
  destruct (FloatOps.Prim2SF y) as [s|s| |s m e];
    try (destruct s; discriminate).
  - intros _. now destruct (FloatOps.Prim2SF x) as [| | |[]].
  - destruct s; rewrite Z.compare_refl, ?Pos.compare_refl; simpl;
      rewrite ?Pos.compare_refl; simpl; discriminate.
Qed.

Lemma positive_truthy (x : float) :
  (0 <? x)%float = true -> truthy (Some x) = true.
Proof.
  intros P. unfold truthy, option_number_truthy, truthyNumber.
  rewrite (positive_not_zero x P).
  destruct (PrimFloat.is_nan x) eqn:N; [|reflexivity].
  now rewrite (not_below_nan 0 x N) in P.
Qed.

Lemma sumAmounts_positive (transactions : list Transactions.NormalizedTransaction)
      (volume : float) :
  Transactions.sumAmounts transactions = Some volume ->
  (0 <? volume)%float = true.
Proof.
  unfold Transactions.sumAmounts.
  destruct (0 <? _)%float eqn:P; [|discriminate]. now intros [= <-].
Qed.

Lemma cardTotalVolume_positive
      (transactions : list Transactions.NormalizedTransaction)
      (meta : option Transactions.TransactionMeta) (volume : float) :
  cardTotalVolume transactions meta = Some volume ->
  (0 <? volume)%float = true.
Proof.
  unfold cardTotalVolume.
  destruct (meta ≫= Transactions.totalVolume) as [reported|].
  - destruct (0 <? reported)%float eqn:P.
    + now intros [= <-].
    + apply sumAmounts_positive.
  - apply sumAmounts_positive.
Qed.

End CardFacts.

(** X16. The status counters of the card count the transactions of each
    status, and the four counters add up to the number of transactions. *)
Theorem statusCounts_partition :
  forall transactions : list Transactions.NormalizedTransaction,
    let counts := SummaryCard.statusCounts transactions in
    SummaryCard.success counts
    = CardSpec.countOf Transactions.Success transactions /\
    SummaryCard.failed counts
    = CardSpec.countOf Transactions.Failed transactions /\
    SummaryCard.abandoned counts
    = CardSpec.countOf Transactions.Abandoned transactions /\
    SummaryCard.other counts
    = CardSpec.countOf Transactions.Other transactions /\
    SummaryCard.success counts + SummaryCard.failed counts
    + SummaryCard.abandoned counts + SummaryCard.other counts
    = List.length transactions.
Proof.
  intros transactions. cbv zeta. unfold SummaryCard.statusCounts.
  destruct (countStatus_counts
              transactions
              {| SummaryCard.success := 0; SummaryCard.failed := 0;
                 SummaryCard.abandoned := 0; SummaryCard.other := 0 |})
    as (S & F & A & O).
  simpl in S, F, A, O. rewrite S, F, A, O.
  repeat split. apply countOf_partition.
Qed.

(** X17. The total volume the card shows is positive whenever it is defined:
    a reported volume is kept only when it is above zero; in every other
    case (a reported volume that is not above zero, a meta without a volume,
    no meta at all) it is the sum of the amounts. Formatting it never throws,
    and the card has a formatted volume exactly when it has a total
    volume. *)
Theorem card_volume_positive_and_formatted :
  forall (host : Host)
         (transactions : list Transactions.NormalizedTransaction)
         (meta : option Transactions.TransactionMeta),
    (forall volume,
        SummaryCard.cardTotalVolume transactions meta = Some volume ->
        (0 <? volume)%float = true) /\
    (forall reported,
        meta ≫= Transactions.totalVolume = Some reported ->
        (0 <? reported)%float = true ->
        SummaryCard.cardTotalVolume transactions meta = Some reported) /\
    (forall reported,
        meta ≫= Transactions.totalVolume = Some reported ->
        (0 <? reported)%float = false ->
        SummaryCard.cardTotalVolume transactions meta
        = Transactions.sumAmounts transactions) /\
    (meta ≫= Transactions.totalVolume = None ->
     SummaryCard.cardTotalVolume transactions meta
     = Transactions.sumAmounts transactions) /\
    SummaryCard.cardTotalVolume transactions None
    = Transactions.sumAmounts transactions /\
    exists shown,
      SummaryCard.formattedVolume transactions meta = Ok shown /\
      (shown = None
       <-> SummaryCard.cardTotalVolume transactions meta = None).
Proof.
  intros host transactions meta.
  split; [apply cardTotalVolume_positive|].
  split; [|split; [|split; [|split]]].
  - intros reported R P. unfold SummaryCard.cardTotalVolume.
    now rewrite R, P.
  - intros reported R P. unfold SummaryCard.cardTotalVolume.
    now rewrite R, P.
  - intros R. unfold SummaryCard.cardTotalVolume. now rewrite R.
  - reflexivity.
  - unfold SummaryCard.formattedVolume.
    pose proof (cardTotalVolume_positive transactions meta) as P.
    destruct (SummaryCard.cardTotalVolume transactions meta) as [volume|].
    + rewrite (positive_truthy volume (P volume eq_refl)).
      unfold Transactions.formatCurrencyAmount.
      destruct (truthy (SummaryCard.cardCurrency transactions meta)).
      * destruct (Intl_formatCurrency _ _); simpl; eexists;
          (split; [reflexivity|split; discriminate]).
      * destruct (Intl_formatDecimal _); simpl; eexists;
          (split; [reflexivity|split; discriminate]).
    + simpl. exists None. split; [reflexivity|tauto].
Qed.

(** ** Text of a chat message *)

Section ChatTextFacts.
Import ChatText.

Lemma isTextPart_returns (part : JsValue) :
  isTextPart part = Ok (isTextPartValue part).
Proof.
  destruct part as [| | | | |elements|members]; try reflexivity.
  unfold isTextPart, isTextPartValue, hasProperty, getProp.
  change (negb (Transactions.isRecord (JObj members))) with false.
  cbv iota.
  destruct (members !! "type") as [type|]; [|reflexivity].
  unfold bind, call, default. cbv beta iota.
  rewrite bool_decide_eq_true_2 by (now exists type).
  cbv beta iota. change (negb true) with false. cbv iota. unfold id.
  destruct (isString type "text"); reflexivity.
Qed.

Lemma filterM_isTextPart (elements : list JsValue) :
  filterM isTextPart elements = Ok (List.filter isTextPartValue elements).
Proof.
  induction elements as [|part rest IH]; [reflexivity|].
  simpl. rewrite isTextPart_returns, IH. simpl.
  now destruct (isTextPartValue part).
Qed.

Lemma mapM_text (kept : list JsValue) :
  Forall (fun part => isTextPartValue part = true) kept ->
  mapM (fun part => textOf @@ part.["text"]) kept
  = Ok (map (fun part => textOf (field part "text")) kept).
Proof.
  induction 1 as [|part rest T F IH]; [reflexivity|].
  cbn [mapM map]. rewrite IH.
  destruct part as [| | | | |elements|members]; try discriminate T.
  reflexivity.
Qed.

Lemma filter_isTextPartValue (elements : list JsValue) :
  Forall (fun part => isTextPartValue part = true)
         (List.filter isTextPartValue elements).
Proof.
  apply List.Forall_forall. intros part I.
  now apply List.filter_In in I.
Qed.

Lemma joinTextFromParts_returns (elements : list JsValue) :
  joinTextFromParts (Some elements) = Ok (joinedText elements).
Proof.
  destruct elements as [|part rest]; [reflexivity|].
  unfold joinTextFromParts, joinedText.
  rewrite filterM_isTextPart. unfold bind at 1.
  rewrite (mapM_text _ (filter_isTextPartValue _)). reflexivity.
Qed.

Lemma joinedText_clean (elements : list JsValue) :
  Spec.absentOrClean (joinedText elements).
Proof.
  unfold joinedText.
  set (text := String.concat _ _).
  destruct (nonEmpty (trim text)) eqn:N; simpl; [|exact I].
  destruct (trim_clean text) as [E|C]; [|exact C].
  now rewrite E in N.
Qed.

Lemma joinedText_truthy (elements : list JsValue) :
  truthy (joinedText elements) = negb (isNullish (joinedText elements)).
Proof.
  unfold joinedText.
  destruct (nonEmpty (trim _)) eqn:N; [|reflexivity].
  unfold truthy, option_string_truthy. now rewrite N.
Qed.

Lemma trimmedString_clean (content : JsValue) :
  Spec.absentOrClean (trimmedString content).
Proof.
  destruct content as [| | | |s| |]; try exact I.
  unfold trimmedString.
  destruct (nonEmpty (trim s)) eqn:N; simpl; [|exact I].
  destruct (trim_clean s) as [E|C]; [|exact C].
  now rewrite E in N.
Qed.

(** [toTextFromContent], as a value. *)
Lemma toTextFromContent_returns (content : JsValue) :
  toTextFromContent content
  = Ok match content with
       | JArr elements => joinedText elements
       | _ => trimmedString content
       end.
Proof.
  unfold toTextFromContent.
  destruct content as [| | | |s|elements|members]; try reflexivity.
  change (Array_isArray (JArr elements)) with true. cbv iota.
  unfold elementsOf, bind at 2. rewrite joinTextFromParts_returns.
  unfold bind. rewrite joinedText_truthy.
  now destruct (joinedText elements).
Qed.

(** [toTextContent], as a value. *)
Lemma toTextContent_returns (message : JsValue) :
  toTextContent message
  = Ok (if truthy message
        then match field message "parts", field message "content" with
             | JArr elements, content =>
                 joinedText elements |? trimmedString content
             | _, JArr elements => joinedText elements
             | _, content => trimmedString content
             end
        else None).
Proof.
  unfold toTextContent.
  destruct (truthy message) eqn:T; [|reflexivity].
  change (negb true) with false. cbv iota.
  assert (forall key, message.[key] = Ok (field message key)) as G.
  { intros key. destruct message; try reflexivity; discriminate T. }
  rewrite !G. unfold bind at 1 2.
  destruct (field message "parts") as [| | | | |elements|members] eqn:P;
    try (destruct (field message "content")
           as [| | | | |elements'|members'] eqn:C; cbn [Array_isArray];
         cbv iota; unfold call, elementsOf, bind;
         rewrite ?joinTextFromParts_returns; cbv beta iota;
         try reflexivity;
         rewrite joinedText_truthy;
         now destruct (joinedText elements')).
  cbn [Array_isArray]. cbv iota. unfold call, elementsOf, bind.
  rewrite joinTextFromParts_returns. rewrite joinedText_truthy.
  now destruct (joinedText elements).
Qed.

End ChatTextFacts.

(** X18. [toTextFromContent] and [toTextContent] never throw, whatever value
    they are given; the text they return is absent, or non-empty with no
    white space at either end. *)
Theorem chat_text_never_throws :
  forall value : JsValue,
    (exists text,
        ChatText.toTextFromContent value = Ok text /\ Spec.absentOrClean text) /\
    (exists text,
        ChatText.toTextContent value = Ok text /\ Spec.absentOrClean text).
Proof.
  intros value. split.
  - rewrite toTextFromContent_returns. eexists. split; [reflexivity|].
    destruct value; try apply trimmedString_clean. apply joinedText_clean.
  - rewrite toTextContent_returns. eexists. split; [reflexivity|].
    destruct (truthy value); [|exact I].
    destruct (field value "parts") as [| | | | |elements|members].
    6: { unfold orElse.
         destruct (isNullish (ChatText.joinedText elements));
           [apply trimmedString_clean|apply joinedText_clean]. }
    all: destruct (field value "content");
      try apply trimmedString_clean; apply joinedText_clean.
Qed.

(** X19. A part that [isTextPart] rejects does not contribute to the joined
    text: [joinTextFromParts] returns the same with and without it. *)
Theorem non_text_parts_are_ignored :
  forall (part : JsValue) (before after : list JsValue),
    ChatText.isTextPart part = Ok false ->
    ChatText.joinTextFromParts (Some (before ++ part :: after)%list)
    = ChatText.joinTextFromParts (Some (before ++ after)%list).
Proof.
  intros part before after R.
  rewrite isTextPart_returns in R. injection R as R.
  rewrite !joinTextFromParts_returns. unfold ChatText.joinedText.
  rewrite !List.filter_app. simpl. now rewrite R.
Qed.

(** [[{ type: "text", text: "Hi" }, { type: "step-start" }]]: the second part
    is dropped. *)
Lemma non_text_parts_are_ignored_witness :
  ChatText.joinTextFromParts
    (Some [ChatText.textPart "Hi"; ChatText.stepStart])
  = ChatText.joinTextFromParts (Some [ChatText.textPart "Hi"]).
Proof.
  exact (non_text_parts_are_ignored
           ChatText.stepStart [ChatText.textPart "Hi"] [] eq_refl).
Defined.

(** X20. A content that is an array of one text part reads as the string the
    part holds, and so does a message whose [parts] is that array: the text
    is the trimmed string, and absent when the string is blank. *)
Theorem one_text_part_reads_as_its_text :
  forall text : string,
    ChatText.toTextFromContent (JArr [ChatText.textPart text])
    = ChatText.toTextFromContent (JStr text) /\
    ChatText.toTextContent (obj [("parts", JArr [ChatText.textPart text])])
    = ChatText.toTextFromContent (JStr text) /\
    ChatText.toTextFromContent (JStr text)
    = Ok (if nonEmpty (trim text) then Some (trim text) else None).
Proof.
  intros text.
  rewrite !toTextFromContent_returns, toTextContent_returns.
  assert (ChatText.joinedText [ChatText.textPart text]
          = ChatText.trimmedString (JStr text)) as J.
  { unfold ChatText.joinedText, ChatText.trimmedString.
    change (List.filter ChatText.isTextPartValue [ChatText.textPart text])
      with [ChatText.textPart text].
    change (map (fun part => ChatText.textOf (field part "text"))
                [ChatText.textPart text]) with [text].
    reflexivity. }
  split; [now rewrite J|]. split; [|reflexivity].
  change (truthy (obj [("parts", JArr [ChatText.textPart text])])) with true.
  change (field (obj [("parts", JArr [ChatText.textPart text])]) "parts")
    with (JArr [ChatText.textPart text]).
  change (field (obj [("parts", JArr [ChatText.textPart text])]) "content")
    with JUndefined.
  cbv iota. rewrite J. unfold orElse.
  now destruct (ChatText.trimmedString (JStr text)).
Qed.

(** X21. [toTextContent] returns nothing for a message that is missing; for a
    message it prefers the text of [parts]: when [parts] is an array whose
    text parts join to a text that is not blank, that text is returned, and
    when [parts] is not an array the message reads as its [content] does
    through [toTextFromContent]. *)
Theorem toTextContent_prefers_parts :
  forall message : JsValue,
    truthy message = true ->
    (forall elements text,
        field message "parts" = JArr elements ->
        ChatText.joinTextFromParts (Some elements) = Ok (Some text) ->
        ChatText.toTextContent message = Ok (Some text)) /\
    (forall elements,
        field message "parts" = JArr elements ->
        ChatText.joinTextFromParts (Some elements) = Ok None ->
        ChatText.toTextContent message
        = Ok (ChatText.trimmedString (field message "content"))) /\
    (Array_isArray (field message "parts") = false ->
     ChatText.toTextContent message
     = ChatText.toTextFromContent (field message "content")).
Proof.
  intros message T.
  rewrite toTextContent_returns, T. split; [|split].
  - intros elements text -> J. rewrite joinTextFromParts_returns in J.
    injection J as ->. reflexivity.
  - intros elements -> J. rewrite joinTextFromParts_returns in J.
    injection J as ->. reflexivity.
  - intros A. rewrite toTextFromContent_returns.
    destruct (field message "parts"); try discriminate A;
      now destruct (field message "content").
Qed.

(** [{ parts: "none", content: "  Hello " }]: [parts] is not an array, the
    content is read. *)
Lemma toTextContent_prefers_parts_witness :
  ChatText.toTextContent
    (obj [("parts", JStr "none"); ("content", JStr "  Hello ")])
  = Ok (Some "Hello").
Proof.
  destruct (toTextContent_prefers_parts
              (obj [("parts", JStr "none"); ("content", JStr "  Hello ")])
              eq_refl) as (_ & _ & R).
  rewrite (R eq_refl). reflexivity.
Defined.

(** ** The card on the normalizer's output *)

Section CardOnOutput.
Context `{Host}.
Import Transactions.

Lemma derivedVolume_positive (transactions : list NormalizedTransaction)
      (volume : float) :
  Spec.derivedVolume transactions = Some volume -> (0 <? volume)%float = true.
Proof.
  rewrite <- sumAmounts_derivedVolume. apply sumAmounts_positive.
Qed.

Lemma cardTotal_output (data : JsValue) :
  let result := Value.normalizeTransactionsFromOutput data in
  total (meta result)
  = Some (SummaryCard.cardTotal (transactions result) (Some (meta result))).
Proof.
  cbv zeta. unfold SummaryCard.cardTotal.
  change (Some (meta (Value.normalizeTransactionsFromOutput data)) ≫= total)
    with (total (meta (Value.normalizeTransactionsFromOutput data))).
  simpl total. now destruct (Value.reportedTotal data).
Qed.

Lemma cardCurrency_output (data : JsValue) :
  let result := Value.normalizeTransactionsFromOutput data in
  SummaryCard.cardCurrency (transactions result) (Some (meta result))
  = metaCurrency (meta result).
Proof.
  cbv zeta. unfold SummaryCard.cardCurrency.
  change (Some (meta (Value.normalizeTransactionsFromOutput data))
            ≫= metaCurrency)
    with (metaCurrency (meta (Value.normalizeTransactionsFromOutput data))).
  rewrite metaCurrency_value.
  destruct (Contract.gatewayCurrency data); [reflexivity|].
  simpl Spec.firstDefined.
  now destruct (inferCurrency _).
Qed.

Lemma cardTotalVolume_output (data : JsValue) :
  let result := Value.normalizeTransactionsFromOutput data in
  let shown :=
    SummaryCard.cardTotalVolume (transactions result) (Some (meta result)) in
  shown = totalVolume (meta result) \/
  exists reported,
    Spec.gatewayVolume data = Some reported /\
    (0 <? reported)%float = false /\
    shown = sumAmounts (transactions result).
Proof.
  cbv zeta. unfold SummaryCard.cardTotalVolume.
  change (Some (meta (Value.normalizeTransactionsFromOutput data))
            ≫= totalVolume)
    with (totalVolume (meta (Value.normalizeTransactionsFromOutput data))).
  rewrite totalVolume_value, sumAmounts_derivedVolume.
  set (derived := Spec.derivedVolume _).
  pose proof (derivedVolume_positive
                (transactions (Value.normalizeTransactionsFromOutput data)))
    as D.
  fold derived in D.
  destruct (Spec.gatewayVolume data) as [reported|].
  - destruct (PrimFloat.is_zero reported).
    + left. destruct derived as [volume|]; [|reflexivity].
      now rewrite (D volume eq_refl).
    + destruct (0 <? reported)%float eqn:P; [now left|].
      right. now exists reported.
  - left. destruct derived as [volume|]; [|reflexivity].
    now rewrite (D volume eq_refl).
Qed.

End CardOnOutput.

(** X22. On the output of the normalizer the card derives nothing new: its
    total is [meta.total], its currency is [meta.currency], and its total
    volume is [meta.totalVolume], except when the gateway reports a volume
    that is not above zero, where the card shows the sum of the amounts. *)
Theorem card_on_normalized_output `{Host} :
  forall data : JsValue,
    exists result,
      Transactions.normalizeTransactionsFromOutput data = Ok result /\
      let shown :=
        SummaryCard.cardTotalVolume (Transactions.transactions result)
                                    (Some (Transactions.meta result)) in
      Transactions.total (Transactions.meta result)
      = Some (SummaryCard.cardTotal (Transactions.transactions result)
                                    (Some (Transactions.meta result))) /\
      SummaryCard.cardCurrency (Transactions.transactions result)
                               (Some (Transactions.meta result))
      = Transactions.metaCurrency (Transactions.meta result) /\
      (shown = Transactions.totalVolume (Transactions.meta result) \/
       exists reported,
         Spec.gatewayVolume data = Some reported /\
         (0 <? reported)%float = false /\
         shown = Transactions.sumAmounts (Transactions.transactions result)).
Proof.
  intros data. exists (Value.normalizeTransactionsFromOutput data).
  split; [apply normalizeTransactionsFromOutput_returns|].
  cbv zeta. split; [apply cardTotal_output|].
  split; [apply cardCurrency_output|apply cardTotalVolume_output].
Qed.
